(** * ClawMCP Gateway: a shallow embedding of the service bridge

    The Go packages [config], [docker] (the [Manager] behind the HTTP
    facade), [mcp] (the stdio [Gateway]) and [handler] are embedded as
    state-passing functions over an explicit model of the operating system
    (environment, files, child processes and their pipes).  The external
    libraries the code calls (viper, encoding/json, the Docker client) are
    interfaces; small concrete instances are supplied for evaluation.

    Part I holds the definitions, Part II the theorems. *)

From Stdlib Require Import ZArith Ascii String List Lia.
From stdpp Require Import base option strings gmap list pretty.

Open Scope Z_scope.

(* ===================================================================== *)
(** * Part I -- definitions                                               *)
(* ===================================================================== *)

(** ** Go values *)

(** Go's [int] on the 64-bit targets the Dockerfile builds for. *)
Definition int_wrap (z : Z) : Z := (z + 2 ^ 63) mod 2 ^ 64 - 2 ^ 63.

(** Go's [error] values.  [Errorf] is [fmt.Errorf] with a formatted
    message, [Wrapf] is [fmt.Errorf] with a trailing [%w]; the other
    constructors are the errors of the libraries the code calls. *)
Inductive error : Type :=
| Errorf (msg : string)
| Wrapf (msg : string) (cause : error)
| io_EOF
| EPIPE
| ErrClosed
| ErrNotExist (path : string)
| ErrExecNotFound (name : string)
| ErrJSON
| ErrDocker (msg : string)
| ErrViper (msg : string)
| ctx_Canceled
| ctx_DeadlineExceeded.

(** A call either returns, never returns because it waits for something
    that does not come, or panics (index out of range). *)
Inductive outcome (A : Type) : Type :=
| Returned (a : A)
| Blocked
| Panicked.
Arguments Returned {A} a.
Arguments Blocked {A}.
Arguments Panicked {A}.

Definition newline : string := String "010"%char "".

(** [strings.HasPrefix] and [strings.TrimPrefix]. *)
Definition HasPrefix (s p : string) : bool := String.prefix p s.

Definition TrimPrefix (s p : string) : string :=
  if HasPrefix s p then String.substring (String.length p) (String.length s - String.length p) s
  else s.

(** [unicode.IsSpace] on the UTF-8 bytes of a Go string.  White space
    is one byte (tab, line feed, vertical tab, form feed, carriage return,
    space: [Ascii.is_space]), two bytes (U+0085, U+00A0) or three (U+1680,
    U+2000 to U+200A, U+2028, U+2029, U+202F, U+205F, U+3000).  Bytes that
    are not the encoding of a character decode to U+FFFD, one byte at a
    time, which is no white space. *)
Definition is_space2 (a b : ascii) : bool :=
  ((N_of_ascii a =? 194) && ((N_of_ascii b =? 133) || (N_of_ascii b =? 160)))%N.

Definition is_space3 (a b c : ascii) : bool :=
  let '(x, y, z) := (N_of_ascii a, N_of_ascii b, N_of_ascii c) in
  (((x =? 225) && (y =? 154) && (z =? 128))
   || ((x =? 226) && (y =? 128)
       && (((128 <=? z) && (z <=? 138)) || (z =? 168) || (z =? 169) || (z =? 175)))
   || ((x =? 226) && (y =? 129) && (z =? 159))
   || ((x =? 227) && (y =? 128) && (z =? 128)))%N.

(** [strings.Fields]: the maximal runs of characters that are no white
    space.  [cur] holds the bytes of the field being read, last first. *)
Fixpoint Fields_go (cur : string) (s : string) : list string :=
  let flush := fun rest : list string =>
    if String.eqb cur "" then rest else String.rev cur :: rest in
  match s with
  | EmptyString => flush []
  | String a s1 =>
      if Ascii.is_space a then flush (Fields_go "" s1)
      else
        match s1 with
        | String b s2 =>
            if is_space2 a b then flush (Fields_go "" s2)
            else
              match s2 with
              | String c s3 =>
                  if is_space3 a b c then flush (Fields_go "" s3)
                  else Fields_go (String a cur) s1
              | EmptyString => Fields_go (String a cur) s1
              end
        | EmptyString => Fields_go (String a cur) s1
        end
  end.

Definition Fields (s : string) : list string := Fields_go "" s.

(** [strings.TrimSpace]: the white space at both ends cut.  [TrimLeft]
    cuts at the front.  [TrimLeft_rev] does so on a string held last
    byte first, where the bytes of a character come in reverse, and
    thereby cuts at the back. *)
Fixpoint TrimLeft (s : string) : string :=
  match s with
  | String a s1 =>
      if Ascii.is_space a then TrimLeft s1
      else
        match s1 with
        | String b s2 =>
            if is_space2 a b then TrimLeft s2
            else
              match s2 with
              | String c s3 => if is_space3 a b c then TrimLeft s3 else s
              | EmptyString => s
              end
        | EmptyString => s
        end
  | EmptyString => EmptyString
  end.

Fixpoint TrimLeft_rev (s : string) : string :=
  match s with
  | String a s1 =>
      if Ascii.is_space a then TrimLeft_rev s1
      else
        match s1 with
        | String b s2 =>
            if is_space2 b a then TrimLeft_rev s2
            else
              match s2 with
              | String c s3 => if is_space3 c b a then TrimLeft_rev s3 else s
              | EmptyString => s
              end
        | EmptyString => s
        end
  | EmptyString => EmptyString
  end.

Definition TrimSpace (s : string) : string :=
  String.rev (TrimLeft_rev (String.rev (TrimLeft s))).

(** [strings.Split s sep] for a one-byte separator: the pieces between the
    separators, empty pieces included. *)
Fixpoint Split_go (sep : ascii) (cur : string) (s : string) : list string :=
  match s with
  | EmptyString => [String.rev cur]
  | String a s' =>
      if Ascii.eqb a sep then String.rev cur :: Split_go sep EmptyString s'
      else Split_go sep (String a cur) s'
  end.

Definition Split (s : string) (sep : ascii) : list string := Split_go sep EmptyString s.

(** [strings.SplitN s sep 2] for a one-byte separator: cut at the first
    separator, or the whole string alone when there is none. *)
Fixpoint SplitN2_go (sep : ascii) (cur : string) (s : string) : list string :=
  match s with
  | EmptyString => [String.rev cur]
  | String a s' =>
      if Ascii.eqb a sep then [String.rev cur; s']
      else SplitN2_go sep (String a cur) s'
  end.

Definition SplitN2 (s : string) (sep : ascii) : list string := SplitN2_go sep EmptyString s.

Definition contains_byte (c : ascii) (s : string) : bool :=
  existsb (Ascii.eqb c) (list_ascii_of_string s).

(** ** The operating system the gateway runs on *)

(** One direction of a pipe as its reader sees it: the chunks the writer
    has written and the reader has not yet consumed, in order, and whether
    the writer has closed its end. *)
Record Pipe : Type := mkPipe {
  pending : list string;
  closed : bool
}.

(** A child process started through [os/exec]. *)
Record Proc : Type := mkProc {
  argv : list string;
  envp : list string;
  setsid : bool;
  stdin_data : string;      (* every byte written to the child so far *)
  stdin_open : bool;        (* the parent's write end is still open *)
  stdout : Pipe;
  stderr : Pipe;
  exited : bool;
  exits_on_eof : bool       (* the child terminates when its stdin closes *)
}.

Record OS : Type := mkOS {
  environ : list (string * string);   (* the gateway's own environment *)
  files : gmap string string;         (* path to content *)
  executables : string -> list (string * bool);
                                      (* for a value of PATH, the names exec
                                         resolves, and whether that program
                                         exits when its stdin closes *)
  procs : list Proc;                  (* children, indexed by pid *)
  clock : N                           (* milliseconds *)
}.

Definition with_environ (e : list (string * string)) (o : OS) : OS :=
  mkOS e (files o) (executables o) (procs o) (clock o).
Definition with_procs (ps : list Proc) (o : OS) : OS :=
  mkOS (environ o) (files o) (executables o) ps (clock o).
Definition with_clock (t : N) (o : OS) : OS :=
  mkOS (environ o) (files o) (executables o) (procs o) t.

(** [os.Getenv]: the value, or the empty string when unset. *)
Fixpoint assoc_get (k : string) (l : list (string * string)) : option string :=
  match l with
  | [] => None
  | (k', v) :: l' => if String.eqb k k' then Some v else assoc_get k l'
  end.

Definition Getenv (o : OS) (k : string) : string :=
  match assoc_get k (environ o) with Some v => v | None => "" end.

(** [os.Setenv]: refuses an empty key and keys or values with [=] or NUL. *)
Fixpoint assoc_set (k v : string) (l : list (string * string)) : list (string * string) :=
  match l with
  | [] => [(k, v)]
  | (k', v') :: l' => if String.eqb k k' then (k, v) :: l' else (k', v') :: assoc_set k v l'
  end.

Definition Setenv (k v : string) (o : OS) : OS * option error :=
  if (String.eqb k "" || contains_byte "=" k || contains_byte "000" k || contains_byte "000" v)%bool
  then (o, Some (Errorf "setenv: invalid argument"))
  else (with_environ (assoc_set k v (environ o)) o, None).

(** [os.Environ]. *)
Definition Environ (o : OS) : list string :=
  map (fun kv => fst kv +:+ "=" +:+ snd kv) (environ o).

(** [os.ReadFile]. *)
Definition ReadFile (o : OS) (path : string) : error + string :=
  match files o !! path with
  | Some data => inr data
  | None => inl (ErrNotExist path)
  end.

(** ** Package config *)

Module config.

Record ServerConfig : Type := mkServerConfig {
  Host : string;
  Server_Port : Z
}.

Record DockerConfig : Type := mkDockerConfig {
  Network : string;
  ImagePrefix : string;
  RestartPolicy : string;
  SocketPath : string
}.

Record EnvVar : Type := mkEnvVar {
  Env_Name : string;
  Value : string;
  ValueFrom : string
}.

Record HealthCheckConfig : Type := mkHealthCheckConfig {
  HealthCheck_Enabled : bool;
  Interval : string;
  URL : string
}.

(** The tool schemas are opaque documents to this code: it stores and
    forwards them. *)
Record MCPTool : Type := mkMCPTool {
  Tool_Name : string;
  Tool_Description : string;
  InputSchema : option string;
  Example : option string
}.

Record MCPService : Type := mkMCPService {
  Name : string;
  DisplayName : string;
  Description : string;
  Image : string;
  Command : string;
  Args : list string;
  Env : list EnvVar;
  Port : Z;
  Enabled : bool;
  Status : string;
  Tools : list MCPTool;
  HealthCheck : HealthCheckConfig
}.

Record MCPConfig : Type := mkMCPConfig {
  MCP_Enabled : list MCPService
}.

Record WebConfig : Type := mkWebConfig {
  Enable : bool;
  Web_Port : Z;
  Title : string
}.

Record Config : Type := mkConfig {
  Server : ServerConfig;
  Docker : DockerConfig;
  MCP : MCPConfig;
  Web : WebConfig;
  EnvFiles : list string
}.

(** Field assignments. *)
Definition set_Server_Port (p : Z) (c : Config) : Config :=
  mkConfig (mkServerConfig (Host (Server c)) p) (Docker c) (MCP c) (Web c) (EnvFiles c).
Definition set_Web_Port (p : Z) (c : Config) : Config :=
  mkConfig (Server c) (Docker c) (MCP c)
    (mkWebConfig (Enable (Web c)) p (Title (Web c))) (EnvFiles c).
Definition set_Docker_Network (n : string) (c : Config) : Config :=
  mkConfig (Server c)
    (mkDockerConfig n (ImagePrefix (Docker c)) (RestartPolicy (Docker c)) (SocketPath (Docker c)))
    (MCP c) (Web c) (EnvFiles c).
Definition set_Docker_SocketPath (p : string) (c : Config) : Config :=
  mkConfig (Server c)
    (mkDockerConfig (Network (Docker c)) (ImagePrefix (Docker c)) (RestartPolicy (Docker c)) p)
    (MCP c) (Web c) (EnvFiles c).
Definition set_MCP_Enabled (l : list MCPService) (c : Config) : Config :=
  mkConfig (Server c) (Docker c) (mkMCPConfig l) (Web c) (EnvFiles c).
Definition set_Status (st : string) (s : MCPService) : MCPService :=
  mkMCPService (Name s) (DisplayName s) (Description s) (Image s) (Command s) (Args s)
    (Env s) (Port s) (Enabled s) st (Tools s) (HealthCheck s).
Definition set_Port (p : Z) (s : MCPService) : MCPService :=
  mkMCPService (Name s) (DisplayName s) (Description s) (Image s) (Command s) (Args s)
    (Env s) p (Enabled s) (Status s) (Tools s) (HealthCheck s).

(** viper: reading the file named by [SetConfigFile] (with the CLAWMCP
    environment overrides) and decoding it into a [Config]. *)
Class Viper : Type := {
  viper_state : Type;
  viper_ReadInConfig : OS -> string -> error + viper_state;
  viper_Unmarshal : OS -> viper_state -> error + Config
}.

(** [loadEnvFile]: one [KEY=VALUE] per line, blank lines and [#] comments
    skipped, lines without [=] skipped, [os.Setenv] errors ignored. *)
Definition loadEnvLine (o : OS) (line : string) : OS :=
  let line := TrimSpace line in
  if (String.eqb line "" || HasPrefix line "#")%bool then o
  else
    match SplitN2 line "=" with
    | [k; v] => fst (Setenv (TrimSpace k) (TrimSpace v) o)
    | _ => o
    end.

Definition loadEnvFile (path : string) (o : OS) : OS * option error :=
  match ReadFile o path with
  | inl err => (o, Some err)
  | inr data => (fold_left loadEnvLine (Split data "010") o, None)
  end.

Section Load.
Context {viper : Viper}.

(** [Load]: read, decode, fill the four defaults, then load the env files
    (a file that fails to load only prints a warning). *)
Definition Load (configPath : string) (o : OS) : OS * (error + Config) :=
  match viper_ReadInConfig o configPath with
  | inl err => (o, inl (Wrapf "failed to read config: " err))
  | inr v =>
      match viper_Unmarshal o v with
      | inl err => (o, inl (Wrapf "failed to unmarshal config: " err))
      | inr config =>
          let config :=
            if Server_Port (Server config) =? 0 then set_Server_Port 8080 config else config in
          let config :=
            if Web_Port (Web config) =? 0 then set_Web_Port 8081 config else config in
          let config :=
            if String.eqb (Network (Docker config)) ""
            then set_Docker_Network "clawmcp-network" config else config in
          let config :=
            if String.eqb (SocketPath (Docker config)) ""
            then set_Docker_SocketPath "/var/run/docker.sock" config else config in
          let o' := fold_left (fun o envFile => fst (loadEnvFile envFile o)) (EnvFiles config) o in
          (o', inr config)
      end
  end.

End Load.

End config.

(** ** JSON documents and the encoding/json interface *)

(** What [map[string]interface{}] and [interface{}] hold after decoding.
    Numbers are the integers that a [float64] holds exactly; an object
    keeps its members in the order of the wire (Go's encoder writes a map
    sorted by key, so literals below list their keys sorted). *)
#[warnings="-register-all"]
Inductive json : Type :=
| JNull
| JBool (b : bool)
| JNum (n : Z)
| JStr (s : string)
| JArr (l : list json)
| JObj (members : list (string * json)).

(** The libraries that write and read values: [json.Marshal],
    [json.Unmarshal] into an [interface{}], and the text [fmt] prints for
    a decoded value under [%v]. *)
Class Codec : Type := {
  Marshal : json -> error + string;
  Unmarshal : string -> error + json;
  Sprint_v : json -> string
}.

(** [m[key]] on a decoded object: the last member of that name, [nil]
    (here [JNull]) when there is none. *)
Fixpoint obj_get (key : string) (members : list (string * json)) : option json :=
  match members with
  | [] => None
  | (k, v) :: rest =>
      match obj_get key rest with
      | Some v' => Some v'
      | None => if String.eqb k key then Some v else None
      end
  end.

Definition member (members : list (string * json)) (key : string) : json :=
  match obj_get key members with Some v => v | None => JNull end.

(** Decoding a document into a [map[string]interface{}] variable: an
    object fills the map, [null] leaves it nil, anything else is a type
    error. *)
Definition as_map (doc : json) : error + list (string * json) :=
  match doc with
  | JObj members => inr members
  | JNull => inr []
  | _ => inl ErrJSON
  end.

Fixpoint join_with (sep : string) (l : list string) : string :=
  match l with
  | [] => ""
  | [x] => x
  | x :: l' => x +:+ sep +:+ join_with sep l'
  end.

(** *** A concrete codec for ASCII documents *)

(** [%v] of a decoded value.  A number is a [float64] and prints as
    [%g] with the shortest digits: plainly below a million, and from
    there on as [d.ddde+XX] (here for the integers up to 2^53, whose
    shortest digits are their own).  A map prints its keys sorted, each
    once with its last value. *)
Fixpoint strip_zeros (rev_digits : string) : string :=
  match rev_digits with
  | String "0" rest => strip_zeros rest
  | _ => rev_digits
  end.

Definition format_float (n : Z) : string :=
  if Z.abs n <? 1000000 then pretty n
  else
    let digits := pretty (Z.abs n) in
    let exponent := (String.length digits - 1)%nat in
    let sign := if n <? 0 then "-" else "" in
    match String.rev (strip_zeros (String.rev digits)) with
    | String d rest =>
        sign +:+ String d (if String.eqb rest "" then "" else "." +:+ rest)
        +:+ "e+" +:+ (if (exponent <? 10)%nat then "0" else "") +:+ pretty exponent
    | EmptyString => sign
    end.

Fixpoint put_sorted (k v : string) (l : list (string * string)) : list (string * string) :=
  match l with
  | [] => [(k, v)]
  | (k', v') :: l' =>
      if String.eqb k k' then (k, v) :: l'
      else if String.ltb k k' then (k, v) :: l
      else (k', v') :: put_sorted k v l'
  end.

Fixpoint format_v (j : json) : string :=
  match j with
  | JNull => "<nil>"
  | JBool true => "true"
  | JBool false => "false"
  | JNum n => format_float n
  | JStr s => s
  | JArr l => "[" +:+ join_with " " (map format_v l) +:+ "]"
  | JObj members =>
      "map["
      +:+ join_with " "
            (map (fun kv => fst kv +:+ ":" +:+ snd kv)
               (fold_left (fun acc kv => put_sorted (fst kv) (snd kv) acc)
                  (map (fun kv => (fst kv, format_v (snd kv))) members) []))
      +:+ "]"
  end.

Definition dquote : ascii := "034"%char.
Definition backslash : ascii := "092"%char.

Definition hex_digit (n : N) : ascii :=
  ascii_of_N (if (n <? 10)%N then 48 + n else 87 + n).

(** The escapes Go's encoder writes: quote, backslash, the named control
    characters, [\u00XX] for the other control characters and for the
    HTML-sensitive [<], [>], [&]. *)
Definition escape_char (a : ascii) : string :=
  let n := N_of_ascii a in
  if Ascii.eqb a dquote then String backslash (String dquote "")
  else if Ascii.eqb a backslash then String backslash (String backslash "")
  else if Ascii.eqb a "010"%char then String backslash "n"
  else if Ascii.eqb a "013"%char then String backslash "r"
  else if Ascii.eqb a "009"%char then String backslash "t"
  else if ((n <? 32)%N || Ascii.eqb a "<"%char || Ascii.eqb a ">"%char || Ascii.eqb a "&"%char)%bool
  then String backslash ("u00" +:+ String (hex_digit (n / 16)) (String (hex_digit (n mod 16)) ""))
  else String a "".

Fixpoint escape (s : string) : string :=
  match s with
  | EmptyString => EmptyString
  | String a s' => escape_char a +:+ escape s'
  end.

Definition quote (s : string) : string :=
  String dquote (escape s +:+ String dquote "").

Fixpoint json_encode (j : json) : string :=
  match j with
  | JNull => "null"
  | JBool true => "true"
  | JBool false => "false"
  | JNum n => pretty n
  | JStr s => quote s
  | JArr l => "[" +:+ join_with "," (map json_encode l) +:+ "]"
  | JObj members =>
      "{" +:+ join_with "," (map (fun kv => quote (fst kv) +:+ ":" +:+ json_encode (snd kv)) members) +:+ "}"
  end.

Definition is_json_space (a : ascii) : bool :=
  (Ascii.eqb a " "%char || Ascii.eqb a "009"%char || Ascii.eqb a "010"%char || Ascii.eqb a "013"%char)%bool.

Fixpoint skip_ws (s : string) : string :=
  match s with
  | String a s' => if is_json_space a then skip_ws s' else s
  | EmptyString => EmptyString
  end.

Definition hex_value (a : ascii) : option N :=
  let n := N_of_ascii a in
  if ((48 <=? n) && (n <=? 57))%N then Some (n - 48)%N
  else if ((97 <=? n) && (n <=? 102))%N then Some (n - 87)%N
  else if ((65 <=? n) && (n <=? 70))%N then Some (n - 55)%N
  else None.

(** The body of a string literal after its opening quote: the decoded
    text and what follows the closing quote. *)
Fixpoint parse_string (acc : string) (s : string) : option (string * string) :=
  match s with
  | EmptyString => None
  | String a s' =>
      if Ascii.eqb a dquote then Some (String.rev acc, s')
      else if Ascii.eqb a backslash then
        match s' with
        | String e s'' =>
            if Ascii.eqb e dquote then parse_string (String dquote acc) s''
            else if Ascii.eqb e backslash then parse_string (String backslash acc) s''
            else if Ascii.eqb e "/"%char then parse_string (String "/"%char acc) s''
            else if Ascii.eqb e "n"%char then parse_string (String "010"%char acc) s''
            else if Ascii.eqb e "r"%char then parse_string (String "013"%char acc) s''
            else if Ascii.eqb e "t"%char then parse_string (String "009"%char acc) s''
            else if Ascii.eqb e "b"%char then parse_string (String "008"%char acc) s''
            else if Ascii.eqb e "f"%char then parse_string (String "012"%char acc) s''
            else if Ascii.eqb e "u"%char then
              match s'' with
              | String "0" (String "0" (String h (String l rest))) =>
                  match hex_value h, hex_value l with
                  | Some hv, Some lv =>
                      if (hv <? 8)%N then parse_string (String (ascii_of_N (hv * 16 + lv)) acc) rest
                      else None
                  | _, _ => None
                  end
              | _ => None
              end
            else None
        | EmptyString => None
        end
      else if (N_of_ascii a <? 32)%N then None
      else parse_string (String a acc) s'
  end.

Fixpoint parse_digits (acc : Z) (seen : bool) (s : string) : option (Z * string) :=
  match s with
  | String a s' =>
      match Ascii.is_nat a with
      | Some d => parse_digits (acc * 10 + Z.of_nat d) true s'
      | None => if seen then Some (acc, s) else None
      end
  | EmptyString => if seen then Some (acc, s) else None
  end.

Definition expect (lit : string) (v : json) (s : string) : option (json * string) :=
  if HasPrefix s lit
  then Some (v, String.substring (String.length lit) (String.length s - String.length lit) s)
  else None.

Fixpoint parse_value (fuel : nat) (s : string) : option (json * string) :=
  match fuel with
  | O => None
  | S fuel' =>
      match skip_ws s with
      | String "n" _ as t => expect "null" JNull t
      | String "t" _ as t => expect "true" (JBool true) t
      | String "f" _ as t => expect "false" (JBool false) t
      | String "-" t =>
          match parse_digits 0 false t with
          | Some (n, rest) => Some (JNum (- n), rest)
          | None => None
          end
      | String "[" t =>
          match skip_ws t with
          | String "]" rest => Some (JArr [], rest)
          | t' =>
              match parse_elements fuel' t' with
              | Some (l, rest) => Some (JArr l, rest)
              | None => None
              end
          end
      | String "{" t =>
          match skip_ws t with
          | String "}" rest => Some (JObj [], rest)
          | t' =>
              match parse_members fuel' t' with
              | Some (l, rest) => Some (JObj l, rest)
              | None => None
              end
          end
      | String a t as whole =>
          if Ascii.eqb a dquote then
            match parse_string "" t with
            | Some (str, rest) => Some (JStr str, rest)
            | None => None
            end
          else
            match parse_digits 0 false whole with
            | Some (n, rest) => Some (JNum n, rest)
            | None => None
            end
      | EmptyString => None
      end
  end
with parse_elements (fuel : nat) (s : string) : option (list json * string) :=
  match fuel with
  | O => None
  | S fuel' =>
      match parse_value fuel' s with
      | Some (v, rest) =>
          match skip_ws rest with
          | String "," rest' =>
              match parse_elements fuel' rest' with
              | Some (l, rest'') => Some (v :: l, rest'')
              | None => None
              end
          | String "]" rest' => Some ([v], rest')
          | _ => None
          end
      | None => None
      end
  end
with parse_members (fuel : nat) (s : string) : option (list (string * json) * string) :=
  match fuel with
  | O => None
  | S fuel' =>
      match skip_ws s with
      | String q t =>
          if Ascii.eqb q dquote then
            match parse_string "" t with
            | Some (key, rest) =>
                match skip_ws rest with
                | String ":" rest' =>
                    match parse_value fuel' rest' with
                    | Some (v, rest'') =>
                        match skip_ws rest'' with
                        | String "," rest3 =>
                            match parse_members fuel' rest3 with
                            | Some (l, rest4) => Some ((key, v) :: l, rest4)
                            | None => None
                            end
                        | String "}" rest3 => Some ([(key, v)], rest3)
                        | _ => None
                        end
                    | None => None
                    end
                | _ => None
                end
            | None => None
            end
          else None
      | EmptyString => None
      end
  end.

(** One document, white space around it allowed, nothing else after it. *)
Definition json_decode (s : string) : error + json :=
  match parse_value (2 * String.length s + 2) s with
  | Some (v, rest) => if String.eqb (skip_ws rest) "" then inr v else inl ErrJSON
  | None => inl ErrJSON
  end.

Definition ascii_codec : Codec := {|
  Marshal := fun j => inr (json_encode j);
  Unmarshal := json_decode;
  Sprint_v := format_v
|}.

(** ** Child processes and their pipes *)

(** [context.Context] as far as this code looks at it: cancelled by its
    parent, or past its deadline. *)
Record Context : Type := mkContext {
  cancelled : bool;
  deadline : option N
}.

Definition Background : Context := mkContext false None.

Definition WithTimeout (now timeout : N) : Context := mkContext false (Some (now + timeout)%N).

(** [<-ctx.Done()] is ready. *)
Definition Done (ctx : Context) (now : N) : bool :=
  (cancelled ctx ||
   match deadline ctx with Some d => (d <=? now)%N | None => false end)%bool.

Definition Err (ctx : Context) : error :=
  if cancelled ctx then ctx_Canceled else ctx_DeadlineExceeded.

(** [<-time.After(d)] is ready [elapsed] milliseconds after the channel
    was made. *)
Definition After_ready (d elapsed : N) : bool := (d <=? elapsed)%N.

(** [Read(buf)] on the read end of a pipe with [len(buf) = max]: the next
    chunk (cut at [max] bytes), end of file once the writer has closed and
    everything is consumed, and otherwise the reader waits.  A pipe never
    hands out zero bytes without end of file, so empty chunks are skipped. *)
Fixpoint pipe_read_go (max : N) (chunks : list string) (cl : bool)
  : outcome (string * option error) * Pipe :=
  match chunks with
  | [] => if cl then (Returned ("", Some io_EOF), mkPipe [] cl) else (Blocked, mkPipe [] cl)
  | c :: rest =>
      if String.eqb c "" then pipe_read_go max rest cl
      else if (N.of_nat (String.length c) <=? max)%N then (Returned (c, None), mkPipe rest cl)
      else (Returned (String.substring 0 (N.to_nat max) c, None),
            mkPipe (String.substring (N.to_nat max) (String.length c - N.to_nat max) c :: rest) cl)
  end.

Definition pipe_read (max : N) (p : Pipe) : outcome (string * option error) * Pipe :=
  pipe_read_go max (pending p) (closed p).

Definition with_stdout (p : Pipe) (pr : Proc) : Proc :=
  mkProc (argv pr) (envp pr) (setsid pr) (stdin_data pr) (stdin_open pr) p (stderr pr)
    (exited pr) (exits_on_eof pr).
Definition with_stderr (p : Pipe) (pr : Proc) : Proc :=
  mkProc (argv pr) (envp pr) (setsid pr) (stdin_data pr) (stdin_open pr) (stdout pr) p
    (exited pr) (exits_on_eof pr).
Definition with_stdin_data (d : string) (pr : Proc) : Proc :=
  mkProc (argv pr) (envp pr) (setsid pr) d (stdin_open pr) (stdout pr) (stderr pr)
    (exited pr) (exits_on_eof pr).

(** The parent closes its write end of the child's stdin; a child that
    exits on end of input does so, which closes its output pipes. *)
Definition close_stdin (pr : Proc) : Proc :=
  if exits_on_eof pr
  then mkProc (argv pr) (envp pr) (setsid pr) (stdin_data pr) false
         (mkPipe (pending (stdout pr)) true) (mkPipe (pending (stderr pr)) true)
         true (exits_on_eof pr)
  else mkProc (argv pr) (envp pr) (setsid pr) (stdin_data pr) false (stdout pr) (stderr pr)
         (exited pr) (exits_on_eof pr).

Definition update_proc (pid : nat) (f : Proc -> Proc) (o : OS) : OS :=
  match procs o !! pid with
  | Some pr => with_procs (<[pid := f pr]> (procs o)) o
  | None => o
  end.

(** [cmd.Start()]: the executable must resolve; the child starts with
    empty pipes. *)
Fixpoint lookup_program (name : string) (l : list (string * bool)) : option bool :=
  match l with
  | [] => None
  | (n, b) :: l' => if String.eqb n name then Some b else lookup_program name l'
  end.

(** [exec.LookPath], as [exec.Command] calls it: the name is resolved
    through the gateway's own [PATH] as it is at that moment. *)
Definition LookPath (o : OS) (name : string) : option bool :=
  lookup_program name (executables o (Getenv o "PATH")).

(** [ctx] is the context of [exec.CommandContext], [None] for
    [exec.Command].  [Start] returns the error of the lookup first, and
    then the error of a context that is already done; in both cases no
    child exists.  (A context that becomes done later kills the child:
    one of the ways a child exits, see [child_exits].) *)
Definition exec_Start (ctx : option Context) (args env : list string) (sid : bool) (o : OS)
  : OS * (error + nat) :=
  match args with
  | [] => (o, inl (ErrExecNotFound ""))
  | name :: _ =>
      match LookPath o name with
      | Some on_eof =>
          match ctx with
          | Some c =>
              if Done c (clock o) then (o, inl (Err c))
              else
                (with_procs (procs o ++ [mkProc args env sid "" true (mkPipe [] false)
                                           (mkPipe [] false) false on_eof]) o,
                 inr (length (procs o)))
          | None =>
              (with_procs (procs o ++ [mkProc args env sid "" true (mkPipe [] false)
                                         (mkPipe [] false) false on_eof]) o,
               inr (length (procs o)))
          end
      | None => (o, inl (ErrExecNotFound name))
      end
  end.

(** [p.Stdin.Write(data)]. *)
Definition Stdin_Write (pid : nat) (data : string) (o : OS) : OS * option error :=
  match procs o !! pid with
  | None => (o, Some ErrClosed)
  | Some pr =>
      if negb (stdin_open pr) then (o, Some ErrClosed)
      else if exited pr then (o, Some EPIPE)
      else (update_proc pid (with_stdin_data (stdin_data pr +:+ data)) o, None)
  end.

(** [p.Stdout.Read(buf)] and [p.Stderr.Read(buf)]. *)
Definition Stdout_Read (pid : nat) (max : N) (o : OS) : OS * outcome (string * option error) :=
  match procs o !! pid with
  | None => (o, Returned ("", Some ErrClosed))
  | Some pr =>
      let '(r, pipe') := pipe_read max (stdout pr) in
      (update_proc pid (with_stdout pipe') o, r)
  end.

Definition Stderr_Read (pid : nat) (max : N) (o : OS) : OS * outcome (string * option error) :=
  match procs o !! pid with
  | None => (o, Returned ("", Some ErrClosed))
  | Some pr =>
      let '(r, pipe') := pipe_read max (stderr pr) in
      (update_proc pid (with_stderr pipe') o, r)
  end.

(** [p.Stdin.Close()]. *)
Definition Stdin_Close (pid : nat) (o : OS) : OS := update_proc pid close_stdin o.

(** [p.Cmd.Wait()]: returns once the child has exited. *)
Definition Cmd_Wait (pid : nat) (o : OS) : outcome unit :=
  match procs o !! pid with
  | Some pr => if exited pr then Returned tt else Blocked
  | None => Returned tt
  end.

(** What the world does between the gateway's steps: the child writes a
    chunk to its stdout, the child dies, a millisecond passes. *)
Definition child_writes (pid : nat) (chunk : string) (o : OS) : OS :=
  update_proc pid (fun pr => with_stdout (mkPipe (pending (stdout pr) ++ [chunk]) (closed (stdout pr))) pr) o.

Definition child_exits (pid : nat) (o : OS) : OS :=
  update_proc pid (fun pr =>
    mkProc (argv pr) (envp pr) (setsid pr) (stdin_data pr) (stdin_open pr)
      (mkPipe (pending (stdout pr)) true) (mkPipe (pending (stderr pr)) true) true
      (exits_on_eof pr)) o.

Definition sleep (ms : N) (o : OS) : OS := with_clock (clock o + ms)%N o.

(** ** The Docker client *)

Module types.

Record Port : Type := mkPort {
  PublicPort : Z
}.

(** [types.Container], the fields this code reads. *)
Record Container : Type := mkContainer {
  ID : string;
  Names : list string;
  State : string;
  Ports : list Port
}.

End types.

Module container.

Record Config : Type := mkConfig {
  Image : string;
  Cmd : list string;
  Env : list string;
  Labels : list (string * string)
}.

Record HostConfig : Type := mkHostConfig {
  RestartPolicy : string
}.

End container.

(** The engine behind [client.Client], with the calls this code makes.
    [ContainerList] takes the [All] option. *)
Class DockerAPI : Type := {
  engine : Type;
  ContainerList : engine -> bool -> error + list types.Container;
  ContainerStart : engine -> string -> engine * option error;
  ContainerStop : engine -> string -> engine * option error;
  ContainerRemove : engine -> string -> engine * option error;
  ContainerCreate : engine -> container.Config -> container.HostConfig -> string
                    -> engine * (error + string);
  ContainerLogs : engine -> string -> error + string
}.

(** ** Package docker: the Manager *)

Module docker.

Record ContainerInfo : Type := mkContainerInfo {
  CI_Name : string;
  CI_ID : string;
  CI_Status : string;
  CI_Port : Z;
  CI_StartedAt : N
}.

(** [Cmd] is the child's pid; [Stdin], [Stdout] and [Stderr] are the
    parent's ends of that child's pipes. *)
Record ProcessInfo : Type := mkProcessInfo {
  Name : string;
  Cmd : nat;
  Stdin : nat;
  Stdout : nat;
  Stderr : option nat;
  ID : Z
}.

Definition set_ID (id : Z) (p : ProcessInfo) : ProcessInfo :=
  mkProcessInfo (Name p) (Cmd p) (Stdin p) (Stdout p) (Stderr p) id.

(** [client] is [true] when the Docker client was created (non-nil).
    [config] is the pointer [main] also hands to the handler: both see
    the one object held here.  The two mutexes have no counterpart: every
    operation below runs alone. *)
Record Manager : Type := mkManager {
  client : bool;
  config : config.Config;
  containers : gmap string ContainerInfo;
  running : gmap string ProcessInfo
}.

Definition set_config (c : config.Config) (m : Manager) : Manager :=
  mkManager (client m) c (containers m) (running m).
Definition set_containers (cs : gmap string ContainerInfo) (m : Manager) : Manager :=
  mkManager (client m) (config m) cs (running m).
Definition set_running (r : gmap string ProcessInfo) (m : Manager) : Manager :=
  mkManager (client m) (config m) (containers m) r.

Definition NewManager (cfg : config.Config) (client_ok : bool) : Manager :=
  mkManager client_ok cfg ∅ ∅.

Section Manager.
Context {codec : Codec} {api : DockerAPI}.

(** The manager, the operating system, the Docker engine, and the
    [initAndServe] goroutines started and not yet run. *)
Record State : Type := mkState {
  mgr : Manager;
  os : OS;
  dk : engine;
  goroutines : list (string * Z)
}.

Definition set_mgr (m : Manager) (s : State) : State := mkState m (os s) (dk s) (goroutines s).
Definition set_os (o : OS) (s : State) : State := mkState (mgr s) o (dk s) (goroutines s).
Definition set_dk (e : engine) (s : State) : State := mkState (mgr s) (os s) e (goroutines s).
Definition set_goroutines (g : list (string * Z)) (s : State) : State :=
  mkState (mgr s) (os s) (dk s) g.

(** The loop over [m.config.MCP.Enabled] that takes the address of the
    first service of that name. *)
Definition find_service (svcName : string) (l : list config.MCPService)
  : option config.MCPService :=
  List.find (fun svc => String.eqb (config.Name svc) svcName) l.

(** The loops [for _, c := range containers { if c.Names[0] == name ... }]:
    the first container whose first name is [name]; indexing an empty
    [Names] panics. *)
Fixpoint find_container (name : string) (cs : list types.Container)
  : outcome (option types.Container) :=
  match cs with
  | [] => Returned None
  | c :: rest =>
      match types.Names c with
      | [] => Panicked
      | n :: _ => if String.eqb n name then Returned (Some c) else find_container name rest
      end
  end.

Definition containerName (svcName : string) : string := "clawmcp-" +:+ svcName.

(** Lines 97-110: the child's environment in process mode.  The literal
    value wins; an [env:] reference is read only when there is no literal;
    a binding that ends up empty is left out. *)
Definition process_env_value (o : OS) (e : config.EnvVar) : string :=
  let value := config.Value e in
  if (String.eqb value "" && negb (String.eqb (config.ValueFrom e) ""))%bool then
    if HasPrefix (config.ValueFrom e) "env:"
    then Getenv o (TrimPrefix (config.ValueFrom e) "env:")
    else value
  else value.

Definition add_binding (o : OS) (env : list string) (e : config.EnvVar) : list string :=
  let value := process_env_value o e in
  if negb (String.eqb value "") then env ++ [config.Env_Name e +:+ "=" +:+ value] else env.

Definition process_env (o : OS) (bindings : list config.EnvVar) : list string :=
  fold_left (add_binding o) bindings (Environ o).

(** Lines 203-211: the environment of a created container.  An [env:]
    reference replaces the literal, and every binding is passed on. *)
Definition container_env_value (o : OS) (e : config.EnvVar) : string :=
  let value := config.Value e in
  if (negb (String.eqb (config.ValueFrom e) "") && HasPrefix (config.ValueFrom e) "env:")%bool
  then Getenv o (TrimPrefix (config.ValueFrom e) "env:")
  else value.

Definition container_env (o : OS) (bindings : list config.EnvVar) : list string :=
  fold_left (fun env e => env ++ [config.Env_Name e +:+ "=" +:+ container_env_value o e])
    bindings [].

(** Lines 128-138: the arguments of the [docker run] fallback. *)
Definition docker_run_args (o : OS) (svc : config.MCPService) : list string :=
  fold_left (fun args e =>
    let value := container_env_value o e in
    if negb (String.eqb value "")
    then args ++ ["-e"; config.Env_Name e +:+ "=" +:+ value] else args)
    (config.Env svc) ["run"; "--rm"; "-i"]
  ++ [config.Image svc].

Definition startDockerContainer (ctx : Context) (svcName : string) (svc : config.MCPService)
  (s : State) : State * outcome (option error) :=
  let name := containerName svcName in
  match ContainerList (dk s) true with
  | inl err => (s, Returned (Some err))
  | inr cs =>
      match find_container ("/" +:+ name) cs with
      | Panicked => (s, Panicked)
      | Blocked => (s, Blocked)
      | Returned (Some c) =>
          if String.eqb (types.State c) "running" then (s, Returned None)
          else
            let '(e, r) := ContainerStart (dk s) (types.ID c) in
            (set_dk e s, Returned r)
      | Returned None =>
          let env := container_env (os s) (config.Env svc) in
          let cmd := (if negb (String.eqb (config.Command svc) "") then [config.Command svc] else [])
                     ++ config.Args svc in
          let hostConfig := container.mkHostConfig "always" in
          let '(e, r) :=
            ContainerCreate (dk s)
              (container.mkConfig (config.Image svc) cmd env
                 [("clawmcp", "true"); ("service", svcName)])
              hostConfig name in
          match r with
          | inl err => (set_dk e s, Returned (Some (Wrapf "failed to create container: " err)))
          | inr id =>
              let '(e', r') := ContainerStart e id in
              (set_dk e' s, Returned r')
          end
      end
  end.

(** The tail of [StartService] once the command line is chosen: start the
    child in its own session with the pipes attached, register it with
    [ID: 1], and start the [initAndServe] goroutine.  [ctx] is the
    context the command was made with, if any. *)
Definition launch (ctx : option Context) (svcName : string) (port : Z) (args env : list string)
  (s : State) : State * outcome (option error) :=
  match args with
  | [] => (s, Panicked)
  | _ =>
      match exec_Start ctx args env true (os s) with
      | (o, inl err) => (set_os o s, Returned (Some (Wrapf "failed to start process: " err)))
      | (o, inr pid) =>
          let p := mkProcessInfo svcName pid pid pid (Some pid) 1 in
          (mkState (set_running (<[svcName := p]> (running (mgr s))) (mgr s)) o (dk s)
             (goroutines s ++ [(svcName, port)]),
           Returned None)
      end
  end.

Definition StartService (ctx : Context) (svcName : string) (s : State)
  : State * outcome (option error) :=
  match find_service svcName (config.MCP_Enabled (config.MCP (config (mgr s)))) with
  | None => (s, Returned (Some (Errorf ("service " +:+ svcName +:+ " not found in config"))))
  | Some svc =>
      match running (mgr s) !! svcName with
      | Some _ => (s, Returned None)
      | None =>
          let env := process_env (os s) (config.Env svc) in
          if negb (String.eqb (config.Command svc) "") then
            launch (Some ctx) svcName (config.Port svc) (config.Command svc :: config.Args svc) env s
          else if HasPrefix (config.Image svc) "uvx " then
            launch (Some ctx) svcName (config.Port svc) (Fields (config.Image svc)) env s
          else if client (mgr s) then
            startDockerContainer ctx svcName svc s
          else
            launch None svcName (config.Port svc) ("docker" :: docker_run_args (os s) svc) env s
      end
  end.

(** [data, _ := json.Marshal(v)]: the bytes, nil on error. *)
Definition marshal_or_nil (v : json) : string :=
  match Marshal v with inr data => data | inl _ => "" end.

Definition initReq : json :=
  JObj [("id", JNum 1); ("jsonrpc", JStr "2.0"); ("method", JStr "initialize");
        ("params", JObj [("capabilities", JObj []);
                         ("clientInfo", JObj [("name", JStr "clawmcp-gateway");
                                              ("version", JStr "1.0.0")]);
                         ("protocolVersion", JStr "2024-11-05")])].

Definition notifReq : json :=
  JObj [("jsonrpc", JStr "2.0"); ("method", JStr "notifications/initialized")].

(** [initAndServe]: write [initialize] with the literal id 1, sleep a
    second, write the [initialized] notification, sleep a second, then
    serve HTTP for the service on [port], or 3001 when that is not
    positive ([Blocked]: [ListenAndServe] does not return).  No reply is
    read, write errors are dropped, and [p.ID] is not touched.  ([Flush] has nothing to do on an unbuffered pipe.) *)
Definition initAndServe (svcName : string) (port : Z) (s : State) : State * outcome unit :=
  match running (mgr s) !! svcName with
  | None => (s, Returned tt)
  | Some p =>
      let o := fst (Stdin_Write (Stdin p) (marshal_or_nil initReq +:+ newline) (os s)) in
      let o := sleep 1000 o in
      let o := fst (Stdin_Write (Stdin p) (marshal_or_nil notifReq +:+ newline) o) in
      let o := sleep 1000 o in
      (set_os o s, Blocked)
  end.

(** The scheduler runs the oldest goroutine that [StartService] started. *)
Definition run_goroutine (s : State) : State * outcome unit :=
  match goroutines s with
  | [] => (s, Returned tt)
  | (svcName, port) :: rest => initAndServe svcName port (set_goroutines rest s)
  end.

(** [p.ID++] through the pointer the map holds. *)
Definition bump_ID (svcName : string) (p : ProcessInfo) (s : State) : State :=
  set_mgr (set_running (<[svcName := set_ID (int_wrap (ID p + 1)) p]> (running (mgr s))) (mgr s)) s.

Definition tools_list_req (id : Z) : json :=
  JObj [("id", JNum id); ("jsonrpc", JStr "2.0"); ("method", JStr "tools/list")].

Definition tools_call_req (toolName : string) (args : json) (id : Z) : json :=
  JObj [("id", JNum id); ("jsonrpc", JStr "2.0"); ("method", JStr "tools/call");
        ("params", JObj [("arguments", args); ("name", JStr toolName)])].

(** [handleToolsList] and [handleToolCall] of the per-service HTTP server:
    the response status and body.  [tool] and [arguments] are the decoded
    request body. *)
Definition handleToolsList (svcName : string) (s : State) : State * outcome (Z * string) :=
  match running (mgr s) !! svcName with
  | None => (s, Returned (500, "service not running" +:+ newline))
  | Some p =>
      let req := tools_list_req (ID p) in
      let s := bump_ID svcName p s in
      let o := fst (Stdin_Write (Stdin p) (marshal_or_nil req +:+ newline) (os s)) in
      match Stdout_Read (Stdout p) 8192 o with
      | (o', Returned (data, _)) => (set_os o' s, Returned (200, data))
      | (o', Blocked) => (set_os o' s, Blocked)
      | (o', Panicked) => (set_os o' s, Panicked)
      end
  end.

Definition handleToolCall (svcName : string) (tool : string) (arguments : json) (s : State)
  : State * outcome (Z * string) :=
  match running (mgr s) !! svcName with
  | None => (s, Returned (500, "service not running" +:+ newline))
  | Some p =>
      let rpcReq := tools_call_req tool arguments (ID p) in
      let s := bump_ID svcName p s in
      let o := fst (Stdin_Write (Stdin p) (marshal_or_nil rpcReq +:+ newline) (os s)) in
      match Stdout_Read (Stdout p) 32768 o with
      | (o', Returned (data, _)) => (set_os o' s, Returned (200, data))
      | (o', Blocked) => (set_os o' s, Blocked)
      | (o', Panicked) => (set_os o' s, Panicked)
      end
  end.

Definition StopService (ctx : Context) (svcName : string) (s : State)
  : State * outcome (option error) :=
  match running (mgr s) !! svcName with
  | Some p =>
      let o := Stdin_Close (Stdin p) (os s) in
      match Cmd_Wait (Cmd p) o with
      | Returned _ =>
          (set_os o (set_mgr (set_running (delete svcName (running (mgr s))) (mgr s)) s),
           Returned None)
      | Blocked => (set_os o s, Blocked)
      | Panicked => (set_os o s, Panicked)
      end
  | None =>
      let notFound := Returned (Some (Errorf ("service " +:+ svcName +:+ " not found"))) in
      if client (mgr s) then
        match ContainerList (dk s) false with
        | inl err => (s, Returned (Some err))
        | inr cs =>
            match find_container ("/" +:+ containerName svcName) cs with
            | Panicked => (s, Panicked)
            | Blocked => (s, Blocked)
            | Returned (Some c) =>
                let '(e, r) := ContainerStop (dk s) (types.ID c) in
                (set_dk e s, Returned r)
            | Returned None => (s, notFound)
            end
        end
      else (s, notFound)
  end.

Definition RemoveService (ctx : Context) (svcName : string) (s : State)
  : State * outcome (option error) :=
  match StopService ctx svcName s with
  | (s1, Blocked) => (s1, Blocked)
  | (s1, Panicked) => (s1, Panicked)
  | (s1, Returned _) =>
      let forget :=
        (set_mgr (set_containers (delete svcName (containers (mgr s1))) (mgr s1)) s1,
         Returned None) in
      if client (mgr s1) then
        match ContainerList (dk s1) true with
        | inl err => (s1, Returned (Some err))
        | inr cs =>
            match find_container ("/" +:+ containerName svcName) cs with
            | Panicked => (s1, Panicked)
            | Blocked => (s1, Blocked)
            | Returned (Some c) =>
                let e :=
                  if String.eqb (types.State c) "running"
                  then fst (ContainerStop (dk s1) (types.ID c)) else dk s1 in
                let '(e', r) := ContainerRemove e (types.ID c) in
                (set_dk e' s1, Returned r)
            | Returned None => forget
            end
        end
      else forget
  end.

(** The first loop of [GetServices]: [svc] is a pointer into the
    configuration, so the assignment to [svc.Status] lands there; the
    element appended to [result] is a copy taken after it. *)
Definition mark_status (r : gmap string ProcessInfo) (svc : config.MCPService)
  : config.MCPService :=
  match r !! config.Name svc with
  | Some _ => config.set_Status "running" svc
  | None => config.set_Status "stopped" svc
  end.

(** The second loop, one element of [result]: the state and the first
    public port of the first container named after the service. *)
Definition refresh_from_engine (cs : list types.Container) (svc : config.MCPService)
  : outcome config.MCPService :=
  match find_container ("/" +:+ containerName (config.Name svc)) cs with
  | Panicked => Panicked
  | Blocked => Blocked
  | Returned None => Returned svc
  | Returned (Some c) =>
      let svc := config.set_Status (types.State c) svc in
      match types.Ports c with
      | [] => Returned svc
      | port :: _ => Returned (config.set_Port (types.PublicPort port) svc)
      end
  end.

Fixpoint refresh_all (cs : list types.Container) (result : list config.MCPService)
  : outcome (list config.MCPService) :=
  match result with
  | [] => Returned []
  | svc :: rest =>
      match refresh_from_engine cs svc with
      | Returned svc' =>
          match refresh_all cs rest with
          | Returned rest' => Returned (svc' :: rest')
          | Blocked => Blocked
          | Panicked => Panicked
          end
      | Blocked => Blocked
      | Panicked => Panicked
      end
  end.

Definition GetServices (ctx : Context) (s : State)
  : State * outcome (list config.MCPService * option error) :=
  let enabled := map (mark_status (running (mgr s))) (config.MCP_Enabled (config.MCP (config (mgr s)))) in
  let s := set_mgr (set_config (config.set_MCP_Enabled enabled (config (mgr s))) (mgr s)) s in
  let result := enabled in
  if client (mgr s) then
    match ContainerList (dk s) true with
    | inl err => (s, Returned (result, None))
    | inr cs =>
        match refresh_all cs result with
        | Returned result' => (s, Returned (result', None))
        | Blocked => (s, Blocked)
        | Panicked => (s, Panicked)
        end
    end
  else (s, Returned (result, None)).

(** [CallTool] up to and including the write of the request: either it
    has returned already, or the caller holds [p] and goes on to read. *)
Definition CallTool_send (ctx : Context) (svcName toolName : string) (args : json) (s : State)
  : State * ((error + json) + ProcessInfo) :=
  match running (mgr s) !! svcName with
  | None => (s, inl (inl (Errorf ("service " +:+ svcName +:+ " not running"))))
  | Some p =>
      let req := tools_call_req toolName args (ID p) in
      let s := bump_ID svcName p s in
      match Marshal req with
      | inl err => (s, inl (inl err))
      | inr data =>
          match Stdin_Write (Stdin p) (data +:+ newline) (os s) with
          | (o, Some err) => (set_os o s, inl (inl err))
          | (o, None) => (set_os o s, inr p)
          end
      end
  end.

(** What [CallTool] makes of the bytes one [Read] returned. *)
Definition CallTool_parse (data : string) : error + json :=
  match Unmarshal data with
  | inl err => inl err
  | inr doc =>
      match as_map doc with
      | inl err => inl err
      | inr resp =>
          match member resp "error" with
          | JObj errMsg => inl (Errorf ("MCP error: " +:+ Sprint_v (member errMsg "message")))
          | _ => inr (member resp "result")
          end
      end
  end.

(** The rest of [CallTool]: one [Read] into a 65536-byte buffer, end of
    file tolerated, and whatever that read returned is parsed. *)
Definition CallTool_recv (p : ProcessInfo) (s : State) : State * outcome (error + json) :=
  match Stdout_Read (Stdout p) 65536 (os s) with
  | (o, Blocked) => (set_os o s, Blocked)
  | (o, Panicked) => (set_os o s, Panicked)
  | (o, Returned (data, err)) =>
      match err with
      | Some io_EOF | None => (set_os o s, Returned (CallTool_parse data))
      | Some e => (set_os o s, Returned (inl e))
      end
  end.

Definition CallTool (ctx : Context) (svcName toolName : string) (args : json) (s : State)
  : State * outcome (error + json) :=
  match CallTool_send ctx svcName toolName args s with
  | (s', inl r) => (s', Returned r)
  | (s', inr p) => CallTool_recv p s'
  end.

Definition GetContainerLogs (ctx : Context) (svcName : string) (s : State)
  : State * outcome (string * option error) :=
  let viaEngine :=
    let none := (s, Returned ("", Some (Errorf ("no logs available for " +:+ svcName)))) in
    if client (mgr s) then
      match ContainerList (dk s) false with
      | inl err => (s, Returned ("", Some err))
      | inr cs =>
          match find_container ("/" +:+ containerName svcName) cs with
          | Panicked => (s, Panicked)
          | Blocked => (s, Blocked)
          | Returned (Some c) =>
              match ContainerLogs (dk s) (types.ID c) with
              | inl err => (s, Returned ("", Some err))
              | inr body => (s, Returned (body, None))
              end
          | Returned None => none
          end
      end
    else none in
  match running (mgr s) !! svcName with
  | Some p =>
      match Stderr p with
      | Some fd =>
          match Stderr_Read fd 4096 (os s) with
          | (o, Returned (data, _)) => (set_os o s, Returned (data, None))
          | (o, Blocked) => (set_os o s, Blocked)
          | (o, Panicked) => (set_os o s, Panicked)
          end
      | None => viaEngine
      end
  | None => viaEngine
  end.

End Manager.

End docker.

(** ** Package mcp: the stdio Gateway *)

Module mcp.

(** [Params] is a [json.RawMessage] and [ID] an [interface{}], both
    [omitempty]. *)
Record JSONRPCRequest : Type := mkRequest {
  Req_JSONRPC : string;
  Method : string;
  Params : option json;
  Req_ID : option Z
}.

Record JSONRPCError : Type := mkError {
  Code : Z;
  Message : string;
  Data : option json
}.

Record JSONRPCResponse : Type := mkResponse {
  JSONRPC : string;
  Result : option json;
  Error : option JSONRPCError;
  ID : json
}.

(** [Stdout] is a [bufio.Reader]: the child's pipe and the bytes already
    taken from it and not yet handed out. *)
Record Process : Type := mkProcess {
  Name : string;
  Cmd : nat;
  Stdin : nat;
  Stdout : nat * string;
  Stderr : nat * string;
  Proc_ID : Z
}.

Definition set_ID (id : Z) (p : Process) : Process :=
  mkProcess (Name p) (Cmd p) (Stdin p) (Stdout p) (Stderr p) id.
Definition set_Stdout_buf (b : string) (p : Process) : Process :=
  mkProcess (Name p) (Cmd p) (Stdin p) (fst (Stdout p), b) (Stderr p) (Proc_ID p).

Record Gateway : Type := mkGateway {
  processes : gmap string Process
}.

Definition NewGateway : Gateway := mkGateway ∅.

Record State : Type := mkState {
  gw : Gateway;
  os : OS
}.

Definition set_processes (ps : gmap string Process) (s : State) : State :=
  mkState (mkGateway ps) (os s).
Definition set_os (o : OS) (s : State) : State := mkState (gw s) o.

(** The struct as [json.Marshal] writes it: fields in declaration order,
    empty [params] and nil [id] left out. *)
Definition request_doc (req : JSONRPCRequest) : json :=
  JObj ([("jsonrpc", JStr (Req_JSONRPC req)); ("method", JStr (Method req))]
        ++ match Params req with Some v => [("params", v)] | None => [] end
        ++ match Req_ID req with Some id => [("id", JNum id)] | None => [] end).

(** A decoded document read into a [JSONRPCResponse]: fields by their
    (lower-case) names, absent or [null] members left zero, a member of
    the wrong kind an error. *)
Definition decode_error (v : json) : error + option JSONRPCError :=
  match v with
  | JNull => inr None
  | JObj m =>
      match member m "code", member m "message" with
      | (JNum _ | JNull) as c, (JStr _ | JNull) as msg =>
          inr (Some (mkError (match c with JNum n => n | _ => 0 end)
                             (match msg with JStr t => t | _ => "" end)
                             (obj_get "data" m)))
      | _, _ => inl ErrJSON
      end
  | _ => inl ErrJSON
  end.

Definition decode_response (doc : json) : error + JSONRPCResponse :=
  match doc with
  | JNull => inr (mkResponse "" None None JNull)
  | JObj m =>
      match member m "jsonrpc", decode_error (member m "error") with
      | (JStr _ | JNull) as v, inr e =>
          inr (mkResponse (match v with JStr t => t | _ => "" end) (obj_get "result" m) e
                 (member m "id"))
      | _, _ => inl ErrJSON
      end
  | _ => inl ErrJSON
  end.

(** [ReadBytes('\n')] on the buffered reader: bytes up to and including
    the first newline; what follows stays buffered.  Reads of the pipe are
    repeated until the newline is there; end of file before it returns
    what was read together with [io.EOF]. *)
Fixpoint split_line (acc : string) (s : string) : option (string * string) :=
  match s with
  | EmptyString => None
  | String a s' =>
      if Ascii.eqb a "010"%char then Some (String.rev (String a acc), s')
      else split_line (String a acc) s'
  end.

Fixpoint ReadBytes_go (buf : string) (chunks : list string) (cl : bool)
  : outcome (string * option error) * (string * Pipe) :=
  match split_line "" buf with
  | Some (line, rest) => (Returned (line, None), (rest, mkPipe chunks cl))
  | None =>
      match chunks with
      | [] =>
          if cl then (Returned (buf, Some io_EOF), ("", mkPipe [] cl))
          else (Blocked, (buf, mkPipe [] cl))
      | c :: more => ReadBytes_go (buf +:+ c) more cl
      end
  end.

Definition ReadBytes (name : string) (p : Process) (s : State)
  : State * outcome (string * option error) :=
  match procs (os s) !! fst (Stdout p) with
  | None => (s, Returned ("", Some ErrClosed))
  | Some pr =>
      let '(r, (buf, pipe')) :=
        ReadBytes_go (snd (Stdout p)) (pending (stdout pr)) (closed (stdout pr)) in
      (mkState (mkGateway (<[name := set_Stdout_buf buf p]> (processes (gw s))))
         (update_proc (fst (Stdout p)) (with_stdout pipe') (os s)),
       r)
  end.

Section Gateway.
Context {codec : Codec}.

(** [sendRequest].  It begins with [g.mu.RLock()]; [held] says that
    the calling goroutine itself holds [g.mu.Lock()], and then the read
    lock never comes (a [sync.RWMutex] is not reentrant).  [p] is nil,
    and writing to its [Stdin] panics, when [name] is not registered. *)
Definition sendRequest (held : bool) (ctx : Context) (name : string) (req : JSONRPCRequest)
  (s : State) : State * outcome (option error) :=
  if held then (s, Blocked)
  else
    match Marshal (request_doc req) with
    | inl err => (s, Returned (Some err))
    | inr data =>
        match processes (gw s) !! name with
        | None => (s, Panicked)
        | Some p =>
            let '(o, r) := Stdin_Write (Stdin p) (data +:+ newline) (os s) in
            (set_os o s, Returned r)
        end
    end.

(** The [select] of [readResponse]: both channels are polled once, on
    entry, and with neither ready the [default] branch runs.  The timer
    was made by this very statement, so no time has elapsed on it. *)
Inductive branch : Type := CtxDone | TimerFired | Default.

Definition timeout : N := 30000.

Definition readResponse_select (ctx : Context) (now : N) : branch :=
  if Done ctx now then CtxDone
  else if After_ready timeout 0 then TimerFired
  else Default.

Definition readResponse (ctx : Context) (name : string) (s : State)
  : State * outcome (error + JSONRPCResponse) :=
  match readResponse_select ctx (clock (os s)) with
  | CtxDone => (s, Returned (inl (Err ctx)))
  | TimerFired => (s, Returned (inl (Errorf "timeout waiting for response")))
  | Default =>
      match processes (gw s) !! name with
      | None => (s, Panicked)
      | Some p =>
          match ReadBytes name p s with
          | (s', Blocked) => (s', Blocked)
          | (s', Panicked) => (s', Panicked)
          | (s', Returned (_, Some err)) => (s', Returned (inl err))
          | (s', Returned (data, None)) =>
              match Unmarshal data with
              | inl err => (s', Returned (inl err))
              | inr doc => (s', Returned (decode_response doc))
              end
          end
      end
  end.

Definition initialize_params : json :=
  JObj [("protocolVersion", JStr "2024-11-05"); ("capabilities", JObj []);
        ("clientInfo", JObj [("name", JStr "clawmcp-gateway"); ("version", JStr "1.0.0")])].

Definition initialize (held : bool) (ctx : Context) (name : string) (s : State)
  : State * outcome (option error) :=
  let req := mkRequest "2.0" "initialize" (Some initialize_params) (Some 1) in
  match sendRequest held ctx name req s with
  | (s', Returned (Some err)) => (s', Returned (Some err))
  | (s', Returned None) =>
      match readResponse ctx name s' with
      | (s'', Returned (inl err)) => (s'', Returned (Some err))
      | (s'', Returned (inr _)) => (s'', Returned None)
      | (s'', Blocked) => (s'', Blocked)
      | (s'', Panicked) => (s'', Panicked)
      end
  | (s', Blocked) => (s', Blocked)
  | (s', Panicked) => (s', Panicked)
  end.

(** [StartProcess] holds [g.mu.Lock()] from its first statement to its
    return, and calls [initialize] with it: on a name that is not
    registered it starts the child, registers it, and then waits for
    ever in [sendRequest], with [g.mu] locked and nothing written. *)
Definition StartProcess (ctx : Context) (name image : string) (args env : list string)
  (s : State) : State * outcome (option error) :=
  match processes (gw s) !! name with
  | Some _ => (s, Returned None)
  | None =>
      let cmdline :=
        if (String.eqb image "uvx" || String.eqb image "npx")%bool
        then "uvx" :: image :: args
        else "docker" :: ["run"; "--rm"; "-i"] ++ flat_map (fun e => ["-e"; e]) env
                      ++ [image] ++ args in
      match exec_Start (Some ctx) cmdline (env ++ Environ (os s)) false (os s) with
      | (o, inl err) => (set_os o s, Returned (Some (Wrapf "failed to start process: " err)))
      | (o, inr pid) =>
          let p := mkProcess name pid pid (pid, "") (pid, "") 1 in
          let s := mkState (mkGateway (<[name := p]> (processes (gw s)))) o in
          match initialize true ctx name s with
          | (s', Returned (Some err)) =>
              (set_processes (delete name (processes (gw s'))) s',
               Returned (Some (Wrapf "failed to initialize MCP: " err)))
          | (s', r) => (s', r)
          end
      end
  end.

Definition StopProcess (name : string) (s : State) : State * outcome (option error) :=
  match processes (gw s) !! name with
  | None => (s, Returned None)
  | Some p =>
      let o := Stdin_Close (Stdin p) (os s) in
      match Cmd_Wait (Cmd p) o with
      | Returned _ => (mkState (mkGateway (delete name (processes (gw s)))) o, Returned None)
      | Blocked => (set_os o s, Blocked)
      | Panicked => (set_os o s, Panicked)
      end
  end.

(** [mustMarshalJSON]: the value as a raw message, empty (and so left
    out of the request) when it cannot be encoded. *)
Definition mustMarshalJSON (v : json) : option json :=
  match Marshal v with inr _ => Some v | inl _ => None end.

(** [CallTool] holds [p.mu] from before the id is taken until it returns:
    no other [CallTool] on the same process runs in between. *)
Definition CallTool (ctx : Context) (name toolName : string) (args : json) (s : State)
  : State * outcome (error + json) :=
  match processes (gw s) !! name with
  | None => (s, Returned (inl (Errorf ("process " +:+ name +:+ " not running"))))
  | Some p =>
      let params := JObj [("arguments", args); ("name", JStr toolName)] in
      let req := mkRequest "2.0" "tools/call" (mustMarshalJSON params) (Some (Proc_ID p)) in
      let s := set_processes (<[name := set_ID (int_wrap (Proc_ID p + 1)) p]> (processes (gw s))) s in
      match sendRequest false ctx name req s with
      | (s', Returned (Some err)) => (s', Returned (inl err))
      | (s', Returned None) =>
          match readResponse ctx name s' with
          | (s'', Returned (inl err)) => (s'', Returned (inl err))
          | (s'', Returned (inr resp)) =>
              match Error resp with
              | Some e => (s'', Returned (inl (Errorf ("MCP error: " +:+ Message e))))
              | None =>
                  match Result resp with
                  | None => (s'', Returned (inl ErrJSON))
                  | Some doc =>
                      match as_map doc with
                      | inl err => (s'', Returned (inl err))
                      | inr _ => (s'', Returned (inr doc))
                      end
                  end
              end
          | (s'', Blocked) => (s'', Blocked)
          | (s'', Panicked) => (s'', Panicked)
          end
      | (s', Blocked) => (s', Blocked)
      | (s', Panicked) => (s', Panicked)
      end
  end.

(** [ListTools] sends [tools/list] with the literal id 1 and returns the
    [tools] member of the result. *)
Definition ListTools (ctx : Context) (name : string) (s : State)
  : State * outcome (error + list json) :=
  match processes (gw s) !! name with
  | None => (s, Returned (inl (Errorf ("process " +:+ name +:+ " not running"))))
  | Some _ =>
      let req := mkRequest "2.0" "tools/list" None (Some 1) in
      match sendRequest false ctx name req s with
      | (s', Returned (Some err)) => (s', Returned (inl err))
      | (s', Returned None) =>
          match readResponse ctx name s' with
          | (s'', Returned (inl err)) => (s'', Returned (inl err))
          | (s'', Returned (inr resp)) =>
              match Error resp with
              | Some e => (s'', Returned (inl (Errorf ("MCP error: " +:+ Message e))))
              | None =>
                  match Result resp with
                  | None => (s'', Returned (inl ErrJSON))
                  | Some doc =>
                      match as_map doc with
                      | inl err => (s'', Returned (inl err))
                      | inr result =>
                          match member result "tools" with
                          | JArr tools => (s'', Returned (inr tools))
                          | JNull => (s'', Returned (inr []))
                          | _ => (s'', Returned (inl ErrJSON))
                          end
                      end
                  end
              end
          | (s'', Blocked) => (s'', Blocked)
          | (s'', Panicked) => (s'', Panicked)
          end
      | (s', Blocked) => (s', Blocked)
      | (s', Panicked) => (s', Panicked)
      end
  end.

(** [HTTPServer]: its own Gateway, made by [NewHTTPServer] and reached by
    nothing but the two handlers below.  [req] is what decoding the
    request body gave.  The answer is the HTTP status with the encoded
    result, or with the text of the error. *)
Definition HandleToolCall (ctx : Context) (req : error + (string * json)) (s : State)
  : State * outcome (Z * (error + json)) :=
  match req with
  | inl err => (s, Returned (400, inl err))
  | inr (tool, arguments) =>
      match CallTool ctx "default" tool arguments s with
      | (s', Returned (inl err)) => (s', Returned (500, inl err))
      | (s', Returned (inr result)) => (s', Returned (200, inr result))
      | (s', Blocked) => (s', Blocked)
      | (s', Panicked) => (s', Panicked)
      end
  end.

Definition HandleToolsList (ctx : Context) (s : State) : State * outcome (Z * (error + json)) :=
  match ListTools ctx "default" s with
  | (s', Returned (inl err)) => (s', Returned (500, inl err))
  | (s', Returned (inr tools)) => (s', Returned (200, inr (JArr tools)))
  | (s', Blocked) => (s', Blocked)
  | (s', Panicked) => (s', Panicked)
  end.

End Gateway.

End mcp.

(** ** Package handler *)

Module handler.

Record ServiceInfo : Type := mkServiceInfo {
  Name : string;
  DisplayName : string;
  Description : string;
  Status : string;
  Port : Z;
  Tools : list config.MCPTool
}.

Definition toServiceInfo (svc : config.MCPService) : ServiceInfo :=
  mkServiceInfo (config.Name svc) (config.DisplayName svc) (config.Description svc)
    (config.Status svc) (config.Port svc) (config.Tools svc).

Section Handler.
Context {codec : Codec} {api : DockerAPI}.

(** [GetServices] (the facade's [ListServices]): HTTP status and the
    [data] of the response, or its [error]. *)
Definition GetServices (ctx : Context) (s : docker.State)
  : docker.State * outcome (Z * (error + list ServiceInfo)) :=
  match docker.GetServices ctx s with
  | (s', Returned (services, Some err)) => (s', Returned (500, inl err))
  | (s', Returned (services, None)) => (s', Returned (200, inr (map toServiceInfo services)))
  | (s', Blocked) => (s', Blocked)
  | (s', Panicked) => (s', Panicked)
  end.

(** The [data] of an [APIResponse]. *)
Inductive data : Type :=
| NoData
| Service (info : ServiceInfo)
| Result (result : json)
| Text (text : string).

(** [APIResponse]; [Error] is the error whose text is sent. *)
Record APIResponse : Type := mkAPIResponse {
  Success : bool;
  Data : data;
  Error : option error;
  Message : string
}.

Definition failure (err : error) : APIResponse := mkAPIResponse false NoData (Some err) "".

(** [GetService]: the first element of the manager's list with that
    name, 404 when there is none. *)
Definition GetService (ctx : Context) (svcName : string) (s : docker.State)
  : docker.State * outcome (Z * APIResponse) :=
  match docker.GetServices ctx s with
  | (s', Returned (services, Some err)) => (s', Returned (500, failure err))
  | (s', Returned (services, None)) =>
      match List.find (fun svc => String.eqb (config.Name svc) svcName) services with
      | Some svc => (s', Returned (200, mkAPIResponse true (Service (toServiceInfo svc)) None ""))
      | None =>
          (s', Returned (404, failure (Errorf ("service " +:+ svcName +:+ " not found"))))
      end
  | (s', Blocked) => (s', Blocked)
  | (s', Panicked) => (s', Panicked)
  end.

(** [StartService], [StopService], [RemoveService]: 500 with the
    manager's error, 200 with a message otherwise. *)
Definition lifecycle (svcName verb : string) (r : docker.State * outcome (option error))
  : docker.State * outcome (Z * APIResponse) :=
  match r with
  | (s', Returned (Some err)) => (s', Returned (500, failure err))
  | (s', Returned None) =>
      (s', Returned (200, mkAPIResponse true NoData None ("service " +:+ svcName +:+ " " +:+ verb)))
  | (s', Blocked) => (s', Blocked)
  | (s', Panicked) => (s', Panicked)
  end.

Definition StartService (ctx : Context) (svcName : string) (s : docker.State)
  : docker.State * outcome (Z * APIResponse) :=
  lifecycle svcName "started" (docker.StartService ctx svcName s).

Definition StopService (ctx : Context) (svcName : string) (s : docker.State)
  : docker.State * outcome (Z * APIResponse) :=
  lifecycle svcName "stopped" (docker.StopService ctx svcName s).

Definition RemoveService (ctx : Context) (svcName : string) (s : docker.State)
  : docker.State * outcome (Z * APIResponse) :=
  lifecycle svcName "removed" (docker.RemoveService ctx svcName s).

(** [CallTool]; [req] is what binding the request body gave. *)
Definition CallTool (ctx : Context) (svcName : string) (req : error + (string * json))
  (s : docker.State) : docker.State * outcome (Z * APIResponse) :=
  match req with
  | inl err => (s, Returned (400, failure err))
  | inr (tool, arguments) =>
      match docker.CallTool ctx svcName tool arguments s with
      | (s', Returned (inl err)) => (s', Returned (500, failure err))
      | (s', Returned (inr result)) =>
          (s', Returned (200, mkAPIResponse true (Result result) None ""))
      | (s', Blocked) => (s', Blocked)
      | (s', Panicked) => (s', Panicked)
      end
  end.

(** [GetServiceLogs]: the logs with the white space around them cut. *)
Definition GetServiceLogs (ctx : Context) (svcName : string) (s : docker.State)
  : docker.State * outcome (Z * APIResponse) :=
  match docker.GetContainerLogs ctx svcName s with
  | (s', Returned (_, Some err)) => (s', Returned (500, failure err))
  | (s', Returned (logs, None)) =>
      (s', Returned (200, mkAPIResponse true (Text (TrimSpace logs)) None ""))
  | (s', Blocked) => (s', Blocked)
  | (s', Panicked) => (s', Panicked)
  end.

(** [HealthCheck]: the ["services"] number of its answer. *)
Definition HealthCheck (s : docker.State) : Z * nat :=
  (200, length (config.MCP_Enabled (config.MCP (docker.config (docker.mgr s))))).

End Handler.

End handler.

(** ** Time and interleaving *)

Section Scheduling.
Context {codec : Codec} {api : DockerAPI}.

(** A millisecond passes and nothing else happens. *)
Definition tick (s : docker.State) : docker.State :=
  docker.set_os (sleep 1 (docker.os s)) s.

(** A caller parked in a blocking call, looked at again after every
    millisecond, for [n] milliseconds. *)
Fixpoint await {A : Type} (n : nat) (attempt : docker.State -> docker.State * outcome A)
  (s : docker.State) : docker.State * outcome A :=
  match attempt s with
  | (s', Blocked) =>
      match n with
      | O => (s', Blocked)
      | S n' => await n' attempt (tick s')
      end
  | r => r
  end.

(** [Manager.CallTool] watched for [n] milliseconds. *)
Definition CallTool_within (n : nat) (ctx : Context) (svcName toolName : string) (args : json)
  (s : docker.State) : docker.State * outcome (error + json) :=
  match docker.CallTool_send ctx svcName toolName args s with
  | (s', inl r) => (s', Returned r)
  | (s', inr p) => await n (docker.CallTool_recv p) s'
  end.

(** Concurrent callers of [Manager.CallTool] on one manager.  A caller
    runs in two steps, the part up to its write and the part from its
    read, and the steps of different callers and of the children
    interleave.  (The code has no lock around either part, so finer
    interleavings exist as well.) *)
Inductive event : Type :=
| Send (caller : nat) (ctx : Context) (svcName toolName : string) (args : json)
| Recv (caller : nat)
| ChildWrites (pid : nat) (chunk : string)
| ChildExits (pid : nat).

Record Run : Type := mkRun {
  state : docker.State;
  reading : gmap nat docker.ProcessInfo;   (* callers between write and read *)
  results : gmap nat (error + json)        (* callers that have returned *)
}.

Definition step (r : Run) (ev : event) : Run :=
  match ev with
  | Send caller ctx svcName toolName args =>
      match docker.CallTool_send ctx svcName toolName args (state r) with
      | (s', inl res) => mkRun s' (reading r) (<[caller := res]> (results r))
      | (s', inr p) => mkRun s' (<[caller := p]> (reading r)) (results r)
      end
  | Recv caller =>
      match reading r !! caller with
      | None => r
      | Some p =>
          match docker.CallTool_recv p (state r) with
          | (s', Returned res) => mkRun s' (delete caller (reading r)) (<[caller := res]> (results r))
          | (s', _) => mkRun s' (reading r) (results r)
          end
      end
  | ChildWrites pid chunk =>
      mkRun (docker.set_os (child_writes pid chunk (docker.os (state r))) (state r))
        (reading r) (results r)
  | ChildExits pid =>
      mkRun (docker.set_os (child_exits pid (docker.os (state r))) (state r))
        (reading r) (results r)
  end.

Definition run (s : docker.State) (evs : list event) : Run :=
  fold_left step evs (mkRun s ∅ ∅).

(** The operations of the facade, for statements about all of them. *)
Inductive op : Type :=
| OpStartService (svcName : string)
| OpStopService (svcName : string)
| OpRemoveService (svcName : string)
| OpGetServices
| OpCallTool (svcName toolName : string) (args : json)
| OpGetLogs (svcName : string).

Definition exec (ctx : Context) (o : op) (s : docker.State) : docker.State :=
  match o with
  | OpStartService n => fst (docker.StartService ctx n s)
  | OpStopService n => fst (docker.StopService ctx n s)
  | OpRemoveService n => fst (docker.RemoveService ctx n s)
  | OpGetServices => fst (docker.GetServices ctx s)
  | OpCallTool n t a => fst (docker.CallTool ctx n t a s)
  | OpGetLogs n => fst (docker.GetContainerLogs ctx n s)
  end.

(** [StopService] waits for its child in [Cmd.Wait] with [procMu.Lock()]
    held (lines 373 to 378), be it called alone or as the first statement
    of [RemoveService]; while it waits, nothing that takes [procMu] gets
    any further.  The other operations release [procMu] before they
    wait. *)
Definition leaves_procMu_locked (ctx : Context) (o : op) (s : docker.State) : bool :=
  match o with
  | OpStopService n | OpRemoveService n =>
      match snd (docker.StopService ctx n s) with Blocked => true | _ => false end
  | _ => false
  end.

(** A sequence of operations, each started once the one before has
    returned or was left waiting without a lock: the state it leads to,
    and none when one of them is left waiting with [procMu] locked. *)
Fixpoint exec_all (ctx : Context) (ops : list op) (s : docker.State) : option docker.State :=
  match ops with
  | [] => Some s
  | o :: rest =>
      if leaves_procMu_locked ctx o s then None else exec_all ctx rest (exec ctx o s)
  end.

End Scheduling.

(** ** Instances for evaluation *)

(** An engine that keeps the containers it was asked to create, with the
    configuration they were created from. *)
Record SimpleEngine : Type := mkSimpleEngine {
  reachable : bool;
  listed : list types.Container;
  created : list (string * container.Config)
}.

Definition set_state_of (id st : string) (c : types.Container) : types.Container :=
  if String.eqb (types.ID c) id
  then types.mkContainer (types.ID c) (types.Names c) st (types.Ports c) else c.

Definition has_id (id : string) (c : types.Container) : bool := String.eqb (types.ID c) id.

Definition unreachable : error := ErrDocker "cannot connect to the Docker daemon".

Definition simple_engine : DockerAPI := {|
  engine := SimpleEngine;
  ContainerList := fun e all =>
    if reachable e
    then inr (if all then listed e
              else filter (fun c => String.eqb (types.State c) "running" = true) (listed e))
    else inl unreachable;
  ContainerStart := fun e id =>
    if negb (reachable e) then (e, Some unreachable)
    else if existsb (has_id id) (listed e)
    then (mkSimpleEngine true (map (set_state_of id "running") (listed e)) (created e), None)
    else (e, Some (ErrDocker "no such container"));
  ContainerStop := fun e id =>
    if negb (reachable e) then (e, Some unreachable)
    else if existsb (has_id id) (listed e)
    then (mkSimpleEngine true (map (set_state_of id "exited") (listed e)) (created e), None)
    else (e, Some (ErrDocker "no such container"));
  ContainerRemove := fun e id =>
    if negb (reachable e) then (e, Some unreachable)
    else if existsb (has_id id) (listed e)
    then (mkSimpleEngine true (filter (fun c => has_id id c = false) (listed e)) (created e), None)
    else (e, Some (ErrDocker "no such container"));
  ContainerCreate := fun e cfg host name =>
    if negb (reachable e) then (e, inl unreachable)
    else if existsb (fun c => bool_decide (("/" +:+ name) ∈ types.Names c)) (listed e)
    then (e, inl (ErrDocker "name already in use"))
    else
      let id := "c" +:+ pretty (length (listed e)) in
      (mkSimpleEngine true (listed e ++ [types.mkContainer id ["/" +:+ name] "created" []])
         (created e ++ [(name, cfg)]),
       inr id);
  ContainerLogs := fun e id =>
    if reachable e then inr "" else inl unreachable
|}.

(** A viper whose decoder is given by a table from file content to the
    decoded configuration. *)
Definition table_viper (table : list (string * config.Config)) : config.Viper := {|
  config.viper_state := string;
  config.viper_ReadInConfig := fun o path =>
    match ReadFile o path with
    | inl err => inl err
    | inr data => inr data
    end;
  config.viper_Unmarshal := fun o data =>
    match List.find (fun kv => String.eqb (fst kv) data) table with
    | Some (_, c) => inr c
    | None => inl (ErrViper "cannot decode")
    end
|}.

(** A scripted child: its reply to one request line carries the id of
    that request and, as result, the method and the arguments it was
    sent. *)
Definition scripted_reply (line : string) : string :=
  match json_decode line with
  | inr (JObj req) =>
      json_encode (JObj [("id", member req "id"); ("jsonrpc", JStr "2.0");
                         ("result", JObj [("answers", member req "method");
                                          ("echo", match member req "params" with
                                                   | JObj params => member params "arguments"
                                                   | _ => JNull
                                                   end)])])
      +:+ newline
  | _ => ""
  end.

(** The [n]-th line written to a child so far. *)
Definition request_line {api : DockerAPI} (s : docker.State) (pid n : nat) : string :=
  match procs (docker.os s) !! pid with
  | Some pr => nth n (Split (stdin_data pr) "010"%char) ""
  | None => ""
  end.

(** The id a request line carries, if any. *)
Definition request_id (line : string) : option Z :=
  match json_decode line with
  | inr (JObj req) => match obj_get "id" req with Some (JNum n) => Some n | _ => None end
  | _ => None
  end.

Definition request_method (line : string) : option string :=
  match json_decode line with
  | inr (JObj req) => match obj_get "method" req with Some (JStr m) => Some m | _ => None end
  | _ => None
  end.

(** ** Notions used by the statements *)

(** The error [CallTool] returns for a name the registry does not hold
    (line 472). *)
Definition NotRunning (svcName : string) : error :=
  Errorf ("service " +:+ svcName +:+ " not running").

(** Everything of a descriptor but its [Status]. *)
Definition same_descriptor (a b : config.MCPService) : Prop :=
  config.Name a = config.Name b /\
  config.DisplayName a = config.DisplayName b /\
  config.Description a = config.Description b /\
  config.Image a = config.Image b /\
  config.Command a = config.Command b /\
  config.Args a = config.Args b /\
  config.Env a = config.Env b /\
  config.Port a = config.Port b /\
  config.Enabled a = config.Enabled b /\
  config.Tools a = config.Tools b /\
  config.HealthCheck a = config.HealthCheck b.





(** The context, if there is one, is not done. *)
Definition live (c : option Context) (o : OS) : Prop :=
  forall ctx, c = Some ctx -> Done ctx (clock o) = false.

(** The engine lists a running container under the service's name. *)
Definition listed_running {api : DockerAPI} (s : docker.State) (svcName : string) : Prop :=
  exists cs c, ContainerList (docker.dk s) true = inr cs /\
               docker.find_container ("/" +:+ docker.containerName svcName) cs = Returned (Some c) /\
               types.State c = "running".

(** The backend of a registered service has died: its process is still
    in the registry and has exited. *)
Definition session_failed {api : DockerAPI} (s : docker.State) (svcName : string) : bool :=
  match docker.running (docker.mgr s) !! svcName with
  | Some p =>
      match procs (docker.os s) !! docker.Cmd p with
      | Some pr => exited pr
      | None => false
      end
  | None => false
  end.


(** ** States used by the examples *)

Definition no_healthcheck : config.HealthCheckConfig := config.mkHealthCheckConfig false "" "".

(** A service with a command, as configuration loads it (no status). *)
Definition echo_service : config.MCPService :=
  config.mkMCPService "echo" "Echo" "echoes its arguments" "" "echo-mcp" ["--stdio"] [] 0 true ""
    [] no_healthcheck.

(** A service with an image only, with one binding that has a literal and
    a reference, and one whose reference is unset. *)
Definition image_service : config.MCPService :=
  config.mkMCPService "search" "Search" "web search" "mcp/search" "" []
    [config.mkEnvVar "API_KEY" "literal" "env:SRC"; config.mkEnvVar "TOKEN" "" "env:UNSET"]
    0 true "" [] no_healthcheck.

Definition demo_config : config.Config :=
  config.mkConfig (config.mkServerConfig "0.0.0.0" 8080)
    (config.mkDockerConfig "clawmcp-network" "" "" "/var/run/docker.sock")
    (config.mkMCPConfig [echo_service; image_service])
    (config.mkWebConfig true 8081 "ClawMCP") [].

(** The programs of the examples are found through [/usr/bin] only. *)
Definition in_usr_bin (programs : list (string * bool)) (path : string) : list (string * bool) :=
  if String.eqb path "/usr/bin" then programs else [].

Definition demo_os : OS :=
  mkOS [("PATH", "/usr/bin"); ("SRC", "from-env")] ∅
    (in_usr_bin [("echo-mcp", true); ("docker", true)]) [] 0.


(** No Docker client, nothing started. *)
Definition demo_state : @docker.State simple_engine :=
  @docker.mkState simple_engine (docker.NewManager demo_config false) demo_os
    (mkSimpleEngine true [] []) [].



(** A Docker client and an empty engine. *)
Definition demo_docker_state : @docker.State simple_engine :=
  @docker.mkState simple_engine (docker.NewManager demo_config true) demo_os
    (mkSimpleEngine true [] []) [].

(** [echo] started and its handshake written. *)
Definition demo_started : @docker.State simple_engine :=
  fst (@docker.run_goroutine ascii_codec simple_engine
         (fst (@docker.StartService simple_engine Background "echo" demo_state))).

(** The services of the loaded configuration. *)
Definition enabled {api : DockerAPI} (s : docker.State) : list config.MCPService :=
  config.MCP_Enabled (config.MCP (docker.config (docker.mgr s))).

(** What C9 says of one operation in one state: the configuration after
    it is the configuration before it. *)
Definition config_untouched {codec : Codec} {api : DockerAPI} (ctx : Context) (o : op)
  (s : docker.State) : Prop :=
  docker.config (docker.mgr (exec ctx o s)) = docker.config (docker.mgr s).




(** [CallTool] on [svcName] returns at once with [NotRunning] and leaves
    the state as it was: nothing written, no id taken. *)
Definition fails_fast {codec : Codec} {api : DockerAPI} (s : docker.State) (svcName : string) : Prop :=
  forall ctx toolName args,
    docker.CallTool ctx svcName toolName args s = (s, Returned (inl (NotRunning svcName))).

(** The child's stdout is open and holds nothing to read. *)
Definition silent {api : DockerAPI} (s : docker.State) (pid : nat) : Prop :=
  exists pr, procs (docker.os s) !! pid = Some pr /\
             pending (stdout pr) = [] /\ closed (stdout pr) = false.



(** The child of [echo] has died after the handshake; nobody has called
    [StopService]. *)
Definition demo_crashed : @docker.State simple_engine :=
  docker.set_os (child_exits 0 (docker.os demo_started)) demo_started.

(** [echo] started and stopped again. *)
Definition demo_stopped : @docker.State simple_engine :=
  fst (@docker.StopService simple_engine Background "echo" demo_started).

(** A configuration file that sets neither port nor the Docker network,
    and the operating system holding it. *)
Definition partial_config : config.Config :=
  config.mkConfig (config.mkServerConfig "127.0.0.1" 0)
    (config.mkDockerConfig "" "mcp/" "always" "/run/user/docker.sock")
    (config.mkMCPConfig [echo_service])
    (config.mkWebConfig true 9000 "ClawMCP") [".env"].

Definition config_os : OS :=
  mkOS [] {[ "config.yaml" := "server: {host: 127.0.0.1}"; ".env" := "KEY=value" ]} (fun _ => [])
    [] 0.

Definition demo_viper : config.Viper :=
  table_viper [("server: {host: 127.0.0.1}", partial_config)].

Definition who (name : string) : json := JObj [("who", JStr name)].

(** Two callers have written their requests, A before B.  (The child
    sent no reply to the handshake.) *)
Definition demo_two_sent : @Run simple_engine :=
  @run ascii_codec simple_engine demo_started
    [Send 1 Background "echo" "echo" (who "A"); Send 2 Background "echo" "echo" (who "B")].

(** The child answers B's request first, then A's; then A reads, then B. *)
Definition demo_out_of_order : @Run simple_engine :=
  fold_left (@step ascii_codec simple_engine)
    [ChildWrites 0 (scripted_reply (request_line (state demo_two_sent) 0 3));
     ChildWrites 0 (scripted_reply (request_line (state demo_two_sent) 0 2));
     Recv 1; Recv 2]
    demo_two_sent.

(** One caller has written the first request after the handshake. *)
Definition demo_first_call : @Run simple_engine :=
  @run ascii_codec simple_engine demo_started [Send 1 Background "echo" "echo" (who "A")].

(** The child answers every request it was sent, in order: first
    [initialize], then the call; then the caller reads. *)
Definition demo_first_call_answered : @Run simple_engine :=
  fold_left (@step ascii_codec simple_engine)
    [ChildWrites 0 (scripted_reply (request_line (state demo_first_call) 0 0));
     ChildWrites 0 (scripted_reply (request_line (state demo_first_call) 0 2));
     Recv 1]
    demo_first_call.

(** The child's reply to one call, cut in two after 24 bytes. *)
Definition demo_reply : string := scripted_reply (request_line (state demo_first_call) 0 2).
Definition demo_reply_head : string := String.substring 0 24 demo_reply.
Definition demo_reply_tail : string := String.substring 24 (String.length demo_reply - 24) demo_reply.

(** A child that sent no reply to the handshake is called once, and its
    reply arrives in two chunks; then the caller reads. *)
Definition demo_chunked : @Run simple_engine :=
  fold_left (@step ascii_codec simple_engine)
    [ChildWrites 0 demo_reply_head; ChildWrites 0 demo_reply_tail; Recv 1]
    demo_first_call.

(** The bytes of a sequence of chunks. *)
Definition concat_chunks (chunks : list string) : string := fold_right String.append "" chunks.

(** The reply of [demo_reply] without its newline. *)
Definition demo_reply_line : string := String.substring 0 (String.length demo_reply - 1) demo_reply.

(** The registry entry and the child of [echo] after the handshake. *)
Definition demo_entry : docker.ProcessInfo := docker.mkProcessInfo "echo" 0 0 0 (Some 0%nat) 1.
Definition demo_child : Proc :=
  mkProc ["echo-mcp"; "--stdio"] ["PATH=/usr/bin"; "SRC=from-env"] true
    (request_line demo_started 0 0 +:+ newline +:+ request_line demo_started 0 1 +:+ newline)
    true (mkPipe [] false) (mkPipe [] false) false true.

(** A Gateway with one process whose child is alive and silent. *)
Definition demo_gateway : mcp.State :=
  mcp.mkState (mcp.mkGateway {[ "echo" := mcp.mkProcess "echo" 0 0 (0%nat, "") (0%nat, "") 1 ]})
    (mkOS [] ∅ (fun _ => [])
       [mkProc ["echo-mcp"] [] false "" true (mkPipe [] false) (mkPipe [] false) false true] 0).

(** ** Everything that can happen to a manager *)

(** What moves a manager's state: an operation of the facade, the oldest
    pending [initAndServe], a request to a service's own HTTP server, and
    what the world does in between. *)
Inductive action : Type :=
| Facade (ctx : Context) (o : op)
| RunGoroutine
| ToolsListRequest (svcName : string)
| ToolCallRequest (svcName tool : string) (arguments : json)
| ChildWrote (pid : nat) (chunk : string)
| ChildExited (pid : nat)
| MillisecondPassed.

Definition perform {codec : Codec} {api : DockerAPI} (s : docker.State) (a : action) : docker.State :=
  match a with
  | Facade ctx o => exec ctx o s
  | RunGoroutine => fst (docker.run_goroutine s)
  | ToolsListRequest n => fst (docker.handleToolsList n s)
  | ToolCallRequest n t args => fst (docker.handleToolCall n t args s)
  | ChildWrote pid chunk => docker.set_os (child_writes pid chunk (docker.os s)) s
  | ChildExited pid => docker.set_os (child_exits pid (docker.os s)) s
  | MillisecondPassed => tick s
  end.

(** A manager as [main] makes it, on any operating system and engine. *)
Definition initial {api : DockerAPI} (cfg : config.Config) (client_ok : bool) (o : OS) (e : engine)
  : docker.State :=
  docker.mkState (docker.NewManager cfg client_ok) o e [].

(** The names of the configured services, in order. *)
Definition names {api : DockerAPI} (s : docker.State) : list string := map config.Name (enabled s).

(** The registry is in order: every entry is filed under its own name,
    names a configured service, holds the three pipes of one existing
    child, and no two entries hold the same child. *)
Definition registry_ok {api : DockerAPI} (s : docker.State) : Prop :=
  (forall n p, docker.running (docker.mgr s) !! n = Some p ->
     docker.Name p = n /\
     is_Some (docker.find_service n (enabled s)) /\
     docker.Stdin p = docker.Cmd p /\ docker.Stdout p = docker.Cmd p /\
     docker.Stderr p = Some (docker.Cmd p) /\
     (docker.Cmd p < length (procs (docker.os s)))%nat) /\
  (forall n m p q, docker.running (docker.mgr s) !! n = Some p ->
     docker.running (docker.mgr s) !! m = Some q ->
     docker.Cmd p = docker.Cmd q -> n = m).

(** What one step may do to the registry, the configured names and the
    number of children: nothing, advance one counter, drop one entry, or
    file a new child under a configured name. *)
Inductive registry_step {api : DockerAPI} (s s' : docker.State) : Prop :=
| step_same :
    docker.running (docker.mgr s') = docker.running (docker.mgr s) ->
    length (procs (docker.os s')) = length (procs (docker.os s)) ->
    names s' = names s -> registry_step s s'
| step_bump n p id :
    docker.running (docker.mgr s) !! n = Some p ->
    docker.running (docker.mgr s') = <[n := docker.set_ID id p]> (docker.running (docker.mgr s)) ->
    length (procs (docker.os s')) = length (procs (docker.os s)) ->
    names s' = names s -> registry_step s s'
| step_delete n :
    docker.running (docker.mgr s') = delete n (docker.running (docker.mgr s)) ->
    length (procs (docker.os s')) = length (procs (docker.os s)) ->
    names s' = names s -> registry_step s s'
| step_launch n :
    In n (names s) ->
    docker.running (docker.mgr s')
      = <[n := docker.mkProcessInfo n (length (procs (docker.os s))) (length (procs (docker.os s)))
                 (length (procs (docker.os s))) (Some (length (procs (docker.os s)))) 1]>
          (docker.running (docker.mgr s)) ->
    length (procs (docker.os s')) = S (length (procs (docker.os s))) ->
    names s' = names s -> registry_step s s'.

(** The service an operation names. *)
Definition target (o : op) : option string :=
  match o with
  | OpStartService n | OpStopService n | OpRemoveService n | OpCallTool n _ _ | OpGetLogs n => Some n
  | OpGetServices => None
  end.

(** [s'] still holds the entry [q] of [m], and the child of [q] is as it
    was in [s]. *)
Definition kept {api : DockerAPI} (m : string) (q : docker.ProcessInfo) (s s' : docker.State)
  : Prop :=
  docker.running (docker.mgr s') !! m = Some q /\
  procs (docker.os s') !! docker.Cmd q = procs (docker.os s) !! docker.Cmd q.

(** The child's stderr is open and holds nothing to read. *)
Definition quiet {api : DockerAPI} (s : docker.State) (fd : nat) : Prop :=
  exists pr, procs (docker.os s) !! fd = Some pr /\
             pending (stderr pr) = [] /\ closed (stderr pr) = false.

(** The engine lists a container without a name, which [c.Names[0]]
    cannot index. *)
Definition nameless_container {api : DockerAPI} (s : docker.State) : Prop :=
  docker.client (docker.mgr s) = true /\
  exists all cs c, ContainerList (docker.dk s) all = inr cs /\ c ∈ cs /\ types.Names c = [].

(** ** The HTTP server of package mcp *)

(** The two routes of [HTTPServer.Start], and a server as
    [NewHTTPServer] makes it. *)
Inductive request : Type :=
| PostCall (body : error + (string * json))
| GetTools.

Definition NewHTTPServer (o : OS) : mcp.State := mcp.mkState mcp.NewGateway o.

Definition serve {codec : Codec} (ctx : Context) (r : request) (s : mcp.State)
  : mcp.State * outcome (Z * (error + json)) :=
  match r with
  | PostCall body => mcp.HandleToolCall ctx body s
  | GetTools => mcp.HandleToolsList ctx s
  end.

(** A sequence of requests served one after the other: the state of the
    server in the end, and the answers. *)
Fixpoint serve_all {codec : Codec} (reqs : list (Context * request)) (s : mcp.State)
  : mcp.State * list (outcome (Z * (error + json))) :=
  match reqs with
  | [] => (s, [])
  | (ctx, r) :: rest =>
      let '(s', a) := serve ctx r s in
      let '(s'', answers) := serve_all rest s' in
      (s'', a :: answers)
  end.

(** What a server without processes answers. *)
Definition refusal (r : request) : outcome (Z * (error + json)) :=
  match r with
  | PostCall (inl err) => Returned (400, inl err)
  | _ => Returned (500, inl (Errorf "process default not running"))
  end.

(** ** More states used by the examples *)

(** [echo] started, its handshake not yet written. *)
Definition demo_launched : @docker.State simple_engine :=
  fst (@docker.StartService simple_engine Background "echo" demo_state).

Definition demo_new_child : Proc :=
  mkProc ["echo-mcp"; "--stdio"] ["PATH=/usr/bin"; "SRC=from-env"] true "" true (mkPipe [] false)
    (mkPipe [] false) false true.

(** Both services started as local processes. *)
Definition demo_two_services : @docker.State simple_engine :=
  fold_left (@perform ascii_codec simple_engine)
    [Facade Background (OpStartService "echo"); Facade Background (OpStartService "search")]
    (@initial simple_engine demo_config false demo_os (mkSimpleEngine true [] [])).

Definition demo_search_entry : docker.ProcessInfo :=
  docker.mkProcessInfo "search" 1 1 1 (Some 1%nat) 1.

(** The engine lists a container that has no name. *)
Definition demo_nameless_state : @docker.State simple_engine :=
  @docker.mkState simple_engine (docker.NewManager demo_config true) demo_os
    (mkSimpleEngine true [types.mkContainer "c0" [] "running" []] []) [].

(** The process of [demo_gateway], its child, and the Gateway after the
    process was stopped. *)
Definition demo_gateway_entry : mcp.Process := mcp.mkProcess "echo" 0 0 (0%nat, "") (0%nat, "") 1.

Definition demo_gateway_child : Proc :=
  mkProc ["echo-mcp"] [] false "" true (mkPipe [] false) (mkPipe [] false) false true.

Definition demo_gateway_stopped : mcp.State := fst (mcp.StopProcess "echo" demo_gateway).

(** The child of [echo] has answered the handshake; a call is made: it
    reads that answer. *)
Definition demo_answered : @docker.State simple_engine :=
  docker.set_os (child_writes 0 (scripted_reply (request_line demo_started 0 0))
                   (docker.os demo_started)) demo_started.

Definition demo_answered_call : @docker.State simple_engine :=
  fst (@docker.CallTool ascii_codec simple_engine Background "echo" "echo" (who "A") demo_answered).

Definition demo_stale_result : json := JObj [("answers", JStr "initialize"); ("echo", JNull)].

(** The child lives and does not exit when its stdin is closed. *)
Definition stubborn {api : DockerAPI} (s : docker.State) (pid : nat) : Prop :=
  exists pr, procs (docker.os s) !! pid = Some pr /\ exited pr = false /\ exits_on_eof pr = false.

(** A child that reads its stdin to the end and stays. *)
Definition demo_stubborn_os : OS :=
  mkOS [("PATH", "/usr/bin"); ("SRC", "from-env")] ∅
    (in_usr_bin [("echo-mcp", false); ("docker", true)]) [] 0.

Definition demo_stubborn : @docker.State simple_engine :=
  fst (@docker.StartService simple_engine Background "echo"
         (@docker.mkState simple_engine (docker.NewManager demo_config false) demo_stubborn_os
            (mkSimpleEngine true [] []) [])).

(** Take apart every [match] and [if] of a goal about what an operation
    leaves behind. *)
Ltac split_cases :=
  repeat (simpl; try reflexivity;
          match goal with
          | |- context [match ?x with _ => _ end] => destruct x eqn:?
          | |- context [if ?b then _ else _] => destruct b eqn:?
          end); simpl; try reflexivity.

(* ===================================================================== *)
(** * Part II -- theorems                                                 *)
(* ===================================================================== *)

(** ** The model runs: a start, a handshake, a call, a stop *)

Example handshake_then_call :
  request_method (request_line demo_started 0 1) = Some "notifications/initialized" /\
  clock (docker.os demo_started) = 2000%N /\
  snd (@docker.CallTool ascii_codec simple_engine Background "echo" "echo" (who "A")
         (docker.set_os (child_writes 0 demo_reply (docker.os demo_started)) demo_started))
    = Returned (inr (JObj [("answers", JStr "tools/call"); ("echo", who "A")])) /\
  docker.running (docker.mgr demo_stopped) !! "echo" = None.
Proof. repeat split; vm_compute; reflexivity. Qed.

Example json_round_trip :
  json_decode (json_encode (JObj [("a", JNum 1); ("b", JStr "x"); ("c", JArr [JNull; JBool true])]))
  = inr (JObj [("a", JNum 1); ("b", JStr "x"); ("c", JArr [JNull; JBool true])]).
Proof. vm_compute. reflexivity. Qed.

(** [%v] as the codec of the examples prints it: a million and more in
    exponent form, a map sorted by key. *)
Example format_v_of_decoded_values :
  format_v (JNum 999999) = "999999" /\
  format_v (JNum 1000000) = "1e+06" /\
  format_v (JNum (-1234500)) = "-1.2345e+06" /\
  format_v (JObj [("b", JNum 1); ("a", JArr [JStr "x"; JNull]); ("b", JBool true)])
  = "map[a:[x <nil>] b:true]" /\
  @docker.CallTool_parse ascii_codec
    (json_encode (JObj [("error", JObj [("message", JNum 1000000)])]))
  = inl (Errorf "MCP error: 1e+06").
Proof. repeat split; vm_compute; reflexivity. Qed.

(** The fields of a command line are cut at Unicode white space, here a
    blank, a tab and a no-break space (U+00A0). *)
Example Fields_of_a_command_line :
  Fields ("uvx  mcp-echo" +:+ String "009" (String "194" (String "160" "--stdio")))
  = ["uvx"; "mcp-echo"; "--stdio"].
Proof. vm_compute. reflexivity. Qed.

Example loadEnvFile_sets_variables :
  environ (fst (@config.Load demo_viper "config.yaml" config_os)) = [("KEY", "value")].
Proof. vm_compute. reflexivity. Qed.

(** ** C10: the defaults of [Load] *)

Section LoadFacts.
Context {viper : config.Viper}.

(** C10.  When the file is read and decoded, [Load] returns the decoded
    configuration with the four defaults filled in: a zero [server.port]
    becomes 8080, a zero [web.port] 8081, an empty [docker.network]
    "clawmcp-network", an empty [docker.socketPath]
    "/var/run/docker.sock"; values already set and all other fields are
    returned as decoded. *)
Theorem Load_applies_defaults (configPath : string) (o : OS)
    (v : config.viper_state) (parsed : config.Config) :
  config.viper_ReadInConfig o configPath = inr v ->
  config.viper_Unmarshal o v = inr parsed ->
  exists o' loaded,
    config.Load configPath o = (o', inr loaded) /\
    config.Host (config.Server loaded) = config.Host (config.Server parsed) /\
    config.Server_Port (config.Server loaded) =
      (if config.Server_Port (config.Server parsed) =? 0 then 8080
       else config.Server_Port (config.Server parsed)) /\
    config.Network (config.Docker loaded) =
      (if String.eqb (config.Network (config.Docker parsed)) "" then "clawmcp-network"
       else config.Network (config.Docker parsed)) /\
    config.ImagePrefix (config.Docker loaded) = config.ImagePrefix (config.Docker parsed) /\
    config.RestartPolicy (config.Docker loaded) = config.RestartPolicy (config.Docker parsed) /\
    config.SocketPath (config.Docker loaded) =
      (if String.eqb (config.SocketPath (config.Docker parsed)) "" then "/var/run/docker.sock"
       else config.SocketPath (config.Docker parsed)) /\
    config.MCP loaded = config.MCP parsed /\
    config.Enable (config.Web loaded) = config.Enable (config.Web parsed) /\
    config.Web_Port (config.Web loaded) =
      (if config.Web_Port (config.Web parsed) =? 0 then 8081
       else config.Web_Port (config.Web parsed)) /\
    config.Title (config.Web loaded) = config.Title (config.Web parsed) /\
    config.EnvFiles loaded = config.EnvFiles parsed.
Proof.
  intros Hread Hdec. unfold config.Load. rewrite Hread, Hdec.
  eexists _, _. split; [reflexivity|].
  destruct parsed as [[h sp] [nw ip rp sk] mcp [en wp ti] ef]; cbn.
  destruct (sp =? 0); cbn; destruct (wp =? 0); cbn;
    destruct (String.eqb nw ""); cbn; destruct (String.eqb sk ""); cbn;
    repeat split; reflexivity.
Qed.

End LoadFacts.

Lemma Load_applies_defaults_witness :
  exists o' loaded,
    @config.Load demo_viper "config.yaml" config_os = (o', inr loaded) /\
    config.Host (config.Server loaded) = "127.0.0.1" /\
    config.Server_Port (config.Server loaded) = 8080 /\
    config.Network (config.Docker loaded) = "clawmcp-network" /\
    config.ImagePrefix (config.Docker loaded) = "mcp/" /\
    config.RestartPolicy (config.Docker loaded) = "always" /\
    config.SocketPath (config.Docker loaded) = "/run/user/docker.sock" /\
    config.MCP loaded = config.mkMCPConfig [echo_service] /\
    config.Enable (config.Web loaded) = true /\
    config.Web_Port (config.Web loaded) = 9000 /\
    config.Title (config.Web loaded) = "ClawMCP" /\
    config.EnvFiles loaded = [".env"].
Proof.
  apply (@Load_applies_defaults demo_viper "config.yaml" config_os
           "server: {host: 127.0.0.1}" partial_config); reflexivity.
Defined.

(** ** C9: what the operations do to the configuration *)

Lemma exec_Start_started c args env sid o o' pid :
  exec_Start c args env sid o = (o', inr pid) ->
  pid = length (procs o) /\ live c o /\
  exists exe rest on_eof,
    args = exe :: rest /\ LookPath o exe = Some on_eof /\
    o' = with_procs (procs o ++ [mkProc args env sid "" true (mkPipe [] false) (mkPipe [] false)
                                   false on_eof]) o.
Proof.
  unfold exec_Start, live. destruct args as [|exe rest]; [discriminate|].
  destruct (LookPath o exe) as [on_eof|] eqn:Hl; [|discriminate].
  destruct c as [ctx|].
  - destruct (Done ctx (clock o)) eqn:Hd; [discriminate|]. intros [= <- <-].
    split; [reflexivity|]. split; [intros ? [= <-]; exact Hd|].
    exists exe, rest, on_eof. auto.
  - intros [= <- <-]. split; [reflexivity|]. split; [discriminate|].
    exists exe, rest, on_eof. auto.
Qed.

Lemma exec_Start_failed c args env sid o o' err :
  exec_Start c args env sid o = (o', inl err) -> o' = o.
Proof.
  unfold exec_Start. destruct args as [|exe rest]; [intros [= <- _]; reflexivity|].
  destruct (LookPath o exe); [|intros [= <- _]; reflexivity].
  destruct c as [ctx|]; [destruct (Done ctx (clock o))|]; intros [= <- ]; reflexivity.
Qed.


Section Frame.
Context {codec : Codec} {api : DockerAPI}.

Implicit Types (s : docker.State) (ctx : Context).

Lemma launch_config c n port args env s :
  docker.config (docker.mgr (fst (docker.launch c n port args env s))) = docker.config (docker.mgr s).
Proof. unfold docker.launch. split_cases. Qed.

Lemma startDockerContainer_config ctx n svc s :
  docker.config (docker.mgr (fst (docker.startDockerContainer ctx n svc s)))
  = docker.config (docker.mgr s).
Proof. unfold docker.startDockerContainer. split_cases. Qed.

Lemma StartService_config ctx n s :
  docker.config (docker.mgr (fst (docker.StartService ctx n s))) = docker.config (docker.mgr s).
Proof.
  unfold docker.StartService.
  repeat match goal with
         | |- context [match ?x with _ => _ end] =>
             lazymatch x with
             | docker.launch _ _ _ _ _ _ => fail
             | docker.startDockerContainer _ _ _ _ => fail
             | _ => destruct x eqn:?
             end
         end;
    auto using launch_config, startDockerContainer_config.
Qed.

Lemma StopService_config ctx n s :
  docker.config (docker.mgr (fst (docker.StopService ctx n s))) = docker.config (docker.mgr s).
Proof. unfold docker.StopService. split_cases. Qed.

Lemma RemoveService_config ctx n s :
  docker.config (docker.mgr (fst (docker.RemoveService ctx n s))) = docker.config (docker.mgr s).
Proof.
  unfold docker.RemoveService.
  pose proof (StopService_config ctx n s) as H.
  destruct (docker.StopService ctx n s) as [s1 r]. simpl in H.
  destruct r; simpl; try exact H; rewrite <- H; split_cases.
Qed.

Lemma CallTool_send_config ctx n t a s :
  docker.config (docker.mgr (fst (docker.CallTool_send ctx n t a s))) = docker.config (docker.mgr s).
Proof. unfold docker.CallTool_send, docker.bump_ID. split_cases. Qed.

Lemma CallTool_recv_config p s :
  docker.config (docker.mgr (fst (docker.CallTool_recv p s))) = docker.config (docker.mgr s).
Proof. unfold docker.CallTool_recv. split_cases. Qed.

Lemma CallTool_config ctx n t a s :
  docker.config (docker.mgr (fst (docker.CallTool ctx n t a s))) = docker.config (docker.mgr s).
Proof.
  unfold docker.CallTool.
  pose proof (CallTool_send_config ctx n t a s) as H.
  destruct (docker.CallTool_send ctx n t a s) as [s1 [r|p]]; simpl in *; [exact H|].
  rewrite CallTool_recv_config. exact H.
Qed.

Lemma GetContainerLogs_config ctx n s :
  docker.config (docker.mgr (fst (docker.GetContainerLogs ctx n s))) = docker.config (docker.mgr s).
Proof. unfold docker.GetContainerLogs. split_cases. Qed.

Lemma GetServices_config ctx s :
  docker.config (docker.mgr (fst (docker.GetServices ctx s)))
  = config.set_MCP_Enabled
      (map (docker.mark_status (docker.running (docker.mgr s)))
           (config.MCP_Enabled (config.MCP (docker.config (docker.mgr s)))))
      (docker.config (docker.mgr s)).
Proof. unfold docker.GetServices. split_cases. Qed.

Lemma mark_status_same_descriptor r svc : same_descriptor (docker.mark_status r svc) svc.
Proof. unfold docker.mark_status, same_descriptor. destruct (r !! config.Name svc); simpl; tauto. Qed.

Lemma same_descriptor_refl svc : same_descriptor svc svc.
Proof. unfold same_descriptor. tauto. Qed.

Lemma mark_status_value r svc :
  config.Status (docker.mark_status r svc) = "running" \/
  config.Status (docker.mark_status r svc) = "stopped".
Proof. unfold docker.mark_status. destruct (r !! config.Name svc); simpl; auto. Qed.

(** C9 (as amended).  Whatever the operation, the loaded configuration
    keeps its server, Docker and web sections and its env files, and every
    service descriptor keeps every field but its status.  The operations
    other than [GetServices] leave the configuration exactly as it was;
    [GetServices] stores in each descriptor the status it reports,
    [running] when the registry holds a process of that name and [stopped]
    otherwise. *)
Theorem operations_preserve_descriptors (ctx : Context) (o : op) (s : docker.State) :
  config.Server (docker.config (docker.mgr (exec ctx o s))) = config.Server (docker.config (docker.mgr s)) /\
  config.Docker (docker.config (docker.mgr (exec ctx o s))) = config.Docker (docker.config (docker.mgr s)) /\
  config.Web (docker.config (docker.mgr (exec ctx o s))) = config.Web (docker.config (docker.mgr s)) /\
  config.EnvFiles (docker.config (docker.mgr (exec ctx o s))) = config.EnvFiles (docker.config (docker.mgr s)) /\
  Forall2 same_descriptor
    (config.MCP_Enabled (config.MCP (docker.config (docker.mgr (exec ctx o s)))))
    (config.MCP_Enabled (config.MCP (docker.config (docker.mgr s)))) /\
  (o <> OpGetServices -> docker.config (docker.mgr (exec ctx o s)) = docker.config (docker.mgr s)) /\
  (o = OpGetServices ->
     config.MCP_Enabled (config.MCP (docker.config (docker.mgr (exec ctx o s))))
     = map (docker.mark_status (docker.running (docker.mgr s)))
           (config.MCP_Enabled (config.MCP (docker.config (docker.mgr s))))).
Proof.
  assert (Hrefl : forall l, Forall2 same_descriptor l l).
  { induction l; constructor; auto using same_descriptor_refl. }
  destruct o; simpl;
    rewrite ?StartService_config, ?StopService_config, ?RemoveService_config,
      ?CallTool_config, ?GetContainerLogs_config, ?GetServices_config;
    try (repeat split; auto; congruence).
  simpl. repeat split; try congruence.
  induction (config.MCP_Enabled (config.MCP (docker.config (docker.mgr s)))); simpl;
    constructor; auto using mark_status_same_descriptor.
Qed.

End Frame.

(** C9 as stated fails: [GetServices] on a freshly loaded configuration
    stores a status in it. *)
Lemma GetServices_rewrites_status :
  ~ @config_untouched ascii_codec simple_engine Background OpGetServices demo_state.
Proof. unfold config_untouched. vm_compute. discriminate. Qed.

Example GetServices_status_before_after :
  map config.Status (config.MCP_Enabled (config.MCP (docker.config (docker.mgr demo_state)))) = [""; ""] /\
  map config.Status (config.MCP_Enabled (config.MCP (docker.config (docker.mgr
     (@exec ascii_codec simple_engine Background OpGetServices demo_state))))) = ["stopped"; "stopped"].
Proof. split; vm_compute; reflexivity. Qed.

(** ** C8: the status values of [ListServices] *)

Section Status.
Context {codec : Codec} {api : DockerAPI}.

Lemma find_container_Some name cs c :
  docker.find_container name cs = Returned (Some c) ->
  c ∈ cs /\ head (types.Names c) = Some name.
Proof.
  induction cs as [|c0 cs IH]; simpl; [discriminate|].
  destruct (types.Names c0) as [|n ns] eqn:En; [discriminate|].
  destruct (String.eqb n name) eqn:E.
  - intros [= <-]. apply String.eqb_eq in E. subst n.
    split; [left|]. rewrite En. reflexivity.
  - intros H. destruct (IH H) as [Hin Hhd]. split; [right; exact Hin | exact Hhd].
Qed.






End Status.


(** A registered service without a container is listed as running. *)
Example ListServices_registered_is_running :
  map handler.Status
    (match snd (@handler.GetServices simple_engine Background demo_started) with
     | Returned (_, inr infos) => infos
     | _ => []
     end)
  = ["running"; "stopped"].
Proof. vm_compute. reflexivity. Qed.


(** ** C6: calls after a stop *)

Section Stopped.
Context {codec : Codec} {api : DockerAPI}.
Implicit Types (s : docker.State) (ctx : Context).

Lemma StopService_unregisters ctx n s s1 :
  docker.StopService ctx n s = (s1, Returned None) ->
  docker.running (docker.mgr s1) !! n = None.
Proof.
  unfold docker.StopService.
  destruct (docker.running (docker.mgr s) !! n) as [p|] eqn:Er.
  - destruct (Cmd_Wait _ _); intros [= <-]; simpl. apply lookup_delete_eq.
  - destruct (docker.client (docker.mgr s)).
    + destruct (ContainerList _ _) as [err|cs]; [intros [= <-]; exact Er|].
      destruct (docker.find_container _ cs) as [[c|]| |]; try discriminate.
      destruct (ContainerStop _ _) as [e r]. intros [= <- _]. exact Er.
    + discriminate.
Qed.

Lemma launch_running c n port args env s m :
  m <> n ->
  docker.running (docker.mgr (fst (docker.launch c n port args env s))) !! m
  = docker.running (docker.mgr s) !! m.
Proof.
  intros Hne. unfold docker.launch. destruct args; [reflexivity|].
  destruct (exec_Start _ _ _ _ _) as [o [err|pid]]; simpl; [reflexivity|].
  apply lookup_insert_ne. congruence.
Qed.

Lemma startDockerContainer_running ctx n svc s :
  docker.running (docker.mgr (fst (docker.startDockerContainer ctx n svc s)))
  = docker.running (docker.mgr s).
Proof. unfold docker.startDockerContainer. split_cases. Qed.

Lemma StartService_other ctx n s m :
  m <> n ->
  docker.running (docker.mgr (fst (docker.StartService ctx n s))) !! m
  = docker.running (docker.mgr s) !! m.
Proof.
  intros Hne. unfold docker.StartService.
  destruct (docker.find_service _ _); [|reflexivity].
  destruct (docker.running (docker.mgr s) !! n); [reflexivity|].
  repeat match goal with |- context [if ?b then _ else _] => destruct b end;
    rewrite ?startDockerContainer_running; auto using launch_running.
Qed.

Lemma StopService_stays_unregistered ctx n s m :
  docker.running (docker.mgr s) !! m = None ->
  docker.running (docker.mgr (fst (docker.StopService ctx n s))) !! m = None.
Proof.
  intros Hm. unfold docker.StopService.
  destruct (docker.running (docker.mgr s) !! n) as [p|].
  - destruct (Cmd_Wait _ _); simpl; auto.
    destruct (decide (n = m)) as [->|Hne]; [apply lookup_delete_eq|].
    rewrite lookup_delete_ne; auto.
  - split_cases; auto.
Qed.

Lemma RemoveService_stays_unregistered ctx n s m :
  docker.running (docker.mgr s) !! m = None ->
  docker.running (docker.mgr (fst (docker.RemoveService ctx n s))) !! m = None.
Proof.
  intros Hm. unfold docker.RemoveService.
  pose proof (StopService_stays_unregistered ctx n s m Hm) as H.
  destruct (docker.StopService ctx n s) as [s1 r]. simpl in H.
  destruct r; simpl; auto. split_cases; auto.
Qed.

Lemma CallTool_not_running ctx n t a s :
  docker.running (docker.mgr s) !! n = None ->
  docker.CallTool ctx n t a s = (s, Returned (inl (NotRunning n))).
Proof. intros H. unfold docker.CallTool, docker.CallTool_send. rewrite H. reflexivity. Qed.

Lemma CallTool_stays_unregistered ctx n t a s m :
  docker.running (docker.mgr s) !! m = None ->
  docker.running (docker.mgr (fst (docker.CallTool ctx n t a s))) !! m = None.
Proof.
  intros Hm. unfold docker.CallTool, docker.CallTool_send, docker.bump_ID.
  destruct (docker.running (docker.mgr s) !! n) as [p|] eqn:En; [|exact Hm].
  assert (Hne : n <> m) by congruence.
  destruct (Marshal _); simpl.
  - rewrite lookup_insert_ne; auto.
  - destruct (Stdin_Write _ _ _) as [o [err|]]; simpl.
    + rewrite lookup_insert_ne; auto.
    + unfold docker.CallTool_recv. simpl.
      destruct (Stdout_Read _ _ _) as [o' [[data [e|]]| |]]; simpl;
        try destruct e; simpl; rewrite lookup_insert_ne; auto.
Qed.

Lemma GetServices_running ctx s :
  docker.running (docker.mgr (fst (docker.GetServices ctx s))) = docker.running (docker.mgr s).
Proof. unfold docker.GetServices. split_cases. Qed.

Lemma GetContainerLogs_running ctx n s :
  docker.running (docker.mgr (fst (docker.GetContainerLogs ctx n s))) = docker.running (docker.mgr s).
Proof. unfold docker.GetContainerLogs. split_cases. Qed.

Lemma exec_stays_unregistered ctx o s n :
  o <> OpStartService n ->
  docker.running (docker.mgr s) !! n = None ->
  docker.running (docker.mgr (exec ctx o s)) !! n = None.
Proof.
  intros Ho Hn. destruct o as [m|m|m| |m t a|m]; simpl.
  - rewrite StartService_other; [exact Hn | congruence].
  - auto using StopService_stays_unregistered.
  - auto using RemoveService_stays_unregistered.
  - rewrite GetServices_running. exact Hn.
  - auto using CallTool_stays_unregistered.
  - rewrite GetContainerLogs_running. exact Hn.
Qed.

Lemma exec_all_stays_unregistered ctx ops s s' n :
  Forall (fun o => o <> OpStartService n) ops ->
  exec_all ctx ops s = Some s' ->
  docker.running (docker.mgr s) !! n = None ->
  docker.running (docker.mgr s') !! n = None.
Proof.
  intros Hops. revert s. induction Hops as [|o ops Ho _ IH]; intros s; simpl.
  - intros [= <-] Hn. exact Hn.
  - destruct (leaves_procMu_locked ctx o s); [discriminate|]. intros Hrun Hn.
    apply (IH _ Hrun). apply exec_stays_unregistered; assumption.
Qed.

(** C6 (as amended).  After [StopService] has returned success for a
    service, and for as long as [StartService] is not called on it
    whatever else is, none of it left waiting with the registry locked,
    every [CallTool] on it returns at once with [NotRunning]; it writes
    nothing, takes no id and leaves the state untouched. *)
Theorem CallTool_after_StopService (ctx ctx' : Context) (svcName : string)
    (s s1 s2 : docker.State) (ops : list op) :
  docker.StopService ctx svcName s = (s1, Returned None) ->
  Forall (fun o => o <> OpStartService svcName) ops ->
  exec_all ctx' ops s1 = Some s2 ->
  fails_fast s2 svcName.
Proof.
  intros Hstop Hops Hrun ctx'' toolName args.
  apply CallTool_not_running. apply (exec_all_stays_unregistered ctx' ops s1 s2); auto.
  eapply StopService_unregisters; exact Hstop.
Qed.

End Stopped.

Lemma CallTool_after_StopService_witness :
  @fails_fast ascii_codec simple_engine
    (fold_left (fun s o => @exec ascii_codec simple_engine Background o s)
       [OpGetServices; OpCallTool "echo" "echo" JNull; OpStopService "echo"] demo_stopped) "echo".
Proof.
  apply (@CallTool_after_StopService ascii_codec simple_engine Background Background "echo"
           demo_started demo_stopped _
           [OpGetServices; OpCallTool "echo" "echo" JNull; OpStopService "echo"]).
  - vm_compute. reflexivity.
  - repeat constructor; discriminate.
  - vm_compute. reflexivity.
Defined.

(** A stop whose child lives on after its input ends waits with
    [procMu] locked, and a sequence through it leads nowhere. *)
Example exec_all_through_waiting_stop :
  @exec_all ascii_codec simple_engine Background [OpStopService "echo"] demo_stubborn = None.
Proof. vm_compute. reflexivity. Qed.

(** C6 as stated fails for a closed stream: the child has exited, the
    service is still registered, and [CallTool] takes id 1, tries to
    write, and returns the write error. *)
Lemma CallTool_after_backend_exit :
  session_failed demo_crashed "echo" = true /\
  ~ @fails_fast ascii_codec simple_engine demo_crashed "echo".
Proof.
  split; [vm_compute; reflexivity|].
  intros H. specialize (H Background "echo" JNull). vm_compute in H. discriminate.
Qed.

Example CallTool_after_backend_exit_result :
  snd (@docker.CallTool ascii_codec simple_engine Background "echo" "echo" JNull demo_crashed)
    = Returned (inl EPIPE) /\
  docker.ID <$> docker.running (docker.mgr demo_crashed) !! "echo" = Some 1 /\
  docker.ID <$> docker.running (docker.mgr
     (fst (@docker.CallTool ascii_codec simple_engine Background "echo" "echo" JNull demo_crashed)))
       !! "echo" = Some 2.
Proof. repeat split; vm_compute; reflexivity. Qed.

(** ** C7: the environment of a launched backend *)

(** C7: a container-mode start.  The binding with a literal and a
    reference is passed with the referenced value, and the binding whose
    reference is unset is passed empty; the process-mode environment of
    the same bindings has the literal and leaves the unset one out. *)
Theorem container_env_prefers_reference :
  map (fun kc => container.Env (snd kc))
    (created (docker.dk (fst (@docker.StartService simple_engine Background "search"
                                demo_docker_state))))
    = [["API_KEY=from-env"; "TOKEN="]] /\
  docker.process_env demo_os (config.Env image_service)
    = ["PATH=/usr/bin"; "SRC=from-env"; "API_KEY=literal"].
Proof. split; vm_compute; reflexivity. Qed.

(** ** C5: starting twice *)

Section Idempotence.
Context {api : DockerAPI}.
Implicit Types (s : docker.State) (ctx : Context).










End Idempotence.


Example StartService_twice :
  let s1 := fst (@docker.StartService simple_engine Background "echo" demo_state) in
  snd (@docker.StartService simple_engine Background "echo" demo_state) = Returned None /\
  docker.StartService Background "echo" s1 = (s1, Returned None) /\
  length (procs (docker.os s1)) = 1%nat.
Proof. vm_compute. auto. Qed.

(** With the engine of the examples, two starts in a row of a
    container-backed service succeed and leave one container, which the
    engine lists as running after the first. *)
Example StartService_container_twice :
  snd (@docker.StartService simple_engine Background "search" demo_docker_state) = Returned None /\
  listed_running (fst (@docker.StartService simple_engine Background "search" demo_docker_state))
    "search" /\
  snd (@docker.StartService simple_engine Background "search"
         (fst (@docker.StartService simple_engine Background "search" demo_docker_state)))
    = Returned None /\
  map types.Names (listed (docker.dk
    (fst (@docker.StartService simple_engine Background "search"
            (fst (@docker.StartService simple_engine Background "search" demo_docker_state))))))
    = [["/clawmcp-search"]].
Proof.
  split; [vm_compute; reflexivity|]. split; [|split; vm_compute; reflexivity].
  eexists. eexists. split; [vm_compute; reflexivity|]. split; vm_compute; reflexivity.
Qed.


(** ** C4, C3, C2, C1: one pipe, many callers *)

Section Blocking.
Context {codec : Codec} {api : DockerAPI}.
Implicit Types (s : docker.State) (ctx : Context).

Lemma Stdout_Read_silent pid max o pr :
  procs o !! pid = Some pr -> pending (stdout pr) = [] -> closed (stdout pr) = false ->
  Stdout_Read pid max o = (o, Blocked).
Proof.
  intros H Hp Hc. unfold Stdout_Read, pipe_read. rewrite H, Hp, Hc. simpl.
  f_equal. unfold update_proc. rewrite H. unfold with_procs.
  replace (with_stdout {| pending := []; closed := false |} pr) with pr.
  - rewrite list_insert_id by exact H. destruct o; reflexivity.
  - destruct pr as [a e sd d op [pe cl] er ex oe]. simpl in *. subst. reflexivity.
Qed.

Lemma CallTool_recv_silent p s :
  silent s (docker.Stdout p) -> docker.CallTool_recv p s = (s, Blocked).
Proof.
  intros (pr & H & Hp & Hc). unfold docker.CallTool_recv.
  rewrite (Stdout_Read_silent _ _ _ pr H Hp Hc). destruct s; reflexivity.
Qed.

Lemma tick_silent s pid : silent s pid -> silent (tick s) pid.
Proof. intros (pr & H & Hp & Hc). exists pr. simpl. auto. Qed.

(** However long one waits, a caller reading from a silent child is
    still waiting. *)
Lemma await_silent n p s :
  silent s (docker.Stdout p) ->
  await n (docker.CallTool_recv p) s = (Nat.iter n tick s, Blocked).
Proof.
  revert s. induction n as [|n IH]; intros s Hs; simpl; rewrite CallTool_recv_silent by exact Hs.
  - reflexivity.
  - rewrite IH by (apply tick_silent; exact Hs).
    f_equal. clear. induction n; simpl; [reflexivity|]. rewrite <- IHn. reflexivity.
Qed.

(** [CallTool] against a registered, living, silent child: whatever the
    context's deadline and however long one waits, it has not returned. *)
Lemma CallTool_waits_forever n ctx svcName toolName args s p pr data :
  docker.running (docker.mgr s) !! svcName = Some p ->
  docker.Stdin p = docker.Stdout p ->
  procs (docker.os s) !! docker.Stdout p = Some pr ->
  stdin_open pr = true -> exited pr = false ->
  pending (stdout pr) = [] -> closed (stdout pr) = false ->
  Marshal (docker.tools_call_req toolName args (docker.ID p)) = inr data ->
  snd (CallTool_within n ctx svcName toolName args s) = Blocked.
Proof.
  intros Hp Hfd Hpr Hopen Hex Hpend Hcl Hm.
  unfold CallTool_within, docker.CallTool_send. rewrite Hp, Hm. simpl.
  unfold Stdin_Write. rewrite Hfd, Hpr, Hopen, Hex. simpl.
  rewrite await_silent; [reflexivity|].
  unfold silent, update_proc. simpl. rewrite Hpr. simpl.
  eexists. split; [apply list_lookup_insert_eq; eapply lookup_lt_Some; exact Hpr|].
  simpl. auto.
Qed.

End Blocking.

(** C4: a call with a deadline [timeout] milliseconds away, against a
    child that never answers, watched for [n] milliseconds: it has not
    returned, however large [n] is; it does not return a timeout. *)
Theorem CallTool_has_no_timeout (timeout : N) (n : nat) :
  snd (@CallTool_within ascii_codec simple_engine n
         (WithTimeout (clock (docker.os demo_started)) timeout) "echo" "echo" (who "A") demo_started)
  = Blocked.
Proof.
  eapply (@CallTool_waits_forever ascii_codec simple_engine); vm_compute; reflexivity.
Qed.

(** C3: the handshake wrote [initialize] with id 1; the first call after
    it writes [tools/call] with id 1 as well.  The child answers both
    in order, and the call returns the answer to [initialize]. *)
Theorem first_call_reuses_initialize_id :
  request_method (request_line demo_started 0 0) = Some "initialize" /\
  request_id (request_line demo_started 0 0) = Some 1 /\
  request_method (request_line (state demo_first_call) 0 2) = Some "tools/call" /\
  request_id (request_line (state demo_first_call) 0 2) = Some 1 /\
  results demo_first_call_answered !! 1%nat
    = Some (inr (JObj [("answers", JStr "initialize"); ("echo", JNull)])).
Proof. repeat split; vm_compute; reflexivity. Qed.

(** C2: the reply to a call arrives in two chunks.  [CallTool] parses
    the first chunk alone, which is no complete line, and fails; the
    second chunk stays in the pipe.  The whole line parses, and the
    buffered reader of the Gateway returns the whole line from the same
    chunks. *)
Theorem CallTool_parses_partial_line :
  demo_reply_head +:+ demo_reply_tail = demo_reply /\
  contains_byte "010" demo_reply_head = false /\
  results demo_chunked !! 1%nat = Some (inl ErrJSON) /\
  (stdout <$> procs (docker.os (state demo_chunked)) !! 0%nat)
    = Some (mkPipe [demo_reply_tail] false) /\
  @docker.CallTool_parse ascii_codec demo_reply
    = inr (JObj [("answers", JStr "tools/call"); ("echo", who "A")]) /\
  mcp.ReadBytes_go "" [demo_reply_head; demo_reply_tail] false
    = (Returned (demo_reply, None), ("", mkPipe [] false)).
Proof. repeat split; vm_compute; reflexivity. Qed.

(** [handleToolCall] forwards the bytes of its one read as well: with
    the reply in two chunks, the HTTP response is the first chunk. *)
Example handleToolCall_forwards_one_read :
  snd (@docker.handleToolCall ascii_codec simple_engine "echo" "echo" (who "A")
         (docker.set_os (child_writes 0 demo_reply_tail
                           (child_writes 0 demo_reply_head (docker.os demo_started)))
            demo_started))
  = Returned (200, demo_reply_head).
Proof. vm_compute. reflexivity. Qed.

(** C1: callers A and B call concurrently, A writes first (id 1), then B
    (id 2); the child answers B's request before A's.  A, reading first,
    returns the answer to B's request, and B the answer to A's. *)
Theorem concurrent_calls_are_misrouted :
  request_id (request_line (state demo_two_sent) 0 2) = Some 1 /\
  request_id (request_line (state demo_two_sent) 0 3) = Some 2 /\
  results demo_out_of_order !! 1%nat
    = Some (inr (JObj [("answers", JStr "tools/call"); ("echo", who "B")])) /\
  results demo_out_of_order !! 2%nat
    = Some (inr (JObj [("answers", JStr "tools/call"); ("echo", who "A")])).
Proof. repeat split; vm_compute; reflexivity. Qed.

(** ** What does hold: lines, environments, counters *)

Section Lines.

Lemma append_cons (x : ascii) (a b : string) : String x a +:+ b = String x (a +:+ b).
Proof. reflexivity. Qed.

Lemma append_assoc (a b c : string) : (a +:+ b) +:+ c = a +:+ (b +:+ c).
Proof.
  induction a as [|x a IH]; [reflexivity|]. rewrite !append_cons, IH. reflexivity.
Qed.

Lemma append_empty_r (a : string) : a +:+ "" = a.
Proof.
  induction a as [|x a IH]; [reflexivity|]. rewrite append_cons, IH. reflexivity.
Qed.

Lemma contains_byte_cons c a s :
  contains_byte c (String a s) = (Ascii.eqb c a || contains_byte c s)%bool.
Proof. reflexivity. Qed.

Lemma contains_byte_app c a b :
  contains_byte c (a +:+ b) = (contains_byte c a || contains_byte c b)%bool.
Proof.
  induction a as [|x a IH]; [reflexivity|].
  rewrite append_cons, !contains_byte_cons, IH, orb_assoc. reflexivity.
Qed.

Lemma split_line_none acc s :
  contains_byte "010" s = false -> mcp.split_line acc s = None.
Proof.
  revert acc. induction s as [|a s IH]; intros acc H; simpl; [reflexivity|].
  rewrite contains_byte_cons in H. apply orb_false_elim in H as [Ha Hs].
  rewrite Ascii.eqb_sym, Ha. apply IH. exact Hs.
Qed.

Lemma split_line_first acc l r :
  contains_byte "010" l = false ->
  mcp.split_line acc (l +:+ newline +:+ r) = Some (String.rev_app acc (l +:+ newline), r).
Proof.
  revert acc. induction l as [|a l IH]; intros acc H.
  - reflexivity.
  - rewrite contains_byte_cons in H. apply orb_false_elim in H as [Ha Hl].
    rewrite append_cons. simpl mcp.split_line. rewrite Ascii.eqb_sym, Ha. rewrite IH by exact Hl. reflexivity.
Qed.

(** A string has no newline, or a first one. *)
Lemma first_newline s :
  contains_byte "010" s = false \/
  exists l r, s = l +:+ newline +:+ r /\ contains_byte "010" l = false.
Proof.
  induction s as [|a s IH]; [left; reflexivity|].
  destruct (Ascii.eqb "010" a) eqn:Ea.
  - right. apply Ascii.eqb_eq in Ea. subst a. exists "", s. split; reflexivity.
  - destruct IH as [H | (l & r & -> & Hl)].
    + left. rewrite contains_byte_cons, Ea, H. reflexivity.
    + right. exists (String a l), r. split; [reflexivity|].
      rewrite contains_byte_cons, Ea, Hl. reflexivity.
Qed.

Lemma first_newline_unique l1 r1 l2 r2 :
  contains_byte "010" l1 = false -> contains_byte "010" l2 = false ->
  l1 +:+ newline +:+ r1 = l2 +:+ newline +:+ r2 -> l1 = l2 /\ r1 = r2.
Proof.
  assert (Hnl : forall r, newline +:+ r = String "010" r) by reflexivity.
  assert (Hnil : forall r : string, "" +:+ r = r) by reflexivity.
  revert l2. induction l1 as [|a l1 IH]; intros [|b l2] H1 H2 E;
    rewrite ?append_cons, ?Hnil, ?Hnl in E.
  - injection E as ->. auto.
  - injection E as <- _. rewrite contains_byte_cons in H2. discriminate.
  - injection E as -> _. rewrite contains_byte_cons in H1. discriminate.
  - injection E as -> E. rewrite contains_byte_cons in H1, H2.
    apply orb_false_elim in H1 as [_ H1]. apply orb_false_elim in H2 as [_ H2].
    destruct (IH l2 H1 H2 E) as [-> ->]. auto.
Qed.

(** The buffered reader of the Gateway: when the bytes buffered and still
    to come start with a line ([line] without a newline, then the
    newline), however they are cut into chunks, [ReadBytes] returns
    exactly that line, and what follows it stays buffered or in the pipe,
    in order. *)
Theorem ReadBytes_reassembles_line (line rest buf : string) (chunks : list string) (cl : bool) :
  contains_byte "010" line = false ->
  buf +:+ concat_chunks chunks = line +:+ newline +:+ rest ->
  exists buf' more,
    mcp.ReadBytes_go buf chunks cl = (Returned (line +:+ newline, None), (buf', mkPipe more cl)) /\
    buf' +:+ concat_chunks more = rest.
Proof.
  intros Hline. revert buf. induction chunks as [|c chunks IH]; intros buf E.
  - simpl in E. rewrite append_empty_r in E. subst buf. simpl.
    rewrite split_line_first by exact Hline. simpl.
    exists rest, []. split; [reflexivity | apply append_empty_r].
  - simpl. destruct (first_newline buf) as [Hno | (l & r & -> & Hl)].
    + rewrite split_line_none by exact Hno. apply IH.
      rewrite append_assoc. exact E.
    + rewrite split_line_first by exact Hl. simpl.
      simpl in E. rewrite !append_assoc in E.
      apply first_newline_unique in E as [-> <-]; [|assumption..].
      exists r, (c :: chunks). split; reflexivity.
Qed.

End Lines.


Lemma ReadBytes_reassembles_line_witness :
  exists buf' more,
    mcp.ReadBytes_go "" [demo_reply_head; demo_reply_tail] false
      = (Returned (demo_reply_line +:+ newline, None), (buf', mkPipe more false)) /\
    buf' +:+ concat_chunks more = "".
Proof.
  apply (ReadBytes_reassembles_line demo_reply_line "" "" [demo_reply_head; demo_reply_tail] false);
    vm_compute; reflexivity.
Defined.


Section ProcessEnv.

Lemma process_env_app o bs1 bs2 :
  docker.process_env o (bs1 ++ bs2) = fold_left (docker.add_binding o) bs2 (docker.process_env o bs1).
Proof. unfold docker.process_env. rewrite fold_left_app. reflexivity. Qed.

Lemma fold_add_binding_app o bs env :
  fold_left (docker.add_binding o) bs env = env ++ fold_left (docker.add_binding o) bs [].
Proof.
  revert env. induction bs as [|e bs IH]; intros env; simpl.
  - rewrite app_nil_r. reflexivity.
  - rewrite IH, (IH (docker.add_binding o [] e)). unfold docker.add_binding.
    destruct (negb _); simpl; rewrite <- ?app_assoc; reflexivity.
Qed.

(** C7 holds in process mode.  A binding with a literal is passed with
    the literal, whatever its reference says; a binding with no literal
    whose [env:] reference is unset is left out, as if it were not
    configured. *)
Theorem process_env_literal_first (o : OS) (bs1 bs2 : list config.EnvVar) (e : config.EnvVar) :
  (config.Value e <> "" ->
     (config.Env_Name e +:+ "=" +:+ config.Value e) ∈ docker.process_env o (bs1 ++ e :: bs2) /\
     docker.process_env o (bs1 ++ e :: bs2)
     = docker.process_env o (bs1 ++ config.mkEnvVar (config.Env_Name e) (config.Value e) "" :: bs2)) /\
  (config.Value e = "" ->
     HasPrefix (config.ValueFrom e) "env:" = true ->
     Getenv o (TrimPrefix (config.ValueFrom e) "env:") = "" ->
     docker.process_env o (bs1 ++ e :: bs2) = docker.process_env o (bs1 ++ bs2)).
Proof.
  assert (Hstep : forall e', docker.process_env o (bs1 ++ e' :: bs2)
            = fold_left (docker.add_binding o) bs2 (docker.add_binding o (docker.process_env o bs1) e')).
  { intros e'. rewrite process_env_app. reflexivity. }
  split.
  - intros Hv. apply String.eqb_neq in Hv.
    assert (Hval : docker.process_env_value o e = config.Value e).
    { unfold docker.process_env_value. rewrite Hv. reflexivity. }
    split.
    + rewrite Hstep, fold_add_binding_app. unfold docker.add_binding. rewrite Hval, Hv. simpl.
      rewrite !elem_of_app. left. right. apply list_elem_of_singleton. reflexivity.
    + assert (Hval' : docker.process_env_value o
                        (config.mkEnvVar (config.Env_Name e) (config.Value e) "") = config.Value e).
      { unfold docker.process_env_value. simpl. rewrite Hv. reflexivity. }
      rewrite !Hstep. f_equal. unfold docker.add_binding. rewrite Hval, Hval'. reflexivity.
  - intros Hv Hp Hg. rewrite Hstep, process_env_app. f_equal.
    unfold docker.add_binding, docker.process_env_value. rewrite Hv, Hp, Hg. simpl.
    destruct (String.eqb (config.ValueFrom e) ""); reflexivity.
Qed.

End ProcessEnv.

Section Counter.
Context {codec : Codec} {api : DockerAPI}.

(** The child of a service started as a local process gets exactly that
    environment. *)
Lemma launch_child_env c n port args env s s1 :
  docker.launch c n port args env s = (s1, Returned None) ->
  envp <$> procs (docker.os s1) !! length (procs (docker.os s)) = Some env.
Proof.
  unfold docker.launch. destruct args as [|exe rest]; [discriminate|].
  destruct (exec_Start _ _ _ _ _) as [o [err|pid]] eqn:E; [discriminate|].
  apply exec_Start_started in E as (-> & _ & exe' & rest' & on_eof & _ & _ & ->).
  intros [= <-]. simpl. rewrite lookup_app_r by lia. rewrite Nat.sub_diag. reflexivity.
Qed.


(** The request counter.  A call on a registered service with a living
    child writes one line, the encoding of a [tools/call] request that
    carries the current value of the counter, and advances the counter
    by one. *)
Theorem CallTool_send_takes_next_id (ctx : Context) (svcName toolName : string) (args : json)
    (s : docker.State) (p : docker.ProcessInfo) (pr : Proc) (data : string) :
  docker.running (docker.mgr s) !! svcName = Some p ->
  procs (docker.os s) !! docker.Stdin p = Some pr ->
  stdin_open pr = true -> exited pr = false ->
  Marshal (docker.tools_call_req toolName args (docker.ID p)) = inr data ->
  0 <= docker.ID p < 2 ^ 63 - 1 ->
  exists s',
    docker.CallTool_send ctx svcName toolName args s = (s', inr p) /\
    stdin_data <$> procs (docker.os s') !! docker.Stdin p
      = Some (stdin_data pr +:+ data +:+ newline) /\
    docker.ID <$> docker.running (docker.mgr s') !! svcName = Some (docker.ID p + 1).
Proof.
  intros Hp Hpr Hopen Hex Hm Hid.
  unfold docker.CallTool_send. rewrite Hp, Hm. simpl.
  unfold Stdin_Write. rewrite Hpr, Hopen, Hex. simpl.
  eexists. split; [reflexivity|]. simpl. split.
  - unfold update_proc. rewrite Hpr. simpl.
    rewrite list_lookup_insert_eq by (eapply lookup_lt_Some; exact Hpr). reflexivity.
  - rewrite lookup_insert_eq. simpl. f_equal. unfold int_wrap.
    rewrite Z.mod_small by lia. lia.
Qed.

(** [initAndServe] leaves the registry, and so every counter, as it was. *)
Lemma initAndServe_running svcName port s :
  docker.running (docker.mgr (fst (docker.initAndServe svcName port s)))
  = docker.running (docker.mgr s).
Proof. unfold docker.initAndServe. destruct (_ !! _); reflexivity. Qed.

End Counter.

Lemma CallTool_send_takes_next_id_witness :
  exists s',
    @docker.CallTool_send ascii_codec simple_engine Background "echo" "echo" (who "A") demo_started
      = (s', inr demo_entry) /\
    stdin_data <$> procs (docker.os s') !! docker.Stdin demo_entry
      = Some (stdin_data demo_child
              +:+ json_encode (docker.tools_call_req "echo" (who "A") (docker.ID demo_entry))
              +:+ newline) /\
    docker.ID <$> docker.running (docker.mgr s') !! "echo" = Some (docker.ID demo_entry + 1).
Proof.
  apply (@CallTool_send_takes_next_id ascii_codec simple_engine Background "echo" "echo" (who "A")
           demo_started demo_entry demo_child);
    try (vm_compute; reflexivity).
  vm_compute. split; [discriminate | reflexivity].
Defined.

Section GatewayFacts.
Context {codec : Codec}.

(** The Gateway's [readResponse] never takes its timeout branch: the
    timer is made when the [select] is entered, and the [default] branch
    is there to be taken at once. *)
Lemma readResponse_select_no_timer ctx now : mcp.readResponse_select ctx now <> mcp.TimerFired.
Proof.
  unfold mcp.readResponse_select. destruct (Done ctx now); [simpl; discriminate|].
  change (After_ready mcp.timeout 0) with false. simpl. discriminate.
Qed.

(** So with a context that is not yet done on entry and a child that
    sends nothing, the Gateway's [readResponse] waits, whatever the
    deadline of the context. *)
Theorem readResponse_waits (ctx : Context) (name : string) (s : mcp.State) (p : mcp.Process)
    (pr : Proc) :
  Done ctx (clock (mcp.os s)) = false ->
  mcp.processes (mcp.gw s) !! name = Some p ->
  snd (mcp.Stdout p) = "" ->
  procs (mcp.os s) !! fst (mcp.Stdout p) = Some pr ->
  pending (stdout pr) = [] -> closed (stdout pr) = false ->
  snd (mcp.readResponse ctx name s) = Blocked.
Proof.
  intros Hd Hp Hbuf Hpr Hpend Hcl. unfold mcp.readResponse, mcp.readResponse_select.
  rewrite Hd. change (After_ready mcp.timeout 0) with false. cbv iota. rewrite Hp.
  unfold mcp.ReadBytes. rewrite Hpr, Hbuf, Hpend, Hcl. reflexivity.
Qed.

(** [StartProcess] on a registered name is a no-op success. *)
Lemma StartProcess_registered ctx name image args env s :
  is_Some (mcp.processes (mcp.gw s) !! name) ->
  mcp.StartProcess ctx name image args env s = (s, Returned None).
Proof. intros [p Hp]. unfold mcp.StartProcess. rewrite Hp. reflexivity. Qed.

End GatewayFacts.

Lemma readResponse_waits_witness :
  snd (@mcp.readResponse ascii_codec (WithTimeout 0 50) "echo" demo_gateway) = Blocked.
Proof.
  apply (@readResponse_waits ascii_codec (WithTimeout 0 50) "echo" demo_gateway
           (mcp.mkProcess "echo" 0 0 (0%nat, "") (0%nat, "") 1)
           (mkProc ["echo-mcp"] [] false "" true (mkPipe [] false) (mkPipe [] false) false true));
    reflexivity.
Defined.

(** ** The env files of [Load] *)

Section EnvFiles.

Lemma rev_app_contains c s1 s2 :
  contains_byte c (String.rev_app s1 s2) = (contains_byte c s1 || contains_byte c s2)%bool.
Proof.
  revert s2. induction s1 as [|a s1 IH]; intros s2; [reflexivity|].
  simpl String.rev_app. rewrite IH, !contains_byte_cons.
  destruct (Ascii.eqb c a), (contains_byte c s1); reflexivity.
Qed.

Lemma rev_contains c s : contains_byte c (String.rev s) = contains_byte c s.
Proof. unfold String.rev. rewrite rev_app_contains. apply orb_false_r. Qed.

Lemma TrimLeft_suffix n s : (String.length s <= n)%nat -> exists pre, s = pre +:+ TrimLeft s.
Proof.
  revert s. induction n as [|n IH]; intros s Hn.
  - destruct s; [exists ""; reflexivity|simpl in Hn; lia].
  - destruct s as [|a s1]; [exists ""; reflexivity|]. simpl in Hn. simpl TrimLeft.
    destruct (Ascii.is_space a).
    { destruct (IH s1) as [pre Hp]; [lia|]. exists (String a pre).
      rewrite append_cons, <- Hp. reflexivity. }
    destruct s1 as [|b s2]; [exists ""; reflexivity|]. simpl in Hn.
    destruct (is_space2 a b).
    { destruct (IH s2) as [pre Hp]; [lia|]. exists (String a (String b pre)).
      rewrite !append_cons, <- Hp. reflexivity. }
    destruct s2 as [|c s3]; [exists ""; reflexivity|]. simpl in Hn.
    destruct (is_space3 a b c); [|exists ""; reflexivity].
    destruct (IH s3) as [pre Hp]; [lia|]. exists (String a (String b (String c pre))).
    rewrite !append_cons, <- Hp. reflexivity.
Qed.

Lemma TrimLeft_rev_suffix n s :
  (String.length s <= n)%nat -> exists pre, s = pre +:+ TrimLeft_rev s.
Proof.
  revert s. induction n as [|n IH]; intros s Hn.
  - destruct s; [exists ""; reflexivity|simpl in Hn; lia].
  - destruct s as [|a s1]; [exists ""; reflexivity|]. simpl in Hn. simpl TrimLeft_rev.
    destruct (Ascii.is_space a).
    { destruct (IH s1) as [pre Hp]; [lia|]. exists (String a pre).
      rewrite append_cons, <- Hp. reflexivity. }
    destruct s1 as [|b s2]; [exists ""; reflexivity|]. simpl in Hn.
    destruct (is_space2 b a).
    { destruct (IH s2) as [pre Hp]; [lia|]. exists (String a (String b pre)).
      rewrite !append_cons, <- Hp. reflexivity. }
    destruct s2 as [|c s3]; [exists ""; reflexivity|]. simpl in Hn.
    destruct (is_space3 c b a); [|exists ""; reflexivity].
    destruct (IH s3) as [pre Hp]; [lia|]. exists (String a (String b (String c pre))).
    rewrite !append_cons, <- Hp. reflexivity.
Qed.

Lemma TrimLeft_contains c s : contains_byte c (TrimLeft s) = true -> contains_byte c s = true.
Proof.
  intros H. destruct (TrimLeft_suffix (String.length s) s) as [pre Hp]; [lia|].
  rewrite Hp, contains_byte_app, H. apply orb_true_r.
Qed.

Lemma TrimLeft_rev_contains c s :
  contains_byte c (TrimLeft_rev s) = true -> contains_byte c s = true.
Proof.
  intros H. destruct (TrimLeft_rev_suffix (String.length s) s) as [pre Hp]; [lia|].
  rewrite Hp, contains_byte_app, H. apply orb_true_r.
Qed.

Lemma TrimSpace_contains c s : contains_byte c s = false -> contains_byte c (TrimSpace s) = false.
Proof.
  intros H. destruct (contains_byte c (TrimSpace s)) eqn:E; [|reflexivity].
  unfold TrimSpace in E. rewrite rev_contains in E.
  apply TrimLeft_rev_contains in E. rewrite rev_contains in E.
  apply TrimLeft_contains in E. congruence.
Qed.

Lemma SplitN2_go_none sep acc s :
  contains_byte sep s = false -> SplitN2_go sep acc s = [String.rev_app acc s].
Proof.
  revert acc. induction s as [|a s IH]; intros acc H; simpl; [reflexivity|].
  rewrite contains_byte_cons in H. apply orb_false_elim in H as [Ha Hs].
  rewrite Ascii.eqb_sym, Ha. apply IH. exact Hs.
Qed.

Lemma SplitN2_go_first sep acc k rest :
  contains_byte sep k = false ->
  SplitN2_go sep acc (k +:+ String sep rest) = [String.rev_app acc k; rest].
Proof.
  revert acc. induction k as [|a k IH]; intros acc H.
  - simpl. rewrite Ascii.eqb_refl. reflexivity.
  - rewrite contains_byte_cons in H. apply orb_false_elim in H as [Ha Hk].
    rewrite append_cons. simpl SplitN2_go. rewrite Ascii.eqb_sym, Ha. apply IH. exact Hk.
Qed.

Lemma assoc_get_set_eq k v l : assoc_get k (assoc_set k v l) = Some v.
Proof.
  induction l as [|[k' v'] l IH]; simpl.
  - rewrite String.eqb_refl. reflexivity.
  - destruct (String.eqb k k') eqn:E; simpl; rewrite ?String.eqb_refl, ?E; auto.
Qed.

Lemma assoc_get_set_ne k k' v l : k' <> k -> assoc_get k' (assoc_set k v l) = assoc_get k' l.
Proof.
  intros Hne. apply String.eqb_neq in Hne.
  induction l as [|[k0 v0] l IH]; simpl.
  - rewrite Hne. reflexivity.
  - destruct (String.eqb k k0) eqn:E; simpl.
    + apply String.eqb_eq in E. subst k0. rewrite Hne. reflexivity.
    + destruct (String.eqb k' k0); auto.
Qed.

(** A line of an env file that is blank, a [#] comment, or has no [=]
    changes nothing. *)
Theorem loadEnvLine_skips (o : OS) (line : string) :
  TrimSpace line = "" \/ HasPrefix (TrimSpace line) "#" = true \/
  contains_byte "=" (TrimSpace line) = false ->
  config.loadEnvLine o line = o.
Proof.
  unfold config.loadEnvLine. intros [H | [H | H]].
  - rewrite H. reflexivity.
  - rewrite H, orb_true_r. reflexivity.
  - destruct (_ || _)%bool; [reflexivity|].
    unfold SplitN2. rewrite SplitN2_go_none by exact H. reflexivity.
Qed.

(** A line [KEY=VALUE] is cut at its first [=]: what stands before it,
    trimmed, is the variable, and everything after it, later [=] signs
    included, trimmed, is its value.  The variable is set to that value
    and no other variable changes. *)
Theorem loadEnvLine_assignment (o : OS) (line k rest : string) :
  TrimSpace line = k +:+ "=" +:+ rest ->
  contains_byte "=" k = false ->
  HasPrefix (TrimSpace line) "#" = false ->
  TrimSpace k <> "" ->
  contains_byte "000" (TrimSpace k) = false ->
  contains_byte "000" (TrimSpace rest) = false ->
  Getenv (config.loadEnvLine o line) (TrimSpace k) = TrimSpace rest /\
  forall k', k' <> TrimSpace k -> Getenv (config.loadEnvLine o line) k' = Getenv o k'.
Proof.
  intros Hline Hk Hc Hne H0k H0v. unfold config.loadEnvLine.
  rewrite Hc, Hline.
  replace (String.eqb (k +:+ "=" +:+ rest) "") with false
    by (destruct k; reflexivity).
  unfold SplitN2. change ("=" +:+ rest) with (String "=" rest).
  rewrite SplitN2_go_first by exact Hk. simpl String.rev_app.
  unfold Setenv. apply String.eqb_neq in Hne. rewrite Hne, H0k, H0v.
  rewrite (TrimSpace_contains "=" k Hk). simpl.
  unfold Getenv. simpl. split.
  - rewrite assoc_get_set_eq. reflexivity.
  - intros k' Hk'. rewrite assoc_get_set_ne by exact Hk'. reflexivity.
Qed.

Lemma Setenv_frame k v o :
  files (fst (Setenv k v o)) = files o /\ executables (fst (Setenv k v o)) = executables o /\
  procs (fst (Setenv k v o)) = procs o /\ clock (fst (Setenv k v o)) = clock o.
Proof. unfold Setenv. destruct (_ || _)%bool; simpl; auto. Qed.

Lemma loadEnvLine_frame o line :
  files (config.loadEnvLine o line) = files o /\
  executables (config.loadEnvLine o line) = executables o /\
  procs (config.loadEnvLine o line) = procs o /\ clock (config.loadEnvLine o line) = clock o.
Proof.
  unfold config.loadEnvLine. destruct (_ || _)%bool; [auto|].
  destruct (SplitN2 _ _) as [|k [|v [|? ?]]]; auto. apply Setenv_frame.
Qed.

Lemma loadEnvFile_frame path o :
  files (fst (config.loadEnvFile path o)) = files o /\
  executables (fst (config.loadEnvFile path o)) = executables o /\
  procs (fst (config.loadEnvFile path o)) = procs o /\
  clock (fst (config.loadEnvFile path o)) = clock o.
Proof.
  unfold config.loadEnvFile. destruct (ReadFile o path) as [err|data]; [auto|]. simpl.
  generalize (Split data "010"). intros lines. revert o.
  induction lines as [|l lines IH]; intros o; simpl; [auto|].
  destruct (IH (config.loadEnvLine o l)) as (-> & -> & -> & ->). apply loadEnvLine_frame.
Qed.

End EnvFiles.

Lemma loadEnvLine_skips_witness : config.loadEnvLine demo_os "  # KEY=value" = demo_os.
Proof.
  apply (loadEnvLine_skips demo_os "  # KEY=value"). right. left. vm_compute. reflexivity.
Defined.

Lemma loadEnvLine_assignment_witness :
  Getenv (config.loadEnvLine demo_os " API_KEY = a=b ") (TrimSpace "API_KEY ") = TrimSpace " a=b" /\
  forall k', k' <> TrimSpace "API_KEY " ->
    Getenv (config.loadEnvLine demo_os " API_KEY = a=b ") k' = Getenv demo_os k'.
Proof.
  apply (loadEnvLine_assignment demo_os " API_KEY = a=b " "API_KEY " " a=b");
    try (vm_compute; reflexivity).
  vm_compute. discriminate.
Defined.

(** White space is Unicode's: an ideographic space (U+3000) behind the
    value is cut, as a blank is. *)
Example loadEnvLine_trims_unicode_space :
  Getenv (config.loadEnvLine demo_os
            ("KEY=value" +:+ String "227" (String "128" (String "128" "")))) "KEY"
  = "value".
Proof. vm_compute. reflexivity. Qed.

(** What a name resolves to goes through [PATH], which an env file can
    set: after such a line the program of the examples is not found. *)
Example loadEnvLine_sets_PATH :
  LookPath demo_os "echo-mcp" = Some true /\
  LookPath (config.loadEnvLine demo_os "PATH=/opt/bin") "echo-mcp" = None /\
  executables (config.loadEnvLine demo_os "PATH=/opt/bin") = executables demo_os.
Proof. repeat split; vm_compute; reflexivity. Qed.

Section LoadFrame.
Context {viper : config.Viper}.

(** Whatever the configuration file and the env files hold, and whether
    [Load] succeeds or not, it changes nothing of its surroundings but
    environment variables: the files, the programs there are to resolve
    (what a name resolves to can change, through [PATH]), the children
    and the clock are as they were; when reading or decoding fails it
    changes nothing at all. *)
Theorem Load_touches_only_environ (configPath : string) (o : OS) :
  files (fst (config.Load configPath o)) = files o /\
  executables (fst (config.Load configPath o)) = executables o /\
  procs (fst (config.Load configPath o)) = procs o /\
  clock (fst (config.Load configPath o)) = clock o /\
  (forall err, snd (config.Load configPath o) = inl err -> fst (config.Load configPath o) = o).
Proof.
  unfold config.Load.
  destruct (config.viper_ReadInConfig o configPath) as [err|v]; [simpl; auto 6|].
  destruct (config.viper_Unmarshal o v) as [err|c]; [simpl; auto 6|].
  cbv zeta. simpl fst. simpl snd.
  match goal with |- context [fold_left ?f ?l o] => generalize l end.
  intros envFiles. split; [|split; [|split; [|split]]]; try discriminate;
    revert o; induction envFiles as [|f fs IH]; intros o; simpl; auto;
    rewrite IH; apply loadEnvFile_frame.
Qed.

End LoadFrame.

(** ** The registry of running services *)

Section Registry.
Context {codec : Codec} {api : DockerAPI}.
Implicit Types (s : docker.State) (ctx : Context).

Lemma find_service_names n l :
  is_Some (docker.find_service n l) <-> In n (map config.Name l).
Proof.
  unfold docker.find_service. induction l as [|svc l IH]; simpl.
  - split; [intros [? [=]] | tauto].
  - destruct (String.eqb (config.Name svc) n) eqn:E.
    + apply String.eqb_eq in E. split; eauto.
    + apply String.eqb_neq in E. rewrite IH. tauto.
Qed.

Lemma registry_step_ok s s' : registry_step s s' -> registry_ok s -> registry_ok s'.
Proof.
  assert (Hcfg : forall s1 s2 n, names s2 = names s1 ->
            is_Some (docker.find_service n (enabled s1)) ->
            is_Some (docker.find_service n (enabled s2))).
  { intros s1 s2 n Hn. rewrite !find_service_names. unfold names in Hn. rewrite Hn. auto. }
  intros Hstep [Hwf Hinj]. destruct Hstep as [Hr Hl Hn | n p id Hp Hr Hl Hn | n Hr Hl Hn | n Hin Hr Hl Hn];
    unfold registry_ok; rewrite Hr, Hl.
  - split; [|exact Hinj]. intros m q Hq. destruct (Hwf m q Hq) as (? & ? & ? & ? & ? & ?).
    repeat split; eauto.
  - split.
    + intros m q Hq. destruct (decide (n = m)) as [<-|Hne].
      * rewrite lookup_insert_eq in Hq. injection Hq as <-.
        destruct (Hwf n p Hp) as (? & ? & ? & ? & ? & ?). repeat split; eauto.
      * rewrite lookup_insert_ne in Hq by exact Hne.
        destruct (Hwf m q Hq) as (? & ? & ? & ? & ? & ?). repeat split; eauto.
    + intros m1 m2 q1 q2 H1 H2 Hc.
      destruct (decide (n = m1)) as [<-|Hne1]; destruct (decide (n = m2)) as [<-|Hne2]; auto.
      * rewrite lookup_insert_eq in H1. rewrite lookup_insert_ne in H2 by exact Hne2.
        injection H1 as <-. eapply Hinj; eauto.
      * rewrite lookup_insert_ne in H1 by exact Hne1. rewrite lookup_insert_eq in H2.
        injection H2 as <-. eapply Hinj; eauto.
      * rewrite lookup_insert_ne in H1, H2 by assumption. eapply Hinj; eauto.
  - split.
    + intros m q Hq. apply lookup_delete_Some in Hq as [_ Hq].
      destruct (Hwf m q Hq) as (? & ? & ? & ? & ? & ?). repeat split; eauto.
    + intros m1 m2 q1 q2 H1 H2. apply lookup_delete_Some in H1 as [_ H1].
      apply lookup_delete_Some in H2 as [_ H2]. eapply Hinj; eauto.
  - split.
    + intros m q Hq. destruct (decide (n = m)) as [<-|Hne].
      * rewrite lookup_insert_eq in Hq. injection Hq as <-. simpl.
        repeat split; auto. apply find_service_names.
        unfold names in Hn. rewrite Hn. exact Hin.
      * rewrite lookup_insert_ne in Hq by exact Hne.
        destruct (Hwf m q Hq) as (? & ? & ? & ? & ? & ?). repeat split; eauto.
    + intros m1 m2 q1 q2 H1 H2 Hc.
      destruct (decide (n = m1)) as [<-|Hne1]; destruct (decide (n = m2)) as [<-|Hne2]; auto.
      * rewrite lookup_insert_eq in H1. rewrite lookup_insert_ne in H2 by exact Hne2.
        injection H1 as <-. simpl in Hc. destruct (Hwf m2 q2 H2) as (_ & _ & _ & _ & _ & Hlt). lia.
      * rewrite lookup_insert_ne in H1 by exact Hne1. rewrite lookup_insert_eq in H2.
        injection H2 as <-. simpl in Hc. destruct (Hwf m1 q1 H1) as (_ & _ & _ & _ & _ & Hlt). lia.
      * rewrite lookup_insert_ne in H1, H2 by assumption. eapply Hinj; eauto.
Qed.

Lemma update_proc_length pid f o : length (procs (update_proc pid f o)) = length (procs o).
Proof. unfold update_proc. destruct (procs o !! pid); simpl; [apply length_insert|reflexivity]. Qed.

Lemma Stdin_Write_length pid d o o' r :
  Stdin_Write pid d o = (o', r) -> length (procs o') = length (procs o).
Proof.
  unfold Stdin_Write. destruct (procs o !! pid) as [pr|]; [|intros [= <- _]; reflexivity].
  destruct (negb (stdin_open pr)); [intros [= <- _]; reflexivity|].
  destruct (exited pr); intros [= <- _]; [reflexivity|apply update_proc_length].
Qed.

Lemma Stdin_Write_fst_length pid d o : length (procs (fst (Stdin_Write pid d o))) = length (procs o).
Proof. destruct (Stdin_Write pid d o) eqn:E. eapply Stdin_Write_length. exact E. Qed.

Lemma Stdout_Read_length pid max o o' r :
  Stdout_Read pid max o = (o', r) -> length (procs o') = length (procs o).
Proof.
  unfold Stdout_Read. destruct (procs o !! pid) as [pr|]; [|intros [= <- _]; reflexivity].
  destruct (pipe_read max (stdout pr)). intros [= <- _]. apply update_proc_length.
Qed.

Lemma Stderr_Read_length pid max o o' r :
  Stderr_Read pid max o = (o', r) -> length (procs o') = length (procs o).
Proof.
  unfold Stderr_Read. destruct (procs o !! pid) as [pr|]; [|intros [= <- _]; reflexivity].
  destruct (pipe_read max (stderr pr)). intros [= <- _]. apply update_proc_length.
Qed.

Lemma Stdin_Close_length pid o : length (procs (Stdin_Close pid o)) = length (procs o).
Proof. apply update_proc_length. Qed.

(** Collect what the equations in the context say about the number of
    children. *)
Ltac note_lengths :=
  repeat match goal with
         | H : Stdin_Write _ _ _ = (_, _) |- _ => apply Stdin_Write_length in H
         | H : Stdout_Read _ _ _ = (_, _) |- _ => apply Stdout_Read_length in H
         | H : Stderr_Read _ _ _ = (_, _) |- _ => apply Stderr_Read_length in H
         end.

Ltac same_registry :=
  apply step_same; unfold names, enabled; simpl; note_lengths;
  rewrite ?Stdin_Write_fst_length, ?Stdin_Close_length, ?update_proc_length; simpl;
  try reflexivity; congruence.

Lemma launch_step c n port args env s :
  In n (names s) -> registry_step s (fst (docker.launch c n port args env s)).
Proof.
  intros Hin. unfold docker.launch. destruct args as [|exe rest]; [same_registry|].
  destruct (exec_Start _ _ _ _ _) as [o [err|pid]] eqn:E.
  - apply exec_Start_failed in E as ->. same_registry.
  - apply exec_Start_started in E as (-> & _ & exe' & rest' & on_eof & _ & _ & ->).
    apply (step_launch _ _ n); simpl; auto. rewrite length_app. simpl. lia.
Qed.

Lemma startDockerContainer_step ctx n svc s :
  registry_step s (fst (docker.startDockerContainer ctx n svc s)).
Proof. unfold docker.startDockerContainer. split_cases; same_registry. Qed.

Lemma StartService_step ctx n s : registry_step s (fst (docker.StartService ctx n s)).
Proof.
  unfold docker.StartService. fold (enabled s).
  destruct (docker.find_service n (enabled s)) as [svc|] eqn:Ef; [|same_registry].
  assert (Hin : In n (names s)) by (apply find_service_names; eauto).
  destruct (docker.running (docker.mgr s) !! n); [same_registry|].
  repeat match goal with |- context [if ?b then _ else _] => destruct b end;
    auto using launch_step, startDockerContainer_step.
Qed.

Lemma StopService_step ctx n s : registry_step s (fst (docker.StopService ctx n s)).
Proof.
  unfold docker.StopService.
  destruct (docker.running (docker.mgr s) !! n) as [p|].
  - destruct (Cmd_Wait _ _); simpl; try same_registry.
    apply (step_delete _ _ n); simpl; auto. apply Stdin_Close_length.
  - split_cases; same_registry.
Qed.

Lemma registry_step_trans_same s s1 s2 :
  registry_step s s1 ->
  docker.running (docker.mgr s2) = docker.running (docker.mgr s1) ->
  length (procs (docker.os s2)) = length (procs (docker.os s1)) ->
  names s2 = names s1 ->
  registry_step s s2.
Proof.
  intros [Hr Hl Hn | n p id Hp Hr Hl Hn | n Hr Hl Hn | n Hin Hr Hl Hn] Hr2 Hl2 Hn2.
  - apply step_same; congruence.
  - apply (step_bump _ _ n p id); congruence.
  - apply (step_delete _ _ n); congruence.
  - apply (step_launch _ _ n); congruence.
Qed.

Lemma RemoveService_step ctx n s : registry_step s (fst (docker.RemoveService ctx n s)).
Proof.
  unfold docker.RemoveService.
  pose proof (StopService_step ctx n s) as H.
  destruct (docker.StopService ctx n s) as [s1 r]. simpl in H.
  destruct r; simpl; try exact H.
  eapply registry_step_trans_same; [exact H|..]; split_cases.
Qed.

Lemma names_mark_status r l :
  map config.Name (map (docker.mark_status r) l) = map config.Name l.
Proof.
  rewrite map_map. apply map_ext. intros svc. unfold docker.mark_status.
  destruct (r !! config.Name svc); reflexivity.
Qed.

Lemma GetServices_step ctx s : registry_step s (fst (docker.GetServices ctx s)).
Proof.
  apply step_same.
  - apply GetServices_running.
  - unfold docker.GetServices. split_cases.
  - unfold names, enabled. rewrite GetServices_config. simpl. apply names_mark_status.
Qed.

Lemma bump_step n p s s' :
  docker.running (docker.mgr s) !! n = Some p ->
  docker.running (docker.mgr s') = docker.running (docker.mgr (docker.bump_ID n p s)) ->
  length (procs (docker.os s')) = length (procs (docker.os s)) ->
  names s' = names s ->
  registry_step s s'.
Proof. intros Hp Hr Hl Hn. apply (step_bump _ _ n p (int_wrap (docker.ID p + 1))); auto. Qed.

Lemma CallTool_step ctx n t a s : registry_step s (fst (docker.CallTool ctx n t a s)).
Proof.
  unfold docker.CallTool, docker.CallTool_send.
  destruct (docker.running (docker.mgr s) !! n) as [p|] eqn:Hp; [|same_registry].
  destruct (Marshal _); simpl; [apply (bump_step n p); auto|].
  destruct (Stdin_Write _ _ _) as [o [err|]] eqn:Hw; simpl.
  - apply (bump_step n p); auto. simpl. apply Stdin_Write_length in Hw. exact Hw.
  - unfold docker.CallTool_recv. simpl.
    destruct (Stdout_Read _ _ _) as [o' r] eqn:Hrd.
    apply Stdin_Write_length in Hw. apply Stdout_Read_length in Hrd. simpl in Hw.
    destruct r as [[data [e|]]| |]; simpl; try destruct e; simpl;
      apply (bump_step n p); auto; simpl; congruence.
Qed.

Lemma GetContainerLogs_step ctx n s : registry_step s (fst (docker.GetContainerLogs ctx n s)).
Proof. unfold docker.GetContainerLogs. split_cases; same_registry. Qed.

Lemma handler_step n p max req s :
  docker.running (docker.mgr s) !! n = Some p ->
  registry_step s
    (fst (match Stdout_Read (docker.Stdout p) max
                  (fst (Stdin_Write (docker.Stdin p) req (docker.os (docker.bump_ID n p s)))) with
          | (o', Returned (data, _)) => (docker.set_os o' (docker.bump_ID n p s), Returned (200, data))
          | (o', Blocked) => (docker.set_os o' (docker.bump_ID n p s), Blocked)
          | (o', Panicked) => (docker.set_os o' (docker.bump_ID n p s), Panicked)
          end)).
Proof.
  intros Hp. destruct (Stdout_Read _ _ _) as [o' r] eqn:Hrd. apply Stdout_Read_length in Hrd.
  rewrite Stdin_Write_fst_length in Hrd. simpl in Hrd.
  destruct r as [[data e]| |]; simpl; apply (bump_step n p); auto.
Qed.

Lemma handleToolsList_step n s : registry_step s (fst (docker.handleToolsList n s)).
Proof.
  unfold docker.handleToolsList.
  destruct (docker.running (docker.mgr s) !! n) as [p|] eqn:Hp; [|same_registry].
  apply handler_step. exact Hp.
Qed.

Lemma handleToolCall_step n t a s : registry_step s (fst (docker.handleToolCall n t a s)).
Proof.
  unfold docker.handleToolCall.
  destruct (docker.running (docker.mgr s) !! n) as [p|] eqn:Hp; [|same_registry].
  apply handler_step. exact Hp.
Qed.

Lemma run_goroutine_step s : registry_step s (fst (docker.run_goroutine s)).
Proof.
  unfold docker.run_goroutine, docker.initAndServe.
  destruct (docker.goroutines s) as [|[n port] rest]; [same_registry|]. simpl.
  destruct (docker.running (docker.mgr s) !! n); simpl; [|same_registry].
  apply step_same; simpl; auto. rewrite !Stdin_Write_fst_length. simpl.
  rewrite Stdin_Write_fst_length. reflexivity.
Qed.

Lemma perform_step s a : registry_step s (perform s a).
Proof.
  destruct a as [ctx [n|n|n| |n t args|n]| |n|n t args|pid chunk|pid|]; simpl.
  - apply StartService_step.
  - apply StopService_step.
  - apply RemoveService_step.
  - apply GetServices_step.
  - apply CallTool_step.
  - apply GetContainerLogs_step.
  - apply run_goroutine_step.
  - apply handleToolsList_step.
  - apply handleToolCall_step.
  - apply step_same; simpl; auto. apply update_proc_length.
  - apply step_same; simpl; auto. apply update_proc_length.
  - apply step_same; reflexivity.
Qed.

Lemma initial_ok cfg client_ok o e : registry_ok (initial cfg client_ok o e).
Proof. split; simpl; intros *; rewrite lookup_empty; discriminate. Qed.

Lemma perform_all_ok s actions : registry_ok s -> registry_ok (fold_left perform actions s).
Proof.
  revert s. induction actions as [|a actions IH]; intros s Hs; [exact Hs|].
  simpl. apply IH. eapply registry_step_ok; [apply perform_step | exact Hs].
Qed.

(** From a new manager, whatever is done in whatever order, the registry
    stays in order: every entry is filed under its own name, names a
    configured service and holds the pipes of one existing child of its
    own. *)
Theorem registry_stays_ok (cfg : config.Config) (client_ok : bool) (o : OS) (e : engine)
    (actions : list action) :
  registry_ok (fold_left perform actions (initial cfg client_ok o e)).
Proof.
  generalize (initial_ok cfg client_ok o e). generalize (initial cfg client_ok o e).
  induction actions as [|a actions IH]; intros s Hs; [exact Hs|].
  simpl. apply IH. eapply registry_step_ok; [apply perform_step | exact Hs].
Qed.

End Registry.

(** ** One service at a time *)

Section Isolation.
Context {codec : Codec} {api : DockerAPI}.
Implicit Types (s : docker.State) (ctx : Context).

Lemma update_proc_other pid f o k : k <> pid -> procs (update_proc pid f o) !! k = procs o !! k.
Proof.
  intros Hne. unfold update_proc. destruct (procs o !! pid); simpl; [|reflexivity].
  apply list_lookup_insert_ne. congruence.
Qed.

Lemma Stdin_Write_other pid d o k : k <> pid -> procs (fst (Stdin_Write pid d o)) !! k = procs o !! k.
Proof.
  intros Hne. unfold Stdin_Write. destruct (procs o !! pid) as [pr|]; [|reflexivity].
  destruct (negb (stdin_open pr)); [reflexivity|].
  destruct (exited pr); [reflexivity|]. simpl. apply update_proc_other. exact Hne.
Qed.

Lemma Stdout_Read_other pid max o k : k <> pid -> procs (fst (Stdout_Read pid max o)) !! k = procs o !! k.
Proof.
  intros Hne. unfold Stdout_Read. destruct (procs o !! pid) as [pr|]; [|reflexivity].
  destruct (pipe_read max (stdout pr)). simpl. apply update_proc_other. exact Hne.
Qed.

Lemma Stderr_Read_other pid max o k : k <> pid -> procs (fst (Stderr_Read pid max o)) !! k = procs o !! k.
Proof.
  intros Hne. unfold Stderr_Read. destruct (procs o !! pid) as [pr|]; [|reflexivity].
  destruct (pipe_read max (stderr pr)). simpl. apply update_proc_other. exact Hne.
Qed.

Lemma launch_kept c n port args env s m q :
  m <> n -> docker.running (docker.mgr s) !! m = Some q ->
  (docker.Cmd q < length (procs (docker.os s)))%nat ->
  kept m q s (fst (docker.launch c n port args env s)).
Proof.
  intros Hne Hq Hlt. split; [rewrite launch_running; auto|].
  unfold docker.launch. destruct args as [|exe rest]; [reflexivity|].
  destruct (exec_Start _ _ _ _ _) as [o [err|pid]] eqn:E.
  - apply exec_Start_failed in E as ->. reflexivity.
  - apply exec_Start_started in E as (-> & _ & exe' & rest' & on_eof & _ & _ & ->).
    simpl. apply lookup_app_l. exact Hlt.
Qed.

Lemma startDockerContainer_os ctx n svc s :
  docker.os (fst (docker.startDockerContainer ctx n svc s)) = docker.os s.
Proof. unfold docker.startDockerContainer. split_cases. Qed.

Lemma StartService_kept ctx n s m q :
  m <> n -> docker.running (docker.mgr s) !! m = Some q ->
  (docker.Cmd q < length (procs (docker.os s)))%nat ->
  kept m q s (fst (docker.StartService ctx n s)).
Proof.
  intros Hne Hq Hlt. unfold docker.StartService.
  destruct (docker.find_service _ _); [|split; auto].
  destruct (docker.running (docker.mgr s) !! n); [split; auto|].
  repeat match goal with |- context [if ?b then _ else _] => destruct b end;
    auto using launch_kept.
  split; [rewrite startDockerContainer_running; exact Hq|].
  rewrite startDockerContainer_os. reflexivity.
Qed.

Lemma registry_ok_distinct s n m p q :
  registry_ok s -> m <> n ->
  docker.running (docker.mgr s) !! n = Some p -> docker.running (docker.mgr s) !! m = Some q ->
  docker.Stdin p <> docker.Cmd q /\ docker.Stdout p <> docker.Cmd q /\
  docker.Stderr p = Some (docker.Cmd p) /\ docker.Cmd p <> docker.Cmd q.
Proof.
  intros [Hwf Hinj] Hne Hp Hq. destruct (Hwf n p Hp) as (_ & _ & Hin & Hout & Herr & _).
  assert (Hd : docker.Cmd p <> docker.Cmd q) by (intros E; apply Hne; symmetry; eapply Hinj; eauto).
  rewrite Hin, Hout. auto.
Qed.

Lemma StopService_kept ctx n s m q :
  registry_ok s -> m <> n -> docker.running (docker.mgr s) !! m = Some q ->
  kept m q s (fst (docker.StopService ctx n s)).
Proof.
  intros Hok Hne Hq. unfold docker.StopService.
  destruct (docker.running (docker.mgr s) !! n) as [p|] eqn:En.
  - destruct (registry_ok_distinct s n m p q Hok Hne En Hq) as (Hin & _).
    destruct (Cmd_Wait _ _); split; simpl; auto;
      try (rewrite lookup_delete_ne by congruence; exact Hq);
      apply update_proc_other; congruence.
  - split_cases; split; auto.
Qed.

Lemma RemoveService_kept ctx n s m q :
  registry_ok s -> m <> n -> docker.running (docker.mgr s) !! m = Some q ->
  kept m q s (fst (docker.RemoveService ctx n s)).
Proof.
  intros Hok Hne Hq. unfold docker.RemoveService.
  pose proof (StopService_kept ctx n s m q Hok Hne Hq) as H.
  destruct (docker.StopService ctx n s) as [s1 r]. simpl in H.
  destruct r; simpl; try exact H. split_cases; exact H.
Qed.

Lemma CallTool_kept ctx n t a s m q :
  registry_ok s -> m <> n -> docker.running (docker.mgr s) !! m = Some q ->
  kept m q s (fst (docker.CallTool ctx n t a s)).
Proof.
  intros Hok Hne Hq. unfold docker.CallTool, docker.CallTool_send.
  destruct (docker.running (docker.mgr s) !! n) as [p|] eqn:En; [|split; auto].
  destruct (registry_ok_distinct s n m p q Hok Hne En Hq) as (Hin & Hout & _).
  assert (Hr : docker.running (docker.mgr (docker.bump_ID n p s)) !! m = Some q).
  { simpl. rewrite lookup_insert_ne by congruence. exact Hq. }
  destruct (Marshal _) as [err|line]; simpl; [split; auto|].
  pose proof (Stdin_Write_other (docker.Stdin p) (line +:+ newline) (docker.os s) (docker.Cmd q)) as Hw.
  change (docker.os (docker.bump_ID n p s)) with (docker.os s).
  destruct (Stdin_Write _ _ _) as [o [err'|]]; simpl in *.
  - split; auto.
  - unfold docker.CallTool_recv. simpl.
    pose proof (Stdout_Read_other (docker.Stdout p) 65536 o (docker.Cmd q)) as Hrd.
    destruct (Stdout_Read _ _ _) as [o' r]. simpl in Hrd.
    assert (procs o' !! docker.Cmd q = procs (docker.os s) !! docker.Cmd q)
      by (rewrite Hrd, Hw; auto).
    destruct r as [[data [e|]]| |]; simpl; try destruct e; simpl; split; auto.
Qed.

Lemma GetContainerLogs_kept ctx n s m q :
  registry_ok s -> m <> n -> docker.running (docker.mgr s) !! m = Some q ->
  kept m q s (fst (docker.GetContainerLogs ctx n s)).
Proof.
  intros Hok Hne Hq. split; [rewrite GetContainerLogs_running; exact Hq|].
  unfold docker.GetContainerLogs.
  destruct (docker.running (docker.mgr s) !! n) as [p|] eqn:En; [|split_cases].
  destruct (registry_ok_distinct s n m p q Hok Hne En Hq) as (_ & _ & Herr & Hd).
  rewrite Herr.
  pose proof (Stderr_Read_other (docker.Cmd p) 4096 (docker.os s) (docker.Cmd q)) as Hrd.
  destruct (Stderr_Read _ _ _) as [o' r]. simpl in Hrd.
  destruct r as [[data e]| |]; simpl; apply Hrd; congruence.
Qed.

Lemma GetServices_os ctx s : docker.os (fst (docker.GetServices ctx s)) = docker.os s.
Proof. unfold docker.GetServices. split_cases. Qed.

(** One service's operations stay with that service: an operation that
    names another service, or none, leaves a registered service's entry,
    request counter included, and its child, pipes included, exactly as
    they were. *)
Theorem other_services_untouched (ctx : Context) (o : op) (s : docker.State)
    (m : string) (q : docker.ProcessInfo) :
  registry_ok s ->
  target o <> Some m ->
  docker.running (docker.mgr s) !! m = Some q ->
  docker.running (docker.mgr (exec ctx o s)) !! m = Some q /\
  procs (docker.os (exec ctx o s)) !! docker.Cmd q = procs (docker.os s) !! docker.Cmd q.
Proof.
  intros Hok Ht Hq.
  assert (Hlt : (docker.Cmd q < length (procs (docker.os s)))%nat)
    by (destruct Hok as [Hwf _]; apply (Hwf m q Hq)).
  destruct o as [n|n|n| |n t a|n]; simpl in *.
  - apply StartService_kept; congruence.
  - apply StopService_kept; congruence.
  - apply RemoveService_kept; congruence.
  - rewrite GetServices_running, GetServices_os. auto.
  - apply CallTool_kept; congruence.
  - apply GetContainerLogs_kept; congruence.
Qed.

End Isolation.

Lemma other_services_untouched_witness :
  docker.running (docker.mgr (@exec ascii_codec simple_engine Background
                                (OpCallTool "echo" "echo" (who "A")) demo_two_services))
    !! "search" = Some demo_search_entry /\
  procs (docker.os (@exec ascii_codec simple_engine Background
                      (OpCallTool "echo" "echo" (who "A")) demo_two_services))
    !! docker.Cmd demo_search_entry
  = procs (docker.os demo_two_services) !! docker.Cmd demo_search_entry.
Proof.
  apply (@other_services_untouched ascii_codec simple_engine Background
           (OpCallTool "echo" "echo" (who "A")) demo_two_services "search" demo_search_entry).
  - apply perform_all_ok, initial_ok.
  - discriminate.
  - vm_compute. reflexivity.
Defined.

(** ** Starting, stopping, removing and listing *)

Section Lifecycle.
Context {codec : Codec} {api : DockerAPI}.
Implicit Types (s : docker.State) (ctx : Context).

Lemma find_service_None n l : docker.find_service n l = None <-> ~ In n (map config.Name l).
Proof.
  rewrite <- find_service_names. split.
  - intros -> [x [=]].
  - destruct (docker.find_service n l); [intros H; destruct H; eauto | reflexivity].
Qed.

(** A name the configuration does not list cannot be started: the
    handler answers 500 with "not found in config", and nothing has
    happened. *)
Theorem StartService_unknown_name (ctx : Context) (svcName : string) (s : docker.State) :
  ~ In svcName (names s) ->
  handler.StartService ctx svcName s
  = (s, Returned (500, handler.failure
                         (Errorf ("service " +:+ svcName +:+ " not found in config")))).
Proof.
  intros Hn. apply find_service_None in Hn.
  unfold handler.StartService, docker.StartService. fold (enabled s). rewrite Hn. reflexivity.
Qed.

(** Without a Docker client, stopping is not idempotent: once a stop has
    answered 200, the next stop of the same service answers 500 with
    "not found", and changes nothing. *)
Theorem StopService_twice_fails (ctx ctx' : Context) (svcName : string) (s s1 : docker.State)
    (resp : handler.APIResponse) :
  docker.client (docker.mgr s) = false ->
  handler.StopService ctx svcName s = (s1, Returned (200, resp)) ->
  handler.StopService ctx' svcName s1
  = (s1, Returned (500, handler.failure (Errorf ("service " +:+ svcName +:+ " not found")))).
Proof.
  intros Hc. unfold handler.StopService, handler.lifecycle, docker.StopService.
  destruct (docker.running (docker.mgr s) !! svcName) as [p|] eqn:Er.
  - destruct (Cmd_Wait _ _); [|discriminate..]. intros [= <- _]. simpl.
    rewrite lookup_delete_eq, Hc. reflexivity.
  - rewrite Hc. discriminate.
Qed.

(** Whenever [RemoveService] returns, the service is out of the registry;
    without a Docker client it returns no error, for any name at all, and
    the container record of that name is gone too. *)
Theorem RemoveService_unregisters (ctx : Context) (svcName : string) (s s' : docker.State)
    (r : option error) :
  docker.RemoveService ctx svcName s = (s', Returned r) ->
  docker.running (docker.mgr s') !! svcName = None /\
  (docker.client (docker.mgr s) = false ->
   r = None /\ docker.containers (docker.mgr s') !! svcName = None).
Proof.
  unfold docker.RemoveService.
  assert (Hstop : forall s1 r1, docker.StopService ctx svcName s = (s1, Returned r1) ->
            docker.running (docker.mgr s1) !! svcName = None /\
            docker.client (docker.mgr s1) = docker.client (docker.mgr s)).
  { unfold docker.StopService. intros s1 r1.
    destruct (docker.running (docker.mgr s) !! svcName) as [p|] eqn:Er.
    - destruct (Cmd_Wait _ _); intros [= <- _]; simpl. split; [apply lookup_delete_eq|reflexivity].
    - destruct (docker.client (docker.mgr s)) eqn:Ec; [|intros [= <- _]; auto].
      destruct (ContainerList _ _) as [err|cs]; [intros [= <- _]; auto|].
      destruct (docker.find_container _ cs) as [[c|]| |]; try discriminate.
      + destruct (ContainerStop _ _) as [e r0]. intros [= <- _]. auto.
      + intros [= <- _]. auto. }
  destruct (docker.StopService ctx svcName s) as [s1 [r1| |]]; try discriminate.
  destruct (Hstop s1 r1 eq_refl) as [Hr Hc]. rewrite Hc.
  destruct (docker.client (docker.mgr s)).
  - destruct (ContainerList _ _) as [err|cs]; [intros [= <- _]; split; [auto|discriminate]|].
    destruct (docker.find_container _ cs) as [[c|]| |]; try discriminate.
    + destruct (ContainerRemove _ _) as [e r0]. intros [= <- _]. split; [auto|discriminate].
    + intros [= <- _]. split; [auto|discriminate].
  - intros [= <- <-]. simpl. split; [exact Hr|]. intros _. split; [reflexivity|apply lookup_delete_eq].
Qed.




Lemma refresh_from_engine_name cs svc svc' :
  docker.refresh_from_engine cs svc = Returned svc' -> config.Name svc' = config.Name svc.
Proof.
  unfold docker.refresh_from_engine.
  destruct (docker.find_container _ cs) as [[c|]| |]; try discriminate.
  - destruct (types.Ports c); intros [= <-]; reflexivity.
  - intros [= <-]. reflexivity.
Qed.

Lemma refresh_all_names cs l l' :
  docker.refresh_all cs l = Returned l' -> map config.Name l' = map config.Name l.
Proof.
  revert l'. induction l as [|svc l IH]; simpl; intros l'.
  - intros [= <-]. reflexivity.
  - destruct (docker.refresh_from_engine cs svc) as [svc'| |] eqn:E; try discriminate.
    destruct (docker.refresh_all cs l) as [rest| |]; try discriminate.
    intros [= <-]. simpl. f_equal; [eapply refresh_from_engine_name; exact E|apply IH; reflexivity].
Qed.

Lemma GetServices_result ctx s s' l r :
  docker.GetServices ctx s = (s', Returned (l, r)) ->
  r = None /\ map config.Name l = names s.
Proof.
  unfold docker.GetServices, names. fold (enabled s). simpl.
  destruct (docker.client (docker.mgr s)).
  - destruct (ContainerList _ _) as [err|cs].
    + intros [= _ <- <-]. split; [reflexivity|apply names_mark_status].
    + destruct (docker.refresh_all cs _) as [l'| |] eqn:E; try discriminate.
      intros [= _ <- <-]. split; [reflexivity|].
      rewrite (refresh_all_names _ _ _ E). apply names_mark_status.
  - intros [= _ <- <-]. split; [reflexivity|apply names_mark_status].
Qed.

(** The list handler never answers 500: whenever it returns it answers
    200 with one entry per configured service, in the order and under the
    names of the configuration. *)
Theorem GetServices_lists_every_service (ctx : Context) (s s' : docker.State) (code : Z)
    (r : error + list handler.ServiceInfo) :
  handler.GetServices ctx s = (s', Returned (code, r)) ->
  code = 200 /\ exists infos, r = inr infos /\ map handler.Name infos = names s.
Proof.
  unfold handler.GetServices.
  destruct (docker.GetServices ctx s) as [s1 [[l e]| |]] eqn:E; try discriminate.
  destruct (GetServices_result _ _ _ _ _ E) as [-> Hn].
  intros [= _ <- <-]. split; [reflexivity|]. eexists. split; [reflexivity|].
  rewrite map_map. exact Hn.
Qed.

(** [GetService] answers 200 or 404, and 404 exactly for the names the
    configuration does not list; the entry it returns bears the name
    asked for. *)
Theorem GetService_not_found (ctx : Context) (svcName : string) (s s' : docker.State) (code : Z)
    (resp : handler.APIResponse) :
  handler.GetService ctx svcName s = (s', Returned (code, resp)) ->
  (In svcName (names s) /\ code = 200 /\
   exists info, handler.Data resp = handler.Service info /\ handler.Name info = svcName) \/
  (~ In svcName (names s) /\ code = 404 /\ handler.Success resp = false).
Proof.
  unfold handler.GetService.
  destruct (docker.GetServices ctx s) as [s1 [[l e]| |]] eqn:E; try discriminate.
  destruct (GetServices_result _ _ _ _ _ E) as [-> Hn].
  change (find (fun svc => String.eqb (config.Name svc) svcName) l) with (docker.find_service svcName l).
  destruct (docker.find_service svcName l) as [svc|] eqn:Ef.
  - intros [= _ <- <-]. left. split; [|split; [reflexivity|]].
    + rewrite <- Hn. apply find_service_names. eauto.
    + eexists. split; [reflexivity|]. simpl.
      unfold docker.find_service in Ef. apply find_some in Ef as [_ Ef].
      apply String.eqb_eq. exact Ef.
  - intros [= _ <- <-]. right. split; [|split; reflexivity].
    rewrite <- Hn. apply find_service_None. exact Ef.
Qed.

(** The number of services the health check reports never changes,
    whatever is done to the manager. *)
Theorem HealthCheck_constant (s : docker.State) (actions : list action) :
  handler.HealthCheck (fold_left perform actions s) = handler.HealthCheck s.
Proof.
  revert s. induction actions as [|a actions IH]; intros s; [reflexivity|].
  simpl. rewrite IH. unfold handler.HealthCheck. f_equal.
  assert (Hn : names (perform s a) = names s) by (destruct (perform_step s a); assumption).
  unfold names, enabled in Hn.
  rewrite <- (length_map config.Name), Hn. apply length_map.
Qed.

End Lifecycle.

Lemma StartService_unknown_name_witness :
  @handler.StartService simple_engine Background "weather" demo_state
  = (demo_state, Returned (500, handler.failure
                                  (Errorf ("service " +:+ "weather" +:+ " not found in config")))).
Proof.
  apply (@StartService_unknown_name simple_engine Background "weather" demo_state).
  vm_compute. intros [H|[H|[]]]; discriminate.
Defined.

Lemma StopService_twice_fails_witness :
  @handler.StopService simple_engine Background "echo" demo_stopped
  = (demo_stopped,
     Returned (500, handler.failure (Errorf ("service " +:+ "echo" +:+ " not found")))).
Proof.
  apply (@StopService_twice_fails simple_engine Background Background "echo" demo_started
           demo_stopped (handler.mkAPIResponse true handler.NoData None "service echo stopped"));
    vm_compute; reflexivity.
Defined.

Lemma RemoveService_unregisters_witness :
  docker.running (docker.mgr (fst (@docker.RemoveService simple_engine Background "echo"
                                     demo_started))) !! "echo" = None /\
  (docker.client (docker.mgr demo_started) = false ->
   @None error = None /\
   docker.containers (docker.mgr (fst (@docker.RemoveService simple_engine Background "echo"
                                         demo_started))) !! "echo" = None).
Proof.
  apply (@RemoveService_unregisters simple_engine Background "echo" demo_started).
  vm_compute. reflexivity.
Defined.

Lemma GetServices_lists_every_service_witness :
  200 = 200 /\
  exists infos,
    @inr error _ (map handler.toServiceInfo (map (docker.mark_status ∅) (enabled demo_state)))
    = inr infos /\
    map handler.Name infos = names demo_state.
Proof.
  apply (@GetServices_lists_every_service simple_engine Background demo_state
           (fst (@handler.GetServices simple_engine Background demo_state))).
  vm_compute. reflexivity.
Defined.

Lemma GetService_not_found_witness :
  (In "weather" (names demo_state) /\ 404 = 200 /\
   exists info,
     handler.Data (handler.failure (Errorf "service weather not found")) = handler.Service info /\
     handler.Name info = "weather") \/
  (~ In "weather" (names demo_state) /\ 404 = 404 /\
   handler.Success (handler.failure (Errorf "service weather not found")) = false).
Proof.
  apply (@GetService_not_found simple_engine Background "weather" demo_state
           (fst (@handler.GetService simple_engine Background "weather" demo_state))).
  vm_compute. reflexivity.
Defined.

(** ** The exchange with a child *)

Section Exchange.
Context {codec : Codec} {api : DockerAPI}.
Implicit Types (s : docker.State) (ctx : Context).

Lemma update_proc_same pid f o pr :
  procs o !! pid = Some pr -> procs (update_proc pid f o) !! pid = Some (f pr).
Proof.
  intros H. unfold update_proc. rewrite H. simpl.
  apply list_lookup_insert_eq. eapply lookup_lt_Some. exact H.
Qed.

Lemma update_proc_clock pid f o : clock (update_proc pid f o) = clock o.
Proof. unfold update_proc. destruct (procs o !! pid); reflexivity. Qed.

(** When the single read is enough.  A service whose pipe holds nothing
    is called; its child writes the reply in one piece of at most 65536
    bytes; the caller reads: the call returns what that reply parses to,
    and the pipe is empty again. *)
Theorem lone_call_gets_its_reply (ctx : Context) (svcName toolName : string) (args : json)
    (s : docker.State) (p : docker.ProcessInfo) (pr : Proc) (data reply : string) :
  docker.running (docker.mgr s) !! svcName = Some p ->
  docker.Stdin p = docker.Stdout p ->
  procs (docker.os s) !! docker.Stdout p = Some pr ->
  stdin_open pr = true -> exited pr = false ->
  pending (stdout pr) = [] ->
  Marshal (docker.tools_call_req toolName args (docker.ID p)) = inr data ->
  reply <> "" -> (N.of_nat (String.length reply) <= 65536)%N ->
  let r := run s [Send 1 ctx svcName toolName args; ChildWrites (docker.Stdout p) reply; Recv 1] in
  results r !! 1%nat = Some (docker.CallTool_parse reply) /\
  reading r !! 1%nat = None /\
  (pending ∘ stdout) <$> procs (docker.os (state r)) !! docker.Stdout p = Some [].
Proof.
  intros Hp Hfd Hpr Hopen Hex Hpend Hm Hne Hlen.
  unfold run. simpl. unfold docker.CallTool_send. rewrite Hp, Hm. simpl.
  unfold Stdin_Write. rewrite Hfd, Hpr, Hopen, Hex. simpl.
  rewrite lookup_insert_eq.
  unfold docker.CallTool_recv, Stdout_Read, child_writes. simpl.
  rewrite (update_proc_same _ _ _ _ (update_proc_same _ _ _ _ Hpr)). simpl.
  rewrite Hpend. unfold pipe_read. simpl.
  apply String.eqb_neq in Hne. rewrite Hne.
  apply N.leb_le in Hlen. rewrite Hlen. simpl.
  rewrite lookup_insert_eq, lookup_delete_eq. split; [reflexivity|]. split; [reflexivity|].
  erewrite update_proc_same by (apply update_proc_same, update_proc_same; exact Hpr).
  reflexivity.
Qed.

Lemma Stderr_Read_quiet pid max o pr :
  procs o !! pid = Some pr -> pending (stderr pr) = [] -> closed (stderr pr) = false ->
  Stderr_Read pid max o = (o, Blocked).
Proof.
  intros H Hp Hc. unfold Stderr_Read, pipe_read. rewrite H, Hp, Hc. simpl.
  f_equal. unfold update_proc. rewrite H. unfold with_procs.
  replace (with_stderr {| pending := []; closed := false |} pr) with pr.
  - rewrite list_insert_id by exact H. destruct o; reflexivity.
  - destruct pr as [a e sd d op ou [pe cl] er oe]. simpl in *. subst. reflexivity.
Qed.

Lemma GetServiceLogs_quiet ctx n s p fd :
  docker.running (docker.mgr s) !! n = Some p -> docker.Stderr p = Some fd -> quiet s fd ->
  handler.GetServiceLogs ctx n s = (s, Blocked).
Proof.
  intros Hp Hfd (pr & H & Hpe & Hc). unfold handler.GetServiceLogs, docker.GetContainerLogs.
  rewrite Hp, Hfd, (Stderr_Read_quiet _ _ _ pr H Hpe Hc). destruct s; reflexivity.
Qed.

(** The logs of a registered service are one read of its child's stderr,
    and the engine is not asked.  While the child has written nothing
    there and lives, the request has not been answered, however long one
    waits. *)
Theorem GetServiceLogs_waits_for_stderr (k : nat) (ctx : Context) (svcName : string)
    (s : docker.State) (p : docker.ProcessInfo) (fd : nat) :
  docker.running (docker.mgr s) !! svcName = Some p ->
  docker.Stderr p = Some fd ->
  quiet s fd ->
  snd (await k (handler.GetServiceLogs ctx svcName) s) = Blocked.
Proof.
  revert s. induction k as [|k IH]; intros s Hp Hfd Hq; simpl;
    rewrite (GetServiceLogs_quiet ctx svcName s p fd Hp Hfd Hq).
  - reflexivity.
  - apply IH; auto.
Qed.

(** The handshake only writes.  For a registered service whose child
    lives, [initAndServe] appends the [initialize] request and the
    [initialized] notification to the child's input, takes two seconds,
    and ends in the HTTP server; it reads nothing from the child's
    output, and leaves the registry, request counters included, as it
    was. *)
Theorem initAndServe_only_writes (svcName : string) (port : Z) (s : docker.State)
    (p : docker.ProcessInfo) (pr : Proc) :
  docker.running (docker.mgr s) !! svcName = Some p ->
  procs (docker.os s) !! docker.Stdin p = Some pr ->
  stdin_open pr = true -> exited pr = false ->
  exists s' pr',
    docker.initAndServe svcName port s = (s', Blocked) /\
    procs (docker.os s') !! docker.Stdin p = Some pr' /\
    stdin_data pr' = stdin_data pr +:+ (docker.marshal_or_nil docker.initReq +:+ newline)
                       +:+ (docker.marshal_or_nil docker.notifReq +:+ newline) /\
    stdout pr' = stdout pr /\
    clock (docker.os s') = (clock (docker.os s) + 2000)%N /\
    docker.running (docker.mgr s') = docker.running (docker.mgr s).
Proof.
  intros Hp Hpr Hopen Hex. unfold docker.initAndServe. rewrite Hp.
  unfold Stdin_Write at 2. rewrite Hpr, Hopen, Hex. simpl.
  unfold Stdin_Write. simpl.
  rewrite (update_proc_same _ _ _ _ Hpr). simpl. rewrite Hopen, Hex. simpl.
  eexists. eexists. split; [reflexivity|]. simpl. split.
  - apply update_proc_same. simpl. apply update_proc_same. exact Hpr.
  - simpl. split; [apply append_assoc|]. split; [reflexivity|]. split; [|reflexivity].
    rewrite !update_proc_clock. simpl. rewrite update_proc_clock. lia.
Qed.

(** The service's own HTTP server answers 200 for a registered service
    whenever it answers: a failed write and a failed read are not
    reported.  With the child dead and its output drained, the answer is
    200 with an empty body. *)
Theorem handleToolsList_reports_no_failure (svcName : string) (s : docker.State)
    (p : docker.ProcessInfo) :
  docker.running (docker.mgr s) !! svcName = Some p ->
  (forall s' code body, docker.handleToolsList svcName s = (s', Returned (code, body)) -> code = 200) /\
  (forall pr, docker.Stdin p = docker.Stdout p ->
     procs (docker.os s) !! docker.Stdout p = Some pr ->
     exited pr = true -> pending (stdout pr) = [] -> closed (stdout pr) = true ->
     snd (docker.handleToolsList svcName s) = Returned (200, "")).
Proof.
  intros Hp. unfold docker.handleToolsList. rewrite Hp. split.
  - intros s' code body. destruct (Stdout_Read _ _ _) as [o' [[data e]| |]]; try discriminate.
    intros [= _ <- _]. reflexivity.
  - intros pr Hfd Hpr Hex Hpe Hcl. simpl.
    unfold Stdin_Write. rewrite Hfd, Hpr, Hex. destruct (negb (stdin_open pr)); simpl;
      unfold Stdout_Read, pipe_read; rewrite Hpr, Hpe, Hcl; reflexivity.
Qed.

End Exchange.

Lemma lone_call_gets_its_reply_witness :
  let r := @run ascii_codec simple_engine demo_started
             [Send 1 Background "echo" "echo" (who "A");
              ChildWrites (docker.Stdout demo_entry) demo_reply; Recv 1] in
  results r !! 1%nat = Some (@docker.CallTool_parse ascii_codec demo_reply) /\
  reading r !! 1%nat = None /\
  (pending ∘ stdout) <$> procs (docker.os (state r)) !! docker.Stdout demo_entry = Some [].
Proof.
  apply (@lone_call_gets_its_reply ascii_codec simple_engine Background "echo" "echo" (who "A")
           demo_started demo_entry demo_child
           (json_encode (docker.tools_call_req "echo" (who "A") (docker.ID demo_entry)))
           demo_reply);
    try (vm_compute; reflexivity); vm_compute; discriminate.
Defined.

Lemma GetServiceLogs_waits_for_stderr_witness :
  snd (await 5 (@handler.GetServiceLogs simple_engine Background "echo") demo_started) = Blocked.
Proof.
  apply (@GetServiceLogs_waits_for_stderr simple_engine 5 Background "echo" demo_started
           demo_entry 0%nat).
  - vm_compute. reflexivity.
  - reflexivity.
  - exists demo_child. vm_compute. auto.
Defined.

Lemma initAndServe_only_writes_witness :
  exists s' pr',
    @docker.initAndServe ascii_codec simple_engine "echo" 0 demo_launched = (s', Blocked) /\
    procs (docker.os s') !! docker.Stdin demo_entry = Some pr' /\
    stdin_data pr' = stdin_data demo_new_child
                       +:+ (@docker.marshal_or_nil ascii_codec docker.initReq +:+ newline)
                       +:+ (@docker.marshal_or_nil ascii_codec docker.notifReq +:+ newline) /\
    stdout pr' = stdout demo_new_child /\
    clock (docker.os s') = (clock (docker.os demo_launched) + 2000)%N /\
    docker.running (docker.mgr s') = docker.running (docker.mgr demo_launched).
Proof.
  apply (@initAndServe_only_writes ascii_codec simple_engine "echo" 0 demo_launched demo_entry
           demo_new_child); vm_compute; reflexivity.
Defined.

Lemma handleToolsList_reports_no_failure_witness :
  (forall s' code body,
     @docker.handleToolsList ascii_codec simple_engine "echo" demo_crashed
     = (s', Returned (code, body)) -> code = 200) /\
  (forall pr, docker.Stdin demo_entry = docker.Stdout demo_entry ->
     procs (docker.os demo_crashed) !! docker.Stdout demo_entry = Some pr ->
     exited pr = true -> pending (stdout pr) = [] -> closed (stdout pr) = true ->
     snd (@docker.handleToolsList ascii_codec simple_engine "echo" demo_crashed)
     = Returned (200, "")).
Proof.
  apply (@handleToolsList_reports_no_failure ascii_codec simple_engine "echo" demo_crashed
           demo_entry).
  vm_compute. reflexivity.
Defined.

Example handleToolsList_of_dead_child :
  snd (@docker.handleToolsList ascii_codec simple_engine "echo" demo_crashed)
  = Returned (200, "").
Proof. vm_compute. reflexivity. Qed.

(** ** The stdio Gateway and its HTTP server *)

Section GatewayMethods.
Context {codec : Codec}.
Implicit Types (s : mcp.State) (ctx : Context).

(** The HTTP server of package mcp never serves a call: its Gateway is
    its own and nothing starts a process in it, so every request is
    answered 400 (body not decodable) or 500 "process default not
    running", and the server is in the end as [NewHTTPServer] made it. *)
Theorem HTTPServer_never_succeeds (o : OS) (reqs : list (Context * request)) :
  serve_all reqs (NewHTTPServer o) = (NewHTTPServer o, map (fun cr => refusal (snd cr)) reqs).
Proof.
  assert (H : mcp.processes (mcp.gw (NewHTTPServer o)) !! "default" = None) by apply lookup_empty.
  revert H. generalize (NewHTTPServer o). intros s H.
  induction reqs as [|[ctx r] reqs IH]; [reflexivity|].
  assert (E : serve ctx r s = (s, refusal r)).
  { destruct r as [[err|[tool arguments]]|]; simpl; [reflexivity|..].
    - unfold mcp.HandleToolCall, mcp.CallTool. rewrite H. reflexivity.
    - unfold mcp.HandleToolsList, mcp.ListTools. rewrite H. reflexivity. }
  cbn [serve_all map snd]. rewrite E, IH. reflexivity.
Qed.

(** Stopping a Gateway process is idempotent: after a stop that
    returned, another returns nil and changes nothing, and a call is
    refused with "not running". *)
Theorem StopProcess_idempotent (name : string) (s s1 : mcp.State) (r : option error) :
  mcp.StopProcess name s = (s1, Returned r) ->
  r = None /\
  mcp.StopProcess name s1 = (s1, Returned None) /\
  forall ctx toolName args,
    mcp.CallTool ctx name toolName args s1
    = (s1, Returned (inl (Errorf ("process " +:+ name +:+ " not running")))).
Proof.
  unfold mcp.StopProcess, mcp.CallTool.
  destruct (mcp.processes (mcp.gw s) !! name) as [p|] eqn:Ep.
  - destruct (Cmd_Wait _ _); try discriminate. intros [= <- <-]. simpl.
    rewrite lookup_delete_eq. auto.
  - intros [= <- <-]. rewrite Ep. auto.
Qed.

Lemma ReadBytes_go_returns buf chunks cl : fst (mcp.ReadBytes_go buf chunks cl) <> Panicked.
Proof.
  revert buf. induction chunks as [|c more IH]; intros buf; simpl;
    destruct (mcp.split_line "" buf) as [[line rest]|]; simpl; try discriminate.
  - destruct cl; simpl; discriminate.
  - apply IH.
Qed.

Lemma ReadBytes_entry name p s :
  snd (mcp.ReadBytes name p s) <> Panicked /\
  exists p', mcp.processes (mcp.gw (fst (mcp.ReadBytes name p s))) !! name = Some p' \/
             fst (mcp.ReadBytes name p s) = s.
Proof.
  unfold mcp.ReadBytes. destruct (procs (mcp.os s) !! fst (mcp.Stdout p)) as [pr|].
  - pose proof (ReadBytes_go_returns (snd (mcp.Stdout p)) (pending (stdout pr)) (closed (stdout pr))) as H.
    destruct (mcp.ReadBytes_go _ _ _) as [r [buf pipe']]. simpl in *. split; [exact H|].
    eexists. left. apply lookup_insert_eq.
  - simpl. split; [discriminate|]. exists p. right. reflexivity.
Qed.

Lemma sendRequest_registered ctx name req s p :
  mcp.processes (mcp.gw s) !! name = Some p ->
  snd (mcp.sendRequest false ctx name req s) <> Panicked /\
  snd (mcp.sendRequest false ctx name req s) <> Blocked /\
  mcp.processes (mcp.gw (fst (mcp.sendRequest false ctx name req s))) = mcp.processes (mcp.gw s).
Proof.
  intros Hp. unfold mcp.sendRequest. destruct (Marshal _) as [err|data]; [simpl; auto|].
  rewrite Hp. destruct (Stdin_Write _ _ _) as [o r]. simpl. auto.
Qed.

Lemma readResponse_registered ctx name s p :
  mcp.processes (mcp.gw s) !! name = Some p ->
  snd (mcp.readResponse ctx name s) <> Panicked.
Proof.
  intros Hp. unfold mcp.readResponse. destruct (mcp.readResponse_select _ _); try (simpl; discriminate).
  rewrite Hp. destruct (ReadBytes_entry name p s) as [H _].
  destruct (mcp.ReadBytes name p s) as [s' [[data [err|]]| |]]; simpl in *; try discriminate; auto.
  destruct (Unmarshal data); simpl; discriminate.
Qed.

Lemma exchange_registered ctx name req s p :
  mcp.processes (mcp.gw s) !! name = Some p ->
  forall s' r, mcp.sendRequest false ctx name req s = (s', Returned r) ->
  snd (mcp.readResponse ctx name s') <> Panicked.
Proof.
  intros Hp s' r E. destruct (sendRequest_registered ctx name req s p Hp) as (_ & _ & Hsame).
  rewrite E in Hsame. simpl in Hsame. apply (readResponse_registered ctx name s' p).
  rewrite Hsame. exact Hp.
Qed.

Ltac no_panic_after_send Hp :=
  match goal with
  | |- context [mcp.sendRequest false ?ctx ?name ?req ?s] =>
      let Hs := fresh "Hs" in let Hx := fresh "Hx" in
      destruct (sendRequest_registered ctx name req s _ Hp) as (Hs & _ & _);
      pose proof (exchange_registered ctx name req s _ Hp) as Hx;
      destruct (mcp.sendRequest false ctx name req s) as [s' [[err|]| |]]; simpl in *;
      try discriminate; try congruence;
      specialize (Hx s' None eq_refl);
      destruct (mcp.readResponse ctx name s') as [s'' [[err|resp]| |]]; simpl in *;
      try discriminate; try congruence
  end.

(** Run one at a time, the methods of the Gateway never reach the nil
    process that [sendRequest] and [readResponse] would dereference for
    an unregistered name: each checks, or registers, before it sends. *)
Theorem Gateway_methods_never_panic (ctx : Context) (name image toolName : string)
    (cmdArgs env : list string) (args : json) (s : mcp.State) :
  snd (mcp.StartProcess ctx name image cmdArgs env s) <> Panicked /\
  snd (mcp.StopProcess name s) <> Panicked /\
  snd (mcp.CallTool ctx name toolName args s) <> Panicked /\
  snd (mcp.ListTools ctx name s) <> Panicked.
Proof.
  repeat split.
  - unfold mcp.StartProcess. destruct (mcp.processes (mcp.gw s) !! name); [simpl; discriminate|].
    destruct (exec_Start _ _ _ _ _) as [o [err|pid]]; simpl; discriminate.
  - unfold mcp.StopProcess. destruct (mcp.processes (mcp.gw s) !! name) as [p|]; [|simpl; discriminate].
    unfold Cmd_Wait. destruct (procs _ !! mcp.Cmd p) as [pr|]; [destruct (exited pr)|]; simpl; discriminate.
  - unfold mcp.CallTool. destruct (mcp.processes (mcp.gw s) !! name) as [p|]; [|simpl; discriminate].
    match goal with |- context [mcp.sendRequest _ _ _ _ ?s0] =>
      assert (Hp : mcp.processes (mcp.gw s0) !! name
                   = Some (mcp.set_ID (int_wrap (mcp.Proc_ID p + 1)) p))
        by apply lookup_insert_eq
    end.
    no_panic_after_send Hp.
    destruct (mcp.Error resp); [simpl; discriminate|].
    destruct (mcp.Result resp) as [doc|]; [|simpl; discriminate].
    destruct (as_map doc); simpl; discriminate.
  - unfold mcp.ListTools. destruct (mcp.processes (mcp.gw s) !! name) as [p|] eqn:Hp; [|simpl; discriminate].
    no_panic_after_send Hp.
    destruct (mcp.Error resp); [simpl; discriminate|].
    destruct (mcp.Result resp) as [doc|]; [|simpl; discriminate].
    destruct (as_map doc) as [err|result]; [simpl; discriminate|].
    destruct (member result "tools"); simpl; discriminate.
Qed.

End GatewayMethods.

Lemma StopProcess_idempotent_witness :
  @None error = None /\
  mcp.StopProcess "echo" demo_gateway_stopped = (demo_gateway_stopped, Returned None) /\
  forall ctx toolName args,
    @mcp.CallTool ascii_codec ctx "echo" toolName args demo_gateway_stopped
    = (demo_gateway_stopped, Returned (inl (Errorf ("process " +:+ "echo" +:+ " not running")))).
Proof.
  apply (@StopProcess_idempotent ascii_codec "echo" demo_gateway demo_gateway_stopped None).
  vm_compute. reflexivity.
Defined.

(** ** Panics, and the Gateway's request ids *)

Section Panics.
Context {codec : Codec} {api : DockerAPI}.
Implicit Types (s : docker.State) (ctx : Context).

Lemma HasPrefix_cons (a b : ascii) (pre str : string) :
  HasPrefix (String b str) (String a pre) = true -> a = b /\ HasPrefix str pre = true.
Proof.
  unfold HasPrefix. simpl. destruct (ascii_dec a b) as [->|]; [auto|discriminate].
Qed.

Lemma Fields_uvx image : HasPrefix image "uvx " = true -> Fields image <> [].
Proof.
  intros H.
  destruct image as [|a1 image]; [discriminate|]. apply HasPrefix_cons in H as [<- H].
  destruct image as [|a2 image]; [discriminate|]. apply HasPrefix_cons in H as [<- H].
  destruct image as [|a3 image]; [discriminate|]. apply HasPrefix_cons in H as [<- H].
  destruct image as [|a4 image]; [discriminate|]. apply HasPrefix_cons in H as [<- H].
  unfold Fields. destruct image as [|a5 image]; simpl; discriminate.
Qed.

Lemma find_container_Panicked name cs :
  docker.find_container name cs = Panicked -> exists c, c ∈ cs /\ types.Names c = [].
Proof.
  induction cs as [|c cs IH]; simpl; [discriminate|].
  destruct (types.Names c) as [|n rest] eqn:En.
  - intros _. exists c. split; [left|exact En].
  - destruct (String.eqb n name); [discriminate|]. intros H.
    destruct (IH H) as (c' & Hin & Hn). exists c'. split; [right; exact Hin|exact Hn].
Qed.

Lemma launch_returns c n port args env s : args <> [] -> snd (docker.launch c n port args env s) <> Panicked.
Proof.
  intros Ha. unfold docker.launch. destruct args; [contradiction|].
  destruct (exec_Start _ _ _ _ _) as [o [err|pid]]; simpl; discriminate.
Qed.

Lemma pipe_read_go_returns max chunks cl : fst (pipe_read_go max chunks cl) <> Panicked.
Proof.
  induction chunks as [|c rest IH]; simpl.
  - destruct cl; simpl; discriminate.
  - destruct (String.eqb c ""); [exact IH|]. destruct (_ <=? _)%N; simpl; discriminate.
Qed.

Lemma Stdout_Read_returns pid max o : snd (Stdout_Read pid max o) <> Panicked.
Proof.
  unfold Stdout_Read, pipe_read. destruct (procs o !! pid) as [pr|]; [|simpl; discriminate].
  pose proof (pipe_read_go_returns max (pending (stdout pr)) (closed (stdout pr))) as H.
  destruct (pipe_read_go _ _ _). exact H.
Qed.

Lemma Stderr_Read_returns pid max o : snd (Stderr_Read pid max o) <> Panicked.
Proof.
  unfold Stderr_Read, pipe_read. destruct (procs o !! pid) as [pr|]; [|simpl; discriminate].
  pose proof (pipe_read_go_returns max (pending (stderr pr)) (closed (stderr pr))) as H.
  destruct (pipe_read_go _ _ _). exact H.
Qed.

Lemma Cmd_Wait_returns pid o : Cmd_Wait pid o <> Panicked.
Proof. unfold Cmd_Wait. destruct (procs o !! pid) as [pr|]; [destruct (exited pr)|]; discriminate. Qed.

Lemma refresh_all_Panicked cs l :
  docker.refresh_all cs l = Panicked -> exists c, c ∈ cs /\ types.Names c = [].
Proof.
  induction l as [|svc l IH]; simpl; [discriminate|].
  unfold docker.refresh_from_engine.
  destruct (docker.find_container _ cs) as [[c|]| |] eqn:E; try discriminate.
  - destruct (types.Ports c); (destruct (docker.refresh_all cs l); [discriminate..|auto]).
  - destruct (docker.refresh_all cs l); [discriminate..|auto].
  - intros _. eapply find_container_Panicked. exact E.
Qed.

Ltac nameless Ec E Ef :=
  split; [exact Ec|]; destruct (find_container_Panicked _ _ Ef) as (c & Hin & Hn); eauto 6.

Lemma StopService_panics ctx n s :
  snd (docker.StopService ctx n s) = Panicked -> nameless_container s.
Proof.
  unfold docker.StopService. destruct (docker.running (docker.mgr s) !! n) as [p|].
  - pose proof (Cmd_Wait_returns (docker.Cmd p) (Stdin_Close (docker.Stdin p) (docker.os s))) as H.
    destruct (Cmd_Wait _ _); simpl; try discriminate. contradiction.
  - destruct (docker.client (docker.mgr s)) eqn:Ec; [|discriminate].
    destruct (ContainerList _ _) as [err|cs] eqn:E; [discriminate|].
    destruct (docker.find_container _ cs) as [[c|]| |] eqn:Ef; try discriminate.
    + destruct (ContainerStop _ _). discriminate.
    + intros _. nameless Ec E Ef.
Qed.

(** The one way to a panic.  An operation of the manager panics only
    when the engine lists a container without a name: the command line
    of a child is never empty, and reading a pipe does not panic.
    ([RemoveService] lists the containers after its [StopService].) *)
Theorem panics_need_nameless_container (ctx : Context) (svcName toolName : string) (args : json)
    (s : docker.State) :
  (snd (docker.StartService ctx svcName s) = Panicked -> nameless_container s) /\
  (snd (docker.StopService ctx svcName s) = Panicked -> nameless_container s) /\
  (snd (docker.RemoveService ctx svcName s) = Panicked ->
   nameless_container s \/ nameless_container (fst (docker.StopService ctx svcName s))) /\
  (snd (docker.GetServices ctx s) = Panicked -> nameless_container s) /\
  (snd (docker.CallTool ctx svcName toolName args s) = Panicked -> False) /\
  (snd (docker.GetContainerLogs ctx svcName s) = Panicked -> nameless_container s).
Proof.
  split; [|split; [|split; [|split; [|split]]]].
  - unfold docker.StartService. destruct (docker.find_service _ _) as [svc|]; [|discriminate].
    destruct (docker.running (docker.mgr s) !! svcName); [discriminate|].
    destruct (negb (String.eqb (config.Command svc) "")).
    { intros H. exfalso. revert H. apply launch_returns. discriminate. }
    destruct (HasPrefix (config.Image svc) "uvx ") eqn:Eu.
    { intros H. exfalso. revert H. apply launch_returns, Fields_uvx, Eu. }
    destruct (docker.client (docker.mgr s)) eqn:Ec.
    2:{ intros H. exfalso. revert H. apply launch_returns. discriminate. }
    unfold docker.startDockerContainer.
    destruct (ContainerList _ _) as [err|cs] eqn:E; [discriminate|].
    destruct (docker.find_container _ cs) as [[c|]| |] eqn:Ef; try discriminate.
    + destruct (String.eqb _ _); [discriminate|]. destruct (ContainerStart _ _). discriminate.
    + destruct (ContainerCreate _ _ _ _) as [e [err|id]]; [discriminate|].
      destruct (ContainerStart _ _). discriminate.
    + intros _. nameless Ec E Ef.
  - apply StopService_panics.
  - unfold docker.RemoveService.
    pose proof (StopService_panics ctx svcName s) as Hstop.
    destruct (docker.StopService ctx svcName s) as [s1 [r| |]]; simpl in *; [|discriminate|auto].
    destruct (docker.client (docker.mgr s1)) eqn:Ec; [|discriminate].
    destruct (ContainerList _ _) as [err|cs] eqn:E; [discriminate|].
    destruct (docker.find_container _ cs) as [[c|]| |] eqn:Ef; try discriminate.
    + destruct (ContainerRemove _ _). discriminate.
    + intros _. right. nameless Ec E Ef.
  - unfold docker.GetServices. simpl.
    destruct (docker.client (docker.mgr s)) eqn:Ec; [|discriminate].
    destruct (ContainerList _ _) as [err|cs] eqn:E; [discriminate|].
    destruct (docker.refresh_all cs _) as [l| |] eqn:Ef; try discriminate.
    intros _. split; [exact Ec|]. destruct (refresh_all_Panicked _ _ Ef) as (c & Hin & Hn). eauto 6.
  - unfold docker.CallTool, docker.CallTool_send.
    destruct (docker.running (docker.mgr s) !! svcName) as [p|]; [|discriminate].
    destruct (Marshal _) as [err|data]; [discriminate|].
    destruct (Stdin_Write _ _ _) as [o [err|]]; [discriminate|].
    unfold docker.CallTool_recv. simpl.
    pose proof (Stdout_Read_returns (docker.Stdout p) 65536 o) as H.
    destruct (Stdout_Read _ _ _) as [o' [[d [e|]]| |]]; simpl in *; try discriminate;
      try contradiction. destruct e; discriminate.
  - unfold docker.GetContainerLogs.
    assert (Hengine :
      snd (if docker.client (docker.mgr s)
           then match ContainerList (docker.dk s) false with
                | inl err => (s, Returned ("", Some err))
                | inr cs =>
                    match docker.find_container ("/" +:+ docker.containerName svcName) cs with
                    | Returned (Some c) =>
                        match ContainerLogs (docker.dk s) (types.ID c) with
                        | inl err => (s, Returned ("", Some err))
                        | inr body => (s, Returned (body, None))
                        end
                    | Returned None =>
                        (s, Returned ("", Some (Errorf ("no logs available for " +:+ svcName))))
                    | Blocked => (s, Blocked)
                    | Panicked => (s, Panicked)
                    end
                end
           else (s, Returned ("", Some (Errorf ("no logs available for " +:+ svcName)))))
      = Panicked -> nameless_container s).
    { destruct (docker.client (docker.mgr s)) eqn:Ec; [|discriminate].
      destruct (ContainerList _ _) as [err|cs] eqn:E; [discriminate|].
      destruct (docker.find_container _ cs) as [[c|]| |] eqn:Ef; try discriminate.
      - destruct (ContainerLogs _ _); discriminate.
      - intros _. nameless Ec E Ef. }
    destruct (docker.running (docker.mgr s) !! svcName) as [p|]; [|exact Hengine].
    destruct (docker.Stderr p) as [fd|]; [|exact Hengine].
    pose proof (Stderr_Read_returns fd 4096 (docker.os s)) as H.
    destruct (Stderr_Read _ _ _) as [o' [[d e]| |]]; simpl in *; try discriminate. contradiction.
Qed.

End Panics.

(** And that way exists: with a nameless container listed, listing the
    services panics. *)
Example GetServices_panics_on_nameless_container :
  snd (@docker.GetServices simple_engine Background demo_nameless_state) = Panicked.
Proof. vm_compute. reflexivity. Qed.

Section GatewayCounter.
Context {codec : Codec}.
Implicit Types (s : mcp.State) (ctx : Context).

Lemma update_proc_stdin_data pid pipe' o k :
  stdin_data <$> procs (update_proc pid (with_stdout pipe') o) !! k = stdin_data <$> procs o !! k.
Proof.
  destruct (decide (k = pid)) as [->|Hne].
  - destruct (procs o !! pid) as [pr|] eqn:E.
    + rewrite (update_proc_same _ _ _ _ E). reflexivity.
    + unfold update_proc. rewrite E. simpl. rewrite E. reflexivity.
  - rewrite update_proc_other by exact Hne. reflexivity.
Qed.

Lemma readResponse_frame ctx name s p k :
  mcp.processes (mcp.gw s) !! name = Some p ->
  stdin_data <$> procs (mcp.os (fst (mcp.readResponse ctx name s))) !! k
    = stdin_data <$> procs (mcp.os s) !! k /\
  mcp.Proc_ID <$> mcp.processes (mcp.gw (fst (mcp.readResponse ctx name s))) !! name
    = Some (mcp.Proc_ID p).
Proof.
  intros Hp. unfold mcp.readResponse.
  destruct (mcp.readResponse_select _ _); simpl; try (rewrite Hp; auto).
  assert (H : stdin_data <$> procs (mcp.os (fst (mcp.ReadBytes name p s))) !! k
              = stdin_data <$> procs (mcp.os s) !! k /\
              mcp.Proc_ID <$> mcp.processes (mcp.gw (fst (mcp.ReadBytes name p s))) !! name
              = Some (mcp.Proc_ID p)).
  { unfold mcp.ReadBytes. destruct (procs (mcp.os s) !! fst (mcp.Stdout p)) as [pr|]; simpl.
    - destruct (mcp.ReadBytes_go _ _ _) as [r [buf pipe']]. simpl.
      rewrite update_proc_stdin_data, lookup_insert_eq. auto.
    - rewrite Hp. auto. }
  destruct (mcp.ReadBytes name p s) as [s' [[data [err|]]| |]]; simpl in *; auto.
  destruct (Unmarshal data); simpl; auto.
Qed.

(** [ListTools] numbers its request 1 whatever the counter says, and
    leaves the counter alone: for a registered process whose child
    lives, the child's input grows by one line, the encoding of a
    [tools/list] request with id 1, and [Proc_ID] is what it was. *)
Theorem ListTools_uses_id_1 (ctx : Context) (name : string) (s : mcp.State) (p : mcp.Process)
    (pr : Proc) (data : string) :
  mcp.processes (mcp.gw s) !! name = Some p ->
  procs (mcp.os s) !! mcp.Stdin p = Some pr ->
  stdin_open pr = true -> exited pr = false ->
  Marshal (mcp.request_doc (mcp.mkRequest "2.0" "tools/list" None (Some 1))) = inr data ->
  stdin_data <$> procs (mcp.os (fst (mcp.ListTools ctx name s))) !! mcp.Stdin p
    = Some (stdin_data pr +:+ data +:+ newline) /\
  mcp.Proc_ID <$> mcp.processes (mcp.gw (fst (mcp.ListTools ctx name s))) !! name
    = Some (mcp.Proc_ID p).
Proof.
  intros Hp Hpr Hopen Hex Hm. unfold mcp.ListTools, mcp.sendRequest. rewrite Hp, Hm.
  unfold Stdin_Write. rewrite Hpr, Hopen, Hex. simpl.
  match goal with |- context [mcp.readResponse ctx name ?s1] =>
    destruct (readResponse_frame ctx name s1 p (mcp.Stdin p) Hp) as [Hd Hid];
    assert (Hs : stdin_data <$> procs (mcp.os s1) !! mcp.Stdin p
                 = Some (stdin_data pr +:+ data +:+ newline))
      by (simpl; rewrite (update_proc_same _ _ _ _ Hpr); reflexivity);
    rewrite Hs in Hd;
    destruct (mcp.readResponse ctx name s1) as [s2 [[err|resp]| |]]; simpl in *; auto
  end.
  destruct (mcp.Error resp); simpl; auto.
  destruct (mcp.Result resp) as [doc|]; simpl; auto.
  destruct (as_map doc) as [err|result]; simpl; auto.
  destruct (member result "tools"); simpl; auto.
Qed.

End GatewayCounter.

Lemma ListTools_uses_id_1_witness :
  stdin_data <$> procs (mcp.os (fst (@mcp.ListTools ascii_codec Background "echo" demo_gateway)))
                   !! mcp.Stdin demo_gateway_entry
    = Some (stdin_data demo_gateway_child
            +:+ json_encode (mcp.request_doc (mcp.mkRequest "2.0" "tools/list" None (Some 1)))
            +:+ newline) /\
  mcp.Proc_ID <$> mcp.processes (mcp.gw (fst (@mcp.ListTools ascii_codec Background "echo"
                                                demo_gateway))) !! "echo"
    = Some (mcp.Proc_ID demo_gateway_entry).
Proof.
  apply (@ListTools_uses_id_1 ascii_codec Background "echo" demo_gateway demo_gateway_entry
           demo_gateway_child); vm_compute; reflexivity.
Defined.

(** ** Waiting for a child to exit, and the call handler *)

Section Waiting.
Context {codec : Codec} {api : DockerAPI}.
Implicit Types (s : docker.State) (ctx : Context).

Lemma Stdin_Close_stubborn fd o pid pr :
  procs o !! pid = Some pr -> exited pr = false -> exits_on_eof pr = false ->
  exists pr', procs (Stdin_Close fd o) !! pid = Some pr' /\
              exited pr' = false /\ exits_on_eof pr' = false.
Proof.
  intros H Hex Heof. unfold Stdin_Close. destruct (decide (pid = fd)) as [->|Hne].
  - rewrite (update_proc_same _ _ _ _ H). eexists. split; [reflexivity|].
    unfold close_stdin. rewrite Heof. simpl. auto.
  - rewrite update_proc_other by exact Hne. eauto.
Qed.

Lemma StopService_stubborn ctx n s p :
  docker.running (docker.mgr s) !! n = Some p -> stubborn s (docker.Cmd p) ->
  exists s', handler.StopService ctx n s = (s', Blocked) /\
             docker.running (docker.mgr s') = docker.running (docker.mgr s) /\
             stubborn s' (docker.Cmd p).
Proof.
  intros Hp (pr & H & Hex & Heof).
  destruct (Stdin_Close_stubborn (docker.Stdin p) (docker.os s) _ _ H Hex Heof)
    as (pr' & H' & Hex' & Heof').
  unfold handler.StopService, handler.lifecycle, docker.StopService, Cmd_Wait.
  rewrite Hp, H', Hex'. eexists. split; [reflexivity|]. split; [reflexivity|].
  exists pr'. auto.
Qed.

(** [StopService] closes the child's stdin and waits for it to exit; it
    never kills.  Against a child that lives on after its input ends,
    the stop has not returned however long one waits, and the service is
    still registered. *)
Theorem StopService_waits_for_exit (k : nat) (ctx : Context) (svcName : string)
    (s : docker.State) (p : docker.ProcessInfo) :
  docker.running (docker.mgr s) !! svcName = Some p ->
  stubborn s (docker.Cmd p) ->
  snd (await k (handler.StopService ctx svcName) s) = Blocked /\
  docker.running (docker.mgr (fst (await k (handler.StopService ctx svcName) s))) !! svcName
  = Some p.
Proof.
  revert s. induction k as [|k IH]; intros s Hp Hs; simpl;
    destruct (StopService_stubborn ctx svcName s p Hp Hs) as (s' & E & Hr & Hs'); rewrite E.
  - simpl. rewrite Hr. auto.
  - apply IH.
    + simpl. rewrite Hr. exact Hp.
    + destruct Hs' as (pr & H & Hex & Heof). exists pr. simpl. auto.
Qed.

(** The answers of the call handler.  400 only for a body that does not
    bind, with the binding error, and then nothing has happened.
    Otherwise the handler answers as [Manager.CallTool] returned, in the
    state that call left: 500 with the manager's error, or 200 with the
    manager's result as data, which takes a registered service. *)
Theorem CallTool_status_codes (ctx : Context) (svcName : string)
    (req : error + (string * json)) (s s' : docker.State) (code : Z) (resp : handler.APIResponse) :
  handler.CallTool ctx svcName req s = (s', Returned (code, resp)) ->
  (exists err, req = inl err /\ code = 400 /\ resp = handler.failure err /\ s' = s) \/
  (exists tool arguments err,
     req = inr (tool, arguments) /\
     docker.CallTool ctx svcName tool arguments s = (s', Returned (inl err)) /\
     code = 500 /\ resp = handler.failure err) \/
  (exists tool arguments result,
     req = inr (tool, arguments) /\
     docker.CallTool ctx svcName tool arguments s = (s', Returned (inr result)) /\
     code = 200 /\ resp = handler.mkAPIResponse true (handler.Result result) None "" /\
     is_Some (docker.running (docker.mgr s) !! svcName)).
Proof.
  unfold handler.CallTool. destruct req as [err|[tool arguments]].
  - intros [= <- <- <-]. left. eauto.
  - destruct (docker.running (docker.mgr s) !! svcName) as [p|] eqn:Hp.
    + destruct (docker.CallTool _ _ _ _ _) as [s1 [[err|result]| |]] eqn:E; try discriminate;
        intros [= <- <- <-]; right; [left|right].
      * exists tool, arguments, err. repeat split; auto.
      * exists tool, arguments, result. repeat split; eauto.
    + pose proof (CallTool_not_running ctx svcName tool arguments s Hp) as E.
      rewrite E. intros [= <- <- <-].
      right. left. exists tool, arguments, (NotRunning svcName). repeat split; auto.
Qed.

End Waiting.

Lemma StopService_waits_for_exit_witness :
  snd (await 5 (@handler.StopService simple_engine Background "echo") demo_stubborn) = Blocked /\
  docker.running (docker.mgr (fst (await 5 (@handler.StopService simple_engine Background "echo")
                                     demo_stubborn))) !! "echo"
  = Some demo_entry.
Proof.
  apply (@StopService_waits_for_exit simple_engine 5 Background "echo" demo_stubborn demo_entry).
  - vm_compute. reflexivity.
  - eexists. vm_compute. auto.
Defined.

Lemma CallTool_status_codes_witness :
  (exists err, @inr error _ ("echo", who "A") = inl err /\ 200 = 400 /\
     handler.mkAPIResponse true (handler.Result demo_stale_result) None "" = handler.failure err /\
     demo_answered_call = demo_answered) \/
  (exists tool arguments err,
     @inr error _ ("echo", who "A") = inr (tool, arguments) /\
     @docker.CallTool ascii_codec simple_engine Background "echo" tool arguments demo_answered
     = (demo_answered_call, Returned (inl err)) /\
     200 = 500 /\
     handler.mkAPIResponse true (handler.Result demo_stale_result) None "" = handler.failure err) \/
  (exists tool arguments result,
     @inr error _ ("echo", who "A") = inr (tool, arguments) /\
     @docker.CallTool ascii_codec simple_engine Background "echo" tool arguments demo_answered
     = (demo_answered_call, Returned (inr result)) /\
     200 = 200 /\
     handler.mkAPIResponse true (handler.Result demo_stale_result) None ""
     = handler.mkAPIResponse true (handler.Result result) None "" /\
     is_Some (docker.running (docker.mgr demo_answered) !! "echo")).
Proof.
  apply (@CallTool_status_codes ascii_codec simple_engine Background "echo"
           (inr ("echo", who "A")) demo_answered demo_answered_call).
  vm_compute. reflexivity.
Defined.
